(** * Blogicum: post visibility, pagination and authorization

    A shallow embedding of [blog/service.py], [blog/mixins.py] and the
    request handlers of [blog/views.py], together with the parts of the
    Django ORM, paginator and form machinery those functions call.

    Conventions.
    - A database table is the list of its rows; a [QuerySet] is the list of
      rows it evaluates to.  Primary keys are unique in a table
      ([unique_pks]); a foreign key holds the primary key of the row it
      points to.
    - Timestamps ([pub_date], [created_at], the clock) are integers.
    - [request.user] is [AnonymousUser] or a row of the user table.
    - Handlers are state-passing functions over the [Store] that may raise
      ([View]); the clock is an argument of the handlers that read it.
    - What the sources call but do not define (the page size constant, the
      default of [is_published], the validation Django derives for each
      form) is a parameter ([Project]).

    The first part holds the model, the second part the properties. *)

From Stdlib Require Import List ZArith String Bool Lia.
From Stdlib Require Import Sorting.Sorted Sorting.Permutation.
From Stdlib Require Import Ascii DecimalString DecimalNat.
Import ListNotations.

Local Open Scope string_scope.
Local Open Scope list_scope.
Local Open Scope Z_scope.

(* ------------------------------------------------------------------ *)
(** ** Entity model ([blog/models.py]) *)

Module User.
(** [django.contrib.auth]'s user, restricted to the attributes the
    handlers and [ProfileEditForm] read or write. *)
Record t := mk {
  pk : Z;
  username : string;
  first_name : string;
  last_name : string;
  email : string;
  is_staff : bool
}.
End User.

Module Category.
Record t := mk {
  pk : Z;
  title : string;
  description : string;
  slug : string;
  is_published : bool;
  created_at : Z
}.
End Category.

Module Post.
Record t := mk {
  pk : Z;
  title : string;
  image : option string;
  text : string;
  pub_date : Z;
  author : Z;                (* ForeignKey(User, CASCADE) *)
  location : option Z;       (* ForeignKey(Location, SET_NULL, null=True) *)
  category : option Z;       (* ForeignKey(Category, SET_NULL, null=True) *)
  likes : list Z;            (* ManyToManyField(User) *)
  is_published : bool;
  created_at : Z
}.
End Post.

Module Comment.
Record t := mk {
  pk : Z;
  text : string;
  comment_post : Z;          (* ForeignKey(Post, CASCADE, related_name='comments') *)
  author : Z;                (* ForeignKey(User, CASCADE) *)
  is_published : bool;
  created_at : Z
}.
End Comment.

(** The relational store the handlers run against.  [post_seq] and
    [comment_seq] are the next primary keys the tables hand out. *)
Record Store := mkStore {
  users : list User.t;
  categories : list Category.t;
  posts : list Post.t;
  comments : list Comment.t;
  post_seq : Z;
  comment_seq : Z
}.

Definition unique_pks (db : Store) : Prop :=
  NoDup (map User.pk (users db)) /\
  NoDup (map Category.pk (categories db)) /\
  NoDup (map Post.pk (posts db)) /\
  NoDup (map Comment.pk (comments db)).

(** [request.user]. *)
Inductive RequestUser :=
| AnonymousUser
| AuthUser (u : User.t).

Definition is_authenticated (r : RequestUser) : bool :=
  match r with AnonymousUser => false | AuthUser _ => true end.

(** [request.user == <the user row with primary key uid>]: model instances
    compare by primary key, and [AnonymousUser] equals no row. *)
Definition user_eq (r : RequestUser) (uid : Z) : bool :=
  match r with
  | AnonymousUser => false
  | AuthUser u => User.pk u =? uid
  end.

(* ------------------------------------------------------------------ *)
(** ** QuerySet operations *)

(** [order_by('-key')]: a stable sort, greatest key first. *)
Section OrderBy.
Context {A : Type} (key : A -> Z).

Fixpoint insert_desc (a : A) (l : list A) : list A :=
  match l with
  | [] => [a]
  | x :: t => if key x <=? key a then a :: l else x :: insert_desc a t
  end.

Definition order_by_desc (l : list A) : list A :=
  fold_right insert_desc [] l.
End OrderBy.

(** [qs.first()]. *)
Definition first {A : Type} (qs : list A) : option A := hd_error qs.

(** [Post.objects.all()], in the model's [Meta.ordering = ['-pub_date']]. *)
Definition Post_objects_all (db : Store) : list Post.t :=
  order_by_desc Post.pub_date (posts db).

(** [x or default] on a queryset argument: [None] and the empty queryset are
    both falsy. *)
Definition py_or {A : Type} (x : option (list A)) (default : list A) : list A :=
  match x with
  | None => default
  | Some [] => default
  | Some l => l
  end.

(** The lookup [category__is_published=True]: the join of the post with its
    category row, kept when that row is published.  A post whose
    [category] is NULL joins with no row. *)
Definition category__is_published (db : Store) (p : Post.t) : bool :=
  match Post.category p with
  | None => false
  | Some cid =>
      existsb (fun c => (Category.pk c =? cid) && Category.is_published c)
              (categories db)
  end.

(** [post.comments.all()]: the comments whose [comment_post] is the post. *)
Definition comments_of (db : Store) (p : Post.t) : list Comment.t :=
  filter (fun c => Comment.comment_post c =? Post.pk p) (comments db).

(** [annotate(comment_count=Count('comments'))]: the post is LEFT OUTER
    JOINed with the comment table on [comment_post_id = post.id] (one joined
    row per matching comment, or a single row with a NULL comment when
    there is none), the rows are grouped by post, and [COUNT] counts the
    rows whose comment key is not NULL. *)
Definition left_join_comments (db : Store) (p : Post.t)
  : list (Post.t * option Comment.t) :=
  match flat_map (fun c => if Comment.comment_post c =? Post.pk p
                           then [(p, Some c)] else [])
                 (comments db) with
  | [] => [(p, None)]
  | joined => joined
  end.

Definition Count (joined : list (Post.t * option Comment.t)) : nat :=
  List.length (filter (fun row => match snd row with Some _ => true | None => false end)
                      joined).

(** A row of the queryset [get_filtered_posts] returns: the post and, when
    the annotation was requested, its [comment_count] attribute. *)
Record PostRow := mkRow {
  row_post : Post.t;
  comment_count : option nat
}.

Definition annotate (db : Store) (p : Post.t) : PostRow :=
  {| row_post := p; comment_count := Some (Count (left_join_comments db p)) |}.

Definition plain (p : Post.t) : PostRow :=
  {| row_post := p; comment_count := None |}.

(** ** [service.get_filtered_posts] *)

(** The three conditions of [posts.filter(pub_date__lte=time_now,
    is_published=True, category__is_published=True)]. *)
Definition visible (db : Store) (time_now : Z) (p : Post.t) : bool :=
  (Post.pub_date p <=? time_now)
  && Bool.eqb (Post.is_published p) true
  && category__is_published db p.

(** [time_now] is the value of [now()], read once per call.
    [select_related] changes how rows are fetched, not which rows. *)
Definition get_filtered_posts (db : Store) (time_now : Z)
    (posts : option (list Post.t)) (apply_filter apply_annotation : bool)
  : list PostRow :=
  let posts := py_or posts (Post_objects_all db) in
  let posts := if apply_filter then filter (visible db time_now) posts else posts in
  let rows := if apply_annotation then map (annotate db) posts else map plain posts in
  order_by_desc (fun r => Post.pub_date (row_post r)) rows.

(* ------------------------------------------------------------------ *)
(** ** Exceptions *)

Inductive Exn :=
| Http404                    (* django.http.Http404 *)
| MultipleObjectsReturned
| PageNotAnInteger           (* django.core.paginator *)
| EmptyPage
| ZeroDivisionError
| ValueError                 (* assigning AnonymousUser to a foreign key *)
| AttributeError.            (* a model form around AnonymousUser *)

(* ------------------------------------------------------------------ *)
(** ** [django.core.paginator.Paginator]

    As instantiated by [paginate]: [orphans = 0] and
    [allow_empty_first_page = True].  The definitions follow the class for a
    positive [per_page]; a zero [per_page] raises [ZeroDivisionError] when
    the page count is first read. *)

(** What [int(request.GET.get('page'))] has to work with: no [page]
    parameter ([None], a [TypeError]), a value that is not an integer
    literal (a [ValueError]), or an integer. *)
Inductive PageArg :=
| NoPage
| NotAnInt
| IntPage (n : Z).

Module Paginator.
Section WithItems.
Context {A : Type}.

Record t := mk {
  object_list : list A;
  per_page : Z
}.

Record Page := mkPage {
  page_object_list : list A;
  number : Z;
  paginator : t
}.

Definition count (self : t) : Z := Z.of_nat (List.length (object_list self)).

(** [ceil(hits / per_page)] *)
Definition ceil_div (a b : Z) : Z := - ((- a) / b).

Definition num_pages (self : t) : Exn + Z :=
  let hits := Z.max 1 (count self - 0) in
  if per_page self =? 0 then inl ZeroDivisionError
  else inr (ceil_div hits (per_page self)).

Definition validate_number (self : t) (number : PageArg) : Exn + Z :=
  match number with
  | NoPage | NotAnInt => inl PageNotAnInteger
  | IntPage number =>
      if number <? 1 then inl EmptyPage
      else match num_pages self with
           | inl e => inl e
           | inr n => if number >? n then inl EmptyPage else inr number
           end
  end.

(** [object_list[bottom:top]] for [0 <= bottom]. *)
Definition slice (l : list A) (bottom top : Z) : list A :=
  firstn (Z.to_nat (top - bottom)) (skipn (Z.to_nat bottom) l).

Definition page (self : t) (number : Z) : Exn + Page :=
  match validate_number self (IntPage number) with
  | inl e => inl e
  | inr number =>
      let bottom := (number - 1) * per_page self in
      let top := bottom + per_page self in
      let top := if top + 0 >=? count self then count self else top in
      inr {| page_object_list := slice (object_list self) bottom top;
             number := number;
             paginator := self |}
  end.

Definition get_page (self : t) (number : PageArg) : Exn + Page :=
  match (match validate_number self number with
         | inr n => inr n
         | inl PageNotAnInteger => inr 1
         | inl EmptyPage => num_pages self
         | inl e => inl e
         end) with
  | inl e => inl e
  | inr number => page self number
  end.

Definition has_next (p : Page) : Exn + bool :=
  match num_pages (paginator p) with
  | inl e => inl e
  | inr n => inr (number p <? n)
  end.

Definition has_previous (p : Page) : bool := number p >? 1.
End WithItems.
Arguments t : clear implicits.
Arguments Page : clear implicits.
End Paginator.

(** ** [service.paginate]

    [page] stands for [request.GET.get('page')]. *)
Definition paginate {A : Type} (queryset : list A) (page : PageArg)
    (items_per_page : Z) : Exn + Paginator.Page A :=
  Paginator.get_page (Paginator.mk queryset items_per_page) page.

(* ------------------------------------------------------------------ *)
(** ** Requests, responses and the handler monad *)

(** [request.POST] / [request.GET]: an ordered multi-dictionary. *)
Definition QueryDict := list (string * string).

(** [form.errors]: field name and message. *)
Definition ErrorDict := list (string * string).

(** The two methods the routes are used with. *)
Inductive Method := GET | POST.

Module HttpRequest.
Record t := mk {
  user : RequestUser;
  method : Method;
  path : string;
  GET_page : PageArg;        (* request.GET.get('page') *)
  POST : QueryDict           (* request.POST together with request.FILES *)
}.
End HttpRequest.

(** Named URLs a handler redirects to. *)
Inductive Url :=
| blog_post_detail (post_id : Z)       (* 'blog:post_detail' *)
| blog_index                           (* 'blog:index' *)
| blog_profile (username : string)     (* 'blog:profile' *)
| login_url (next : string).           (* settings.LOGIN_URL + '?next=' + path *)

(** A [ModelForm] after [is_valid()] has run: [data] is [None] for an
    unbound form; [instance] is the in-memory object the form edits, with
    the fields that validated already assigned ([construct_instance]);
    [errors] is empty for an unbound form. *)
Record ModelForm (I : Type) := mkForm {
  data : option QueryDict;
  instance : I;
  errors : ErrorDict
}.
Arguments mkForm {I}.
Arguments data {I}.
Arguments instance {I}.
Arguments errors {I}.

Definition is_valid {I : Type} (form : ModelForm I) : bool :=
  match data form, errors form with
  | Some _, [] => true
  | _, _ => false
  end.

(** Values of a template context. *)
Inductive Value :=
| VUser (u : User.t)
| VCategory (c : Category.t)
| VPost (p : Post.t)
| VComment (c : Comment.t)
| VComments (cs : list Comment.t)
| VPage (p : Paginator.Page PostRow)
| VPostForm (f : ModelForm Post.t)
| VCommentForm (f : ModelForm Comment.t)
| VProfileForm (f : ModelForm User.t).

Inductive HttpResponse :=
| redirect (to : Url)
| render (template_name : string) (context : list (string * Value))
| HttpResponseNotAllowed               (* 405: the view has no such method *)
| HttpResponseNotFound                 (* the 404 page *)
| HttpResponseServerError.             (* the 500 page *)

(** Handlers read and write the store and may raise. *)
Definition View (A : Type) : Type := Store -> (Exn + A) * Store.

Definition ret {A : Type} (a : A) : View A := fun db => (inr a, db).

Definition raise {A : Type} (e : Exn) : View A := fun db => (inl e, db).

Definition bind {A B : Type} (m : View A) (k : A -> View B) : View B :=
  fun db =>
    match m db with
    | (inl e, db') => (inl e, db')
    | (inr a, db') => k a db'
    end.

Definition read : View Store := fun db => (inr db, db).

Definition write (db' : Store) : View unit := fun _ => (inr tt, db').

Definition lift {A : Type} (r : Exn + A) : View A := fun db => (r, db).

Declare Scope view_scope.
Delimit Scope view_scope with view.
Notation "x <- m ;; k" := (bind m (fun x => k))
  (at level 61, m at next level, right associativity) : view_scope.
Notation "m ;; k" := (bind m (fun _ => k))
  (at level 61, right associativity) : view_scope.

(** What the request cycle sends back for a handler: [Http404] becomes the
    404 page, any other exception the 500 page. *)
Definition respond (v : View HttpResponse) (db : Store) : HttpResponse * Store :=
  match v db with
  | (inr r, db') => (r, db')
  | (inl Http404, db') => (HttpResponseNotFound, db')
  | (inl _, db') => (HttpResponseServerError, db')
  end.

(** [qs.get()] wrapped by [get_object_or_404]: [DoesNotExist] becomes
    [Http404]. *)
Definition get_object_or_404 {A : Type} (matching : list A) : Exn + A :=
  match matching with
  | [] => inl Http404
  | [x] => inr x
  | _ => inl MultipleObjectsReturned
  end.

(** Row writes. *)
Definition set_users (db : Store) (l : list User.t) : Store :=
  mkStore l (categories db) (posts db) (comments db) (post_seq db) (comment_seq db).

Definition set_posts (db : Store) (l : list Post.t) (seq : Z) : Store :=
  mkStore (users db) (categories db) l (comments db) seq (comment_seq db).

Definition set_comments (db : Store) (l : list Comment.t) (seq : Z) : Store :=
  mkStore (users db) (categories db) (posts db) l (post_seq db) seq.

(** [instance.save()] on a row that exists: UPDATE ... WHERE pk = .... *)
Definition User_save (u : User.t) : View unit :=
  fun db =>
    (inr tt,
     set_users db (map (fun r => if User.pk r =? User.pk u then u else r) (users db))).

Definition Post_save (p : Post.t) : View unit :=
  fun db =>
    (inr tt,
     set_posts db (map (fun r => if Post.pk r =? Post.pk p then p else r) (posts db))
               (post_seq db)).

Definition Comment_save (c : Comment.t) : View unit :=
  fun db =>
    (inr tt,
     set_comments db
       (map (fun r => if Comment.pk r =? Comment.pk c then c else r) (comments db))
       (comment_seq db)).

(** [post.delete()]: the row goes, and with it the comments that point to
    it ([on_delete=CASCADE]). *)
Definition Post_delete (p : Post.t) : View unit :=
  fun db =>
    (inr tt,
     mkStore (users db) (categories db)
       (filter (fun r => negb (Post.pk r =? Post.pk p)) (posts db))
       (filter (fun c => negb (Comment.comment_post c =? Post.pk p)) (comments db))
       (post_seq db) (comment_seq db)).

(** [comment.delete()]. *)
Definition Comment_delete (c : Comment.t) : View unit :=
  fun db =>
    (inr tt,
     set_comments db
       (filter (fun r => negb (Comment.pk r =? Comment.pk c)) (comments db))
       (comment_seq db)).

(** [INSERT]: the table hands out the next key; [created_at] is
    [auto_now_add]. *)
Definition Post_insert (time_now : Z) (p : Post.t) : View Post.t :=
  fun db =>
    let row := Post.mk (post_seq db) (Post.title p) (Post.image p) (Post.text p)
                 (Post.pub_date p) (Post.author p) (Post.location p)
                 (Post.category p) (Post.likes p) (Post.is_published p) time_now in
    (inr row, set_posts db (posts db ++ [row]) (post_seq db + 1)).

Definition Comment_insert (time_now : Z) (c : Comment.t) : View Comment.t :=
  fun db =>
    let row := Comment.mk (comment_seq db) (Comment.text c) (Comment.comment_post c)
                 (Comment.author c) (Comment.is_published c) time_now in
    (inr row, set_comments db (comments db ++ [row]) (comment_seq db + 1)).

(** ['needle' in haystack] on strings. *)
Fixpoint contains (needle haystack : string) : bool :=
  String.prefix needle haystack
  || match haystack with
     | EmptyString => false
     | String _ rest => contains needle rest
     end.

(** [request.POST or None]: an empty [QueryDict] is falsy. *)
Definition POST_or_None (request : HttpRequest.t) : option QueryDict :=
  match HttpRequest.POST request with
  | [] => None
  | d => Some d
  end.

(* ------------------------------------------------------------------ *)
(** ** Forms ([blog/forms.py])

    [cleaned_data] holds a field only when the field validated; a model
    form assigns exactly those fields to its instance. *)

Record CommentFormData := mkCommentData {
  cd_text : option string
}.

Record PostFormData := mkPostData {
  cd_title : option string;
  cd_image : option (option string);
  cd_post_text : option string;
  cd_pub_date : option Z;
  cd_location : option (option Z);
  cd_category : option (option Z);
  cd_likes : option (list Z);
  cd_is_published : option bool
}.

Record ProfileFormData := mkProfileData {
  cd_username : option string;
  cd_first_name : option string;
  cd_last_name : option string;
  cd_email : option string
}.

(** Parts of the project that the sources at hand call but do not define:
    the constant of [blog/constants.py], the default of
    [PublishedModel.is_published] ([abstract/models.py]), and the field and
    model validation Django derives for each form ([full_clean]), which
    yields [form.errors] and [form.cleaned_data]. *)
Class Project := {
  POSTS_LIMIT : Z;
  is_published_default : bool;
  CommentForm_full_clean : QueryDict -> ErrorDict * CommentFormData;
  PostCreateForm_full_clean : Store -> QueryDict -> ErrorDict * PostFormData;
  ProfileEditForm_full_clean : Store -> User.t -> QueryDict -> ErrorDict * ProfileFormData
}.

Definition assign {A : Type} (cleaned : option A) (current : A) : A :=
  match cleaned with
  | Some v => v
  | None => current
  end.

(** [construct_instance] for the three forms: [CommentForm] has
    [fields = ('text',)]; [PostCreateForm] excludes [created_at] and
    [author]; [ProfileEditForm] has the four name and e-mail fields. *)
Definition construct_comment (cd : CommentFormData) (c : Comment.t) : Comment.t :=
  Comment.mk (Comment.pk c) (assign (cd_text cd) (Comment.text c))
    (Comment.comment_post c) (Comment.author c) (Comment.is_published c)
    (Comment.created_at c).

Definition construct_post (cd : PostFormData) (p : Post.t) : Post.t :=
  Post.mk (Post.pk p)
    (assign (cd_title cd) (Post.title p))
    (assign (cd_image cd) (Post.image p))
    (assign (cd_post_text cd) (Post.text p))
    (assign (cd_pub_date cd) (Post.pub_date p))
    (Post.author p)
    (assign (cd_location cd) (Post.location p))
    (assign (cd_category cd) (Post.category p))
    (assign (cd_likes cd) (Post.likes p))
    (assign (cd_is_published cd) (Post.is_published p))
    (Post.created_at p).

Definition construct_user (cd : ProfileFormData) (u : User.t) : User.t :=
  User.mk (User.pk u)
    (assign (cd_username cd) (User.username u))
    (assign (cd_first_name cd) (User.first_name u))
    (assign (cd_last_name cd) (User.last_name u))
    (assign (cd_email cd) (User.email u))
    (User.is_staff u).

Section Handlers.
Context `{Project}.

Definition CommentForm (data : option QueryDict) (instance : Comment.t)
  : ModelForm Comment.t :=
  match data with
  | None => mkForm None instance []
  | Some d =>
      let '(errs, cd) := CommentForm_full_clean d in
      mkForm (Some d) (construct_comment cd instance) errs
  end.

Definition PostCreateForm (db : Store) (data : option QueryDict) (instance : Post.t)
  : ModelForm Post.t :=
  match data with
  | None => mkForm None instance []
  | Some d =>
      let '(errs, cd) := PostCreateForm_full_clean db d in
      mkForm (Some d) (construct_post cd instance) errs
  end.

Definition ProfileEditForm (db : Store) (data : option QueryDict) (instance : User.t)
  : ModelForm User.t :=
  match data with
  | None => mkForm None instance []
  | Some d =>
      let '(errs, cd) := ProfileEditForm_full_clean db instance d in
      mkForm (Some d) (construct_user cd instance) errs
  end.

(** [Comment()] and [Post()]: unsaved instances.  Key 0 stands for a key
    or foreign key that is not set yet. *)
Definition Comment_new : Comment.t :=
  Comment.mk 0 "" 0 0 is_published_default 0.

Definition Post_new : Post.t :=
  Post.mk 0 "" None "" 0 0 None None [] is_published_default 0.

Local Open Scope view_scope.

(** ** Decorators and mixins *)

(** [@login_required]. *)
Definition login_required (view : HttpRequest.t -> View HttpResponse)
    (request : HttpRequest.t) : View HttpResponse :=
  if is_authenticated (HttpRequest.user request) then view request
  else ret (redirect (login_url (HttpRequest.path request))).

(** [LoginRequiredMixin.dispatch]. *)
Definition LoginRequiredMixin_dispatch
    (super_dispatch : HttpRequest.t -> View HttpResponse)
    (request : HttpRequest.t) : View HttpResponse :=
  if negb (is_authenticated (HttpRequest.user request))
  then ret (redirect (login_url (HttpRequest.path request)))
  else super_dispatch request.

(** [mixins.AuthorRequiredMixin.dispatch]. *)
Definition AuthorRequiredMixin_dispatch (get_object : View Post.t)
    (super_dispatch : HttpRequest.t -> View HttpResponse)
    (request : HttpRequest.t) : View HttpResponse :=
  post <- get_object ;;
  if negb (user_eq (HttpRequest.user request) (Post.author post))
  then ret (redirect (blog_post_detail (Post.pk post)))
  else super_dispatch request.

(** ** Listing views *)

(** The reverse side of a foreign key of [Post] that names no
    [related_name] ([author], [category]): [Post.Meta.default_related_name
    = '%(class)ss'] names the accessor on the user or category row, with
    the lower-cased class name filled in. *)
Definition default_related_name (class : string) : string := class ++ "s".

(** [row.<accessor>.all()] for such a row: under the accessor's name, the
    posts that point to the row, in [Post.Meta.ordering]; under another
    name the attribute lookup raises [AttributeError]. *)
Definition related_posts (accessor : string) (points_here : Post.t -> bool)
    (db : Store) : Exn + list Post.t :=
  if String.eqb accessor (default_related_name "post")
  then inr (filter points_here (Post_objects_all db))
  else inl AttributeError.

(** [user.post.all()] and [category.post.all()], as [views.py] spells
    them. *)
Definition user_post_all (db : Store) (user : User.t) : Exn + list Post.t :=
  related_posts "post" (fun p => Post.author p =? User.pk user) db.

Definition category_post_all (db : Store) (category : Category.t)
  : Exn + list Post.t :=
  related_posts "post"
    (fun p => match Post.category p with
              | Some cid => cid =? Category.pk category
              | None => false
              end) db.

Definition profile (time_now : Z) (request : HttpRequest.t) (username : string)
  : View HttpResponse :=
  db <- read ;;
  user <- lift (get_object_or_404
                  (filter (fun u => String.eqb (User.username u) username) (users db))) ;;
  post <- lift (user_post_all db user) ;;
  post <- (if negb (user_eq (HttpRequest.user request) (User.pk user))
              || negb (is_authenticated (HttpRequest.user request))
           then
             posts <- lift (user_post_all db user) ;;
             ret (get_filtered_posts db time_now (Some posts) true true)
           else ret (map plain post)) ;;
  page_obj <- lift (paginate post (HttpRequest.GET_page request) POSTS_LIMIT) ;;
  ret (render "blog/profile.html"
         [("profile", VUser user); ("page_obj", VPage page_obj)]).

Definition category_posts (time_now : Z) (request : HttpRequest.t)
    (category_slug : string) : View HttpResponse :=
  db <- read ;;
  category <- lift (get_object_or_404
                      (filter (fun c => String.eqb (Category.slug c) category_slug
                                        && Bool.eqb (Category.is_published c) true)
                              (categories db))) ;;
  posts <- lift (category_post_all db category) ;;
  let posts := get_filtered_posts db time_now (Some posts) true true in
  page_obj <- lift (paginate posts (HttpRequest.GET_page request) POSTS_LIMIT) ;;
  ret (render "blog/category.html"
         [("category", VCategory category); ("page_obj", VPage page_obj)]).

Definition index (time_now : Z) (request : HttpRequest.t) : View HttpResponse :=
  db <- read ;;
  let posts := get_filtered_posts db time_now None true true in
  page_obj <- lift (paginate posts (HttpRequest.GET_page request) POSTS_LIMIT) ;;
  ret (render "blog/index.html" [("page_obj", VPage page_obj)]).

(** ** [PostDetailView] *)

(** [PostDetailView.get_object].  After the owner lookup misses, [posts]
    holds [None], which [get_filtered_posts] replaces by all posts. *)
Definition PostDetailView_get_object (time_now : Z) (request : HttpRequest.t)
    (post_id : Z) : View Post.t :=
  db <- read ;;
  let posts := Post_objects_all db in
  let user := HttpRequest.user request in
  let fallback (posts : option (list Post.t)) : View Post.t :=
    row <- lift (get_object_or_404
                   (filter (fun r => Post.pk (row_post r) =? post_id)
                           (get_filtered_posts db time_now posts true false))) ;;
    ret (row_post row) in
  if is_authenticated user then
    match first (filter (fun p => (Post.pk p =? post_id) && user_eq user (Post.author p))
                        posts) with
    | Some post => ret post
    | None => fallback None
    end
  else fallback (Some posts).

(** [post.comments.select_related('author')], in [Comment.Meta.ordering =
    ('created_at',)]. *)
Definition post_comments (db : Store) (p : Post.t) : list Comment.t :=
  order_by_desc (fun c => - Comment.created_at c) (comments_of db p).

Definition PostDetailView (time_now : Z) (request : HttpRequest.t) (post_id : Z)
  : View HttpResponse :=
  match HttpRequest.method request with
  | POST => ret HttpResponseNotAllowed
  | GET =>
      object <- PostDetailView_get_object time_now request post_id ;;
      db <- read ;;
      ret (render "blog/detail.html"
             [("object", VPost object); ("post", VPost object);
              ("form", VCommentForm (CommentForm None Comment_new));
              ("comments", VComments (post_comments db object))])
  end.

(** ** Post mutation views *)

(** [SingleObjectMixin.get_object] of the generic views: the row with the
    key taken from the URL, or [Http404]. *)
Definition SingleObjectMixin_get_object (pk : Z) : View Post.t :=
  db <- read ;;
  lift (get_object_or_404 (filter (fun p => Post.pk p =? pk) (Post_objects_all db))).

(** [Post.get_absolute_url]. *)
Definition get_absolute_url (p : Post.t) : Url := blog_post_detail (Post.pk p).

(** [UpdateView.get] and [UpdateView.post] with [form_class =
    PostCreateForm]; no [get_success_url] is given, so a valid form
    redirects to [get_absolute_url()]. *)
Definition UpdateView_dispatch (pk : Z) (request : HttpRequest.t) : View HttpResponse :=
  object <- SingleObjectMixin_get_object pk ;;
  db <- read ;;
  match HttpRequest.method request with
  | GET =>
      ret (render "blog/create.html"
             [("object", VPost object); ("post", VPost object);
              ("form", VPostForm (PostCreateForm db None object))])
  | POST =>
      let form := PostCreateForm db (Some (HttpRequest.POST request)) object in
      if is_valid form then
        Post_save (instance form) ;;
        ret (redirect (get_absolute_url (instance form)))
      else
        ret (render "blog/create.html"
               [("object", VPost (instance form)); ("post", VPost (instance form));
                ("form", VPostForm form)])
  end.

(** [class PostUpdateView(LoginRequiredMixin, AuthorRequiredMixin,
    UpdateView)]: [dispatch] runs in the order of the bases. *)
Definition PostUpdateView (request : HttpRequest.t) (pk : Z) : View HttpResponse :=
  LoginRequiredMixin_dispatch
    (AuthorRequiredMixin_dispatch (SingleObjectMixin_get_object pk)
       (UpdateView_dispatch pk))
    request.

(** [CreateView.get] and [CreateView.post] with [PostCreateView.form_valid]
    and [PostCreateView.get_success_url]. *)
Definition CreateView_dispatch (time_now : Z) (request : HttpRequest.t)
  : View HttpResponse :=
  db <- read ;;
  match HttpRequest.method request with
  | GET =>
      ret (render "blog/create.html"
             [("form", VPostForm (PostCreateForm db None Post_new))])
  | POST =>
      let form := PostCreateForm db (Some (HttpRequest.POST request)) Post_new in
      if is_valid form then
        match HttpRequest.user request with
        | AnonymousUser => raise ValueError
        | AuthUser u =>
            let p := instance form in
            let p := Post.mk (Post.pk p) (Post.title p) (Post.image p) (Post.text p)
                       (Post.pub_date p) (User.pk u) (Post.location p)
                       (Post.category p) (Post.likes p) (Post.is_published p)
                       (Post.created_at p) in
            _ <- Post_insert time_now p ;;
            ret (redirect (blog_profile (User.username u)))
        end
      else
        ret (render "blog/create.html" [("form", VPostForm form)])
  end.

Definition PostCreateView (time_now : Z) (request : HttpRequest.t) : View HttpResponse :=
  LoginRequiredMixin_dispatch (CreateView_dispatch time_now) request.

Definition delete_post (request : HttpRequest.t) (post_id : Z) : View HttpResponse :=
  login_required (fun request =>
    db <- read ;;
    post <- lift (get_object_or_404 (filter (fun p => Post.pk p =? post_id) (posts db))) ;;
    if negb (user_eq (HttpRequest.user request) (Post.author post)) then
      ret (redirect (blog_post_detail (Post.pk post)))
    else
      match HttpRequest.method request with
      | POST =>
          Post_delete post ;;
          ret (redirect blog_index)
      | GET =>
          let form := PostCreateForm db None post in
          ret (render "blog/create.html" [("form", VPostForm form)])
      end) request.

(** ** Comment views *)

Definition add_comment (time_now : Z) (request : HttpRequest.t) (post_id : Z)
  : View HttpResponse :=
  login_required (fun request =>
    db <- read ;;
    post <- lift (get_object_or_404 (filter (fun p => Post.pk p =? post_id) (posts db))) ;;
    let form := CommentForm (POST_or_None request) Comment_new in
    if is_valid form then
      match HttpRequest.user request with
      | AnonymousUser => raise ValueError
      | AuthUser u =>
          let comment := instance form in
          let comment := Comment.mk (Comment.pk comment) (Comment.text comment)
                           (Post.pk post) (User.pk u)
                           (Comment.is_published comment) (Comment.created_at comment) in
          _ <- Comment_insert time_now comment ;;
          ret (redirect (blog_post_detail (Post.pk post)))
      end
    else
      ret (render "blog/comment.html"
             [("form", VCommentForm form); ("post", VPost post)])) request.

(** [edit_comment] serves both the [edit_comment/] and the
    [delete_comment/] routes and carries no decorator. *)
Definition edit_comment (request : HttpRequest.t) (post_id comment_id : Z)
  : View HttpResponse :=
  db <- read ;;
  post <- lift (get_object_or_404 (filter (fun p => Post.pk p =? post_id) (posts db))) ;;
  comment <- lift (get_object_or_404
                     (filter (fun c => (Comment.pk c =? comment_id)
                                       && (Comment.comment_post c =? Post.pk post))
                             (comments db))) ;;
  if negb (user_eq (HttpRequest.user request) (Comment.author comment)) then
    ret (redirect (blog_post_detail (Post.pk post)))
  else if contains "/delete_comment/" (HttpRequest.path request) then
    match HttpRequest.method request with
    | POST =>
        Comment_delete comment ;;
        ret (redirect (blog_post_detail (Post.pk post)))
    | GET =>
        ret (render "blog/comment.html" [("comment", VComment comment)])
    end
  else
    let form := CommentForm (POST_or_None request) comment in
    if is_valid form then
      Comment_save (instance form) ;;
      ret (redirect (blog_post_detail (Post.pk post)))
    else
      ret (render "blog/comment.html"
             [("form", VCommentForm form); ("comment", VComment (instance form))]).

(** ** Profile *)

(** [edit_profile]: after [is_valid()], [request.user] is the instance
    the first form has assigned to; on failure a second, unbound form is
    built around it and rendered. *)
Definition edit_profile (request : HttpRequest.t) : View HttpResponse :=
  login_required (fun request =>
    db <- read ;;
    match HttpRequest.user request with
    | AnonymousUser => raise AttributeError
    | AuthUser u =>
        let form := ProfileEditForm db (POST_or_None request) u in
        if is_valid form then
          User_save (instance form) ;;
          ret (redirect (blog_profile (User.username (instance form))))
        else
          let form := ProfileEditForm db None (instance form) in
          ret (render "blog/user.html" [("form", VProfileForm form)])
    end) request.
End Handlers.

(* ------------------------------------------------------------------ *)
(** ** Statements of the specification, as the specification words them *)

(** The visibility predicate of the specification: the category check
    passes vacuously for a post without a category. *)
Definition spec_visible (db : Store) (time_now : Z) (p : Post.t) : Prop :=
  Post.pub_date p <= time_now /\
  Post.is_published p = true /\
  (Post.category p = None \/
   exists c, In c (categories db) /\ Post.category p = Some (Category.pk c)
             /\ Category.is_published c = true).

(** The visibility predicate of the query: the post has a category row, and
    that row is published. *)
Definition query_visible (db : Store) (time_now : Z) (p : Post.t) : Prop :=
  Post.pub_date p <= time_now /\
  Post.is_published p = true /\
  exists c, In c (categories db) /\ Post.category p = Some (Category.pk c)
            /\ Category.is_published c = true.

(** The page the specification expects for an integer page number:
    the nearest page of [1 .. num_pages]. *)
Definition spec_nearest_page (num_pages n : Z) : Z :=
  if n <? 1 then 1 else if num_pages <? n then num_pages else n.

(** The page count of a paginator with a positive page size. *)
Definition page_count {A : Type} (items : list A) (S : Z) : Z :=
  Paginator.ceil_div (Z.max 1 (Z.of_nat (List.length items))) S.

(** A store that differs only in the [is_published] flags of its comments. *)
Definition with_comment_flags (flag : Comment.t -> bool) (db : Store) : Store :=
  set_comments db
    (map (fun c => Comment.mk (Comment.pk c) (Comment.text c) (Comment.comment_post c)
                     (Comment.author c) (flag c) (Comment.created_at c))
         (comments db))
    (comment_seq db).

(** Descending order of publication dates. *)
Definition pub_date_desc (r1 r2 : PostRow) : Prop :=
  Post.pub_date (row_post r1) >= Post.pub_date (row_post r2).

(* ------------------------------------------------------------------ *)
(** ** A sample project and store, used by the examples below *)

(** [QueryDict.get]: the last value given for the key. *)
Fixpoint QueryDict_get (key : string) (d : QueryDict) : option string :=
  match d with
  | [] => None
  | (k, v) :: rest =>
      match QueryDict_get key rest with
      | Some v' => Some v'
      | None => if String.eqb k key then Some v else None
      end
  end.

(** [QueryDict.getlist]: every value given for the key, in order. *)
Definition QueryDict_getlist (key : string) (d : QueryDict) : list string :=
  map snd (filter (fun kv => String.eqb (fst kv) key) d).

Module Demo.
(** The validation Django derives for the three forms from the model
    fields they name, with Django's messages, for a submission as a browser
    sends the rendered form: text in ASCII, keys and timestamps as plain
    decimal numerals, no uploaded file.  What lies outside (a user name
    with other than ASCII letters, a quoted local part or an address
    literal in an e-mail address, a signed or padded numeral) is refused.
    The store keeps no [Location] rows, so only the empty choice is valid
    for [location]. *)

Definition between (lo hi : nat) (c : ascii) : bool :=
  ((lo <=? nat_of_ascii c) && (nat_of_ascii c <=? hi))%nat.

Definition is_space (c : ascii) : bool := between 9 13 c || between 28 32 c.

Definition is_alnum (c : ascii) : bool :=
  between 48 57 c || between 65 90 c || between 97 122 c.

Definition one_of (chars : string) (c : ascii) : bool :=
  existsb (Ascii.eqb c) (list_ascii_of_string chars).

Definition all_chars (f : ascii -> bool) (s : string) : bool :=
  forallb f (list_ascii_of_string s).

Definition lower (s : string) : string :=
  string_of_list_ascii
    (map (fun c => if between 65 90 c then ascii_of_nat (nat_of_ascii c + 32) else c)
       (list_ascii_of_string s)).

(** [str.strip()]. *)
Fixpoint lstrip (s : string) : string :=
  match s with
  | EmptyString => EmptyString
  | String c rest => if is_space c then lstrip rest else s
  end.

Fixpoint rstrip (s : string) : string :=
  match s with
  | EmptyString => EmptyString
  | String c rest =>
      match rstrip rest with
      | EmptyString => if is_space c then EmptyString else String c EmptyString
      | kept => String c kept
      end
  end.

Definition strip (s : string) : string := rstrip (lstrip s).

(** [str.split(sep)]. *)
Fixpoint split_on (sep : ascii) (s : string) : list string :=
  match s with
  | EmptyString => [EmptyString]
  | String c rest =>
      if Ascii.eqb c sep then EmptyString :: split_on sep rest
      else match split_on sep rest with
           | seg :: segs => String c seg :: segs
           | [] => [String c EmptyString]
           end
  end.

Definition decimal (n : nat) : string := NilEmpty.string_of_uint (Nat.to_uint n).

(** A plain decimal numeral. *)
Definition parse_nat (s : string) : option nat :=
  match s with
  | EmptyString => None
  | _ => option_map Nat.of_uint (NilEmpty.uint_of_string s)
  end.

Definition value_of (field : string) (d : QueryDict) : string :=
  match QueryDict_get field d with
  | Some v => v
  | None => ""
  end.

Definition required_error (field : string) : ErrorDict :=
  [(field, "This field is required.")].

Definition length_errors (field : string) (max_length : option nat) (v : string)
  : ErrorDict :=
  match max_length with
  | Some n =>
      if (n <? String.length v)%nat
      then [(field, ("Ensure this value has at most " ++ decimal n
                     ++ " characters (it has " ++ decimal (String.length v) ++ ").")%string)]
      else []
  | None => []
  end.

Definition null_errors (field : string) (v : string) : ErrorDict :=
  if existsb (Ascii.eqb Ascii.zero) (list_ascii_of_string v)
  then [(field, "Null characters are not allowed.")]
  else [].

(** [forms.CharField.clean]: the value is stripped; an empty value is an
    error when the field is required and cleans to [''] otherwise. *)
Definition char_field (field : string) (required : bool) (max_length : option nat)
    (d : QueryDict) : ErrorDict * option string :=
  let v := strip (value_of field d) in
  if String.eqb v "" then
    if required then (required_error field, None) else ([], Some "")
  else
    match length_errors field max_length v ++ null_errors field v with
    | [] => ([], Some v)
    | errs => (errs, None)
    end.

(** [forms.DateTimeField.clean], on timestamps written as numerals. *)
Definition datetime_field (field : string) (d : QueryDict) : ErrorDict * option Z :=
  let v := value_of field d in
  if String.eqb v "" then (required_error field, None)
  else match parse_nat (strip v) with
       | Some n => ([], Some (Z.of_nat n))
       | None => ([(field, "Enter a valid date/time.")], None)
       end.

(** [forms.ModelChoiceField.clean] over the rows with the keys [pks]. *)
Definition choice_field (field : string) (required : bool) (pks : list Z)
    (d : QueryDict) : ErrorDict * option (option Z) :=
  let v := value_of field d in
  if String.eqb v "" then
    if required then (required_error field, None) else ([], Some None)
  else
    let invalid :=
      ([(field, "Select a valid choice. That choice is not one of the available choices.")],
       None) in
    match parse_nat v with
    | Some n => if existsb (Z.eqb (Z.of_nat n)) pks then ([], Some (Some (Z.of_nat n)))
                else invalid
    | None => invalid
    end.

(** [forms.ModelMultipleChoiceField.clean] (not required): every value
    must be the key of a row, written the way the key prints; the result is
    the rows with those keys, in table order. *)
Definition is_choice (pks : list Z) (v : string) : bool :=
  match parse_nat v with
  | Some n => String.eqb (decimal n) v && existsb (Z.eqb (Z.of_nat n)) pks
  | None => false
  end.

Definition multiple_choice_field (field : string) (pks : list Z) (d : QueryDict)
  : ErrorDict * option (list Z) :=
  let vs := QueryDict_getlist field d in
  match filter (fun v => negb (is_choice pks v)) vs with
  | [] => ([], Some (filter (fun k => existsb (fun v => match parse_nat v with
                                                        | Some n => Z.of_nat n =? k
                                                        | None => false
                                                        end) vs) pks))
  | v :: _ =>
      ([(field, ("Select a valid choice. " ++ v
                 ++ " is not one of the available choices.")%string)],
       None)
  end.

(** [forms.BooleanField] with [CheckboxInput]: a box that is not sent is
    unchecked. *)
Definition checkbox_field (field : string) (d : QueryDict) : bool :=
  match QueryDict_get field d with
  | None => false
  | Some v =>
      if String.eqb (lower v) "false" then false
      else if String.eqb (lower v) "true" then true
      else negb (String.eqb v "")
  end.

(** [CommentForm]: [text] is a [TextField(max_length=256)]. *)
Definition comment_full_clean (d : QueryDict) : ErrorDict * CommentFormData :=
  let '(e, text) := char_field "text" true (Some 256%nat) d in (e, mkCommentData text).

(** [PostCreateForm]: every editable field of [Post] but [author].
    [title], [text], [pub_date] and [category] are required ([category] is
    [null=True] without [blank=True]); [location] and [likes] are not;
    [image] keeps its value when no file is uploaded. *)
Definition post_full_clean (db : Store) (d : QueryDict) : ErrorDict * PostFormData :=
  let '(e1, title) := char_field "title" true (Some 256%nat) d in
  let '(e2, text) := char_field "text" true None d in
  let '(e3, pub_date) := datetime_field "pub_date" d in
  let '(e4, location) := choice_field "location" false [] d in
  let '(e5, category) := choice_field "category" true (map Category.pk (categories db)) d in
  let '(e6, likes) := multiple_choice_field "likes" (map User.pk (users db)) d in
  (e1 ++ e2 ++ e3 ++ e4 ++ e5 ++ e6,
   mkPostData title None text pub_date location category likes
     (Some (checkbox_field "is_published" d))).

(** [validate_email], for a dot-atom local part and a host name. *)
Definition dot_atom (s : string) : bool :=
  forallb (fun atom => negb (String.eqb atom "")
                       && all_chars (fun c => is_alnum c || one_of "-!#$%&'*+/=?^_`{}|~" c)
                            atom)
          (split_on "." s).

Definition last_char (s : string) : option ascii :=
  hd_error (rev (list_ascii_of_string s)).

Definition first_char (s : string) : option ascii :=
  hd_error (list_ascii_of_string s).

Definition is_some_alnum (c : option ascii) : bool :=
  match c with
  | Some c => is_alnum c
  | None => false
  end.

Definition host_label (s : string) : bool :=
  (String.length s <=? 63)%nat
  && all_chars (fun c => is_alnum c || one_of "-" c) s
  && is_some_alnum (first_char s) && is_some_alnum (last_char s).

Definition top_label (s : string) : bool :=
  (2 <=? String.length s)%nat && (String.length s <=? 63)%nat
  && all_chars (fun c => is_alnum c || one_of "-" c) s
  && negb (match last_char s with
           | Some c => one_of "-" c
           | None => false
           end).

Definition host_name (s : string) : bool :=
  match rev (split_on "." s) with
  | top :: (_ :: _) as labels => top_label top && forallb host_label labels
  | _ => false
  end.

Definition validate_email (v : string) : bool :=
  (String.length v <=? 320)%nat
  && match split_on "@" v with
     | [user; domain] => dot_atom user && (String.eqb domain "localhost" || host_name domain)
     | _ => false
     end.

(** [forms.EmailField.clean] (not required, [max_length=254]). *)
Definition email_field (field : string) (d : QueryDict) : ErrorDict * option string :=
  let v := strip (value_of field d) in
  if String.eqb v "" then ([], Some "")
  else
    match (if validate_email v then [] else [(field, "Enter a valid email address.")])
          ++ length_errors field (Some 254%nat) v ++ null_errors field v with
    | [] => ([], Some v)
    | errs => (errs, None)
    end.

(** [ProfileEditForm]: [username] is required; [first_name], [last_name]
    and [email] are [blank=True] and clean to [''] when they are not sent.
    The character set and the uniqueness of the user name are checked on
    the model, after [construct_instance] has assigned the name. *)
Definition profile_full_clean (db : Store) (instance : User.t) (d : QueryDict)
  : ErrorDict * ProfileFormData :=
  let '(e1, username) := char_field "username" true (Some 150%nat) d in
  let '(e2, first_name) := char_field "first_name" false (Some 150%nat) d in
  let '(e3, last_name) := char_field "last_name" false (Some 150%nat) d in
  let '(e4, email) := email_field "email" d in
  let e5 :=
    match username with
    | None => []
    | Some v =>
        if negb (all_chars (fun c => is_alnum c || one_of "_.@+-" c) v) then
          [("username",
            "Enter a valid username. This value may contain only letters, numbers, and @/./+/-/_ characters.")]
        else if existsb (fun u => String.eqb (User.username u) v
                                  && negb (User.pk u =? User.pk instance)) (users db)
        then [("username", "A user with that username already exists.")]
        else []
    end in
  (e1 ++ e2 ++ e3 ++ e4 ++ e5, mkProfileData username first_name last_name email).

Definition project : Project :=
  {| POSTS_LIMIT := 2;
     is_published_default := true;
     CommentForm_full_clean := comment_full_clean;
     PostCreateForm_full_clean := post_full_clean;
     ProfileEditForm_full_clean := profile_full_clean |}.

Definition alice : User.t := User.mk 1 "alice" "Alice" "A" "alice@example.org" false.
Definition bob : User.t := User.mk 2 "bob" "Bob" "B" "bob@example.org" true.
Definition carol : User.t := User.mk 3 "carol" "Carol" "C" "carol@example.org" false.

Definition travel : Category.t := Category.mk 1 "Travel" "Trips" "travel" true 0.
Definition drafts : Category.t := Category.mk 2 "Drafts" "Hidden" "drafts" false 0.
Definition food : Category.t := Category.mk 3 "Food" "Nothing yet" "food" true 0.

(** The clock of the examples. *)
Definition time_now : Z := 100.

Definition rome : Post.t :=
  Post.mk 1 "Rome" None "..." 10 1 None (Some 1) [] true 5.
(** Published, in the past, without a category. *)
Definition loose : Post.t :=
  Post.mk 2 "Loose" None "..." 20 1 None None [] true 6.
(** Not published. *)
Definition secret : Post.t :=
  Post.mk 3 "Secret" None "..." 30 1 None (Some 1) [] false 7.
(** Scheduled after [time_now]. *)
Definition later : Post.t :=
  Post.mk 4 "Later" None "..." 200 2 None (Some 1) [] true 8.
Definition oslo : Post.t :=
  Post.mk 5 "Oslo" None "..." 40 1 None (Some 1) [] true 9.

Definition praise : Comment.t := Comment.mk 1 "Nice" 1 2 true 50.
Definition rant : Comment.t := Comment.mk 2 "Meh" 1 3 false 60.

Definition db : Store :=
  mkStore [alice; bob; carol] [travel; drafts; food]
    [rome; loose; secret; later; oslo] [praise; rant] 6 3.

Definition request (user : RequestUser) (method : Method) (path : string)
    (POST : QueryDict) : HttpRequest.t :=
  HttpRequest.mk user method path NoPage POST.

(** Carol, who wrote neither post 1 nor comment 1, submits data. *)
Definition intruder : HttpRequest.t :=
  request (AuthUser carol) POST "/posts/1/comment/1/delete_comment/"
    [("title", "Mine"); ("text", "Mine")].

(** Alice submits a profile with an empty user name. *)
Definition bad_profile : HttpRequest.t :=
  request (AuthUser alice) POST "/profile/edit_profile/"
    [("username", ""); ("first_name", "Al")].

(** Bob submits an empty comment text on post 1, and an empty edit of
    his comment 1. *)
Definition bad_comment (path : string) : HttpRequest.t :=
  request (AuthUser bob) POST path [("text", "")].
End Demo.

(* ------------------------------------------------------------------ *)
(** ** Notions used by the further properties *)

(** The items of page [k], empty when that page cannot be computed. *)
Definition page_items {A : Type} (items : list A) (S : Z) (k : Z) : list A :=
  match paginate items (IntPage k) S with
  | inr pg => Paginator.page_object_list pg
  | inl _ => []
  end.

(** The page numbers [1 .. n]. *)
Definition page_range (n : Z) : list Z :=
  map Z.of_nat (seq 1 (Z.to_nat n)).

(** A well-formed store: keys are unique, the sequences are ahead of every
    key handed out, and every comment points to a post of the table. *)
Definition store_ok (db : Store) : Prop :=
  unique_pks db
  /\ (forall p, In p (posts db) -> Post.pk p < post_seq db)
  /\ (forall c, In c (comments db) -> Comment.pk c < comment_seq db)
  /\ (forall c, In c (comments db) ->
        exists p, In p (posts db) /\ Comment.comment_post c = Post.pk p).

(* ------------------------------------------------------------------ *)
(** ** URL configuration ([blog/urls.py]) *)

(** The named routes of [urlpatterns], with the arguments their
    converters capture; [<int:...>] captures a natural number. *)
Module Route.
Inductive t :=
| create_post
| post_detail (post_id : nat)
| edit_post (pk : nat)
| delete_post (post_id : nat)
| add_comment (post_id : nat)
| edit_comment (post_id comment_id : nat)
| delete_comment (post_id comment_id : nat)
| edit_profile
| profile (username : string)
| category_posts (category_slug : string)
| index.
End Route.

(** [str(n)] for the value of an [int] converter. *)
Definition int_to_url (n : nat) : string :=
  NilEmpty.string_of_uint (Nat.to_uint n).

(** [reverse(name, kwargs)], relative to the place the configuration is
    mounted at. *)
Definition route_path (r : Route.t) : string :=
  (match r with
   | Route.create_post => "posts/create/"
   | Route.post_detail post_id => "posts/" ++ int_to_url post_id ++ "/"
   | Route.edit_post pk => "posts/" ++ int_to_url pk ++ "/edit/"
   | Route.delete_post post_id => "posts/" ++ int_to_url post_id ++ "/delete/"
   | Route.add_comment post_id => "posts/" ++ int_to_url post_id ++ "/comment/"
   | Route.edit_comment post_id comment_id =>
       "posts/" ++ int_to_url post_id ++ "/comment/" ++ int_to_url comment_id
       ++ "/edit_comment/"
   | Route.delete_comment post_id comment_id =>
       "posts/" ++ int_to_url post_id ++ "/comment/" ++ int_to_url comment_id
       ++ "/delete_comment/"
   | Route.edit_profile => "profile/edit_profile/"
   | Route.profile username => "profile/" ++ username ++ "/"
   | Route.category_posts category_slug => "category/" ++ category_slug ++ "/"
   | Route.index => ""
   end)%string.

(** The routes whose view carries [@login_required] or
    [LoginRequiredMixin]. *)
Definition login_gated (r : Route.t) : bool :=
  match r with
  | Route.create_post | Route.edit_post _ | Route.delete_post _
  | Route.add_comment _ | Route.edit_profile => true
  | _ => false
  end.

(** The routes whose view reads the accessor [post] of a user or a
    category row ([profile], [category_posts]). *)
Definition reads_post_accessor (r : Route.t) : bool :=
  match r with
  | Route.profile _ | Route.category_posts _ => true
  | _ => false
  end.

Section UrlPatterns.
Context `{Project}.

(** The view each route is bound to, applied to the captured arguments.
    The two comment routes share [edit_comment]. *)
Definition urlpatterns (r : Route.t) (time_now : Z) (request : HttpRequest.t)
  : View HttpResponse :=
  match r with
  | Route.create_post => PostCreateView time_now request
  | Route.post_detail post_id => PostDetailView time_now request (Z.of_nat post_id)
  | Route.edit_post pk => PostUpdateView request (Z.of_nat pk)
  | Route.delete_post post_id => delete_post request (Z.of_nat post_id)
  | Route.add_comment post_id => add_comment time_now request (Z.of_nat post_id)
  | Route.edit_comment post_id comment_id
  | Route.delete_comment post_id comment_id =>
      edit_comment request (Z.of_nat post_id) (Z.of_nat comment_id)
  | Route.edit_profile => edit_profile request
  | Route.profile username => profile time_now request username
  | Route.category_posts category_slug => category_posts time_now request category_slug
  | Route.index => index time_now request
  end.
End UrlPatterns.

(** *** Resolution of a path

    [path()] patterns are matched in the order of [urlpatterns] against the
    whole path, relative to the place the configuration is mounted at.
    Every pattern here is a sequence of segments closed by a slash, so the
    path is cut at its slashes and the segments are compared. *)

(** [path.split('/')]. *)
Fixpoint split_path (s : string) : list string :=
  match s with
  | EmptyString => [EmptyString]
  | String c rest =>
      match split_path rest with
      | seg :: segs =>
          if Ascii.eqb c "/"%char then EmptyString :: seg :: segs
          else String c seg :: segs
      | [] => [String c EmptyString]
      end
  end.

(** The [int] converter: the segment matches [[0-9]+] and is read by
    [int()]. *)
Definition int_converter (s : string) : option nat :=
  option_map Nat.of_uint (NilZero.uint_of_string s).

(** The [str] converter: the segment matches [[^/]+]. *)
Definition str_converter (s : string) : option string :=
  match s with
  | EmptyString => None
  | _ => Some s
  end.

(** The [slug] converter: the segment matches [[-a-zA-Z0-9_]+]. *)
Definition is_slug_char (c : Ascii.ascii) : bool :=
  let n := Ascii.nat_of_ascii c in
  ((48 <=? n) && (n <=? 57) || (65 <=? n) && (n <=? 90) || (97 <=? n) && (n <=? 122)
   || (n =? 45) || (n =? 95))%nat.

Definition slug_converter (s : string) : option string :=
  match s with
  | EmptyString => None
  | _ => if forallb is_slug_char (list_ascii_of_string s) then Some s else None
  end.

Definition resolve (path : string) : option Route.t :=
  match split_path path with
  | [EmptyString] => Some Route.index
  | [app; arg; EmptyString] =>
      if String.eqb app "profile" then
        if String.eqb arg "edit_profile" then Some Route.edit_profile
        else option_map Route.profile (str_converter arg)
      else if String.eqb app "posts" then
        if String.eqb arg "create" then Some Route.create_post
        else option_map Route.post_detail (int_converter arg)
      else if String.eqb app "category" then
        option_map Route.category_posts (slug_converter arg)
      else None
  | [app; arg; action; EmptyString] =>
      if String.eqb app "posts" then
        match int_converter arg with
        | Some n =>
            if String.eqb action "edit" then Some (Route.edit_post n)
            else if String.eqb action "delete" then Some (Route.delete_post n)
            else if String.eqb action "comment" then Some (Route.add_comment n)
            else None
        | None => None
        end
      else None
  | [app; arg; sub; arg2; action; EmptyString] =>
      if String.eqb app "posts" && String.eqb sub "comment" then
        match int_converter arg, int_converter arg2 with
        | Some n, Some m =>
            if String.eqb action "edit_comment" then Some (Route.edit_comment n m)
            else if String.eqb action "delete_comment"
                 then Some (Route.delete_comment n m)
            else None
        | _, _ => None
        end
      else None
  | _ => None
  end.

(** The characters [str(n)] is made of. *)
Definition is_digit (c : Ascii.ascii) : Prop :=
  In c ["0"; "1"; "2"; "3"; "4"; "5"; "6"; "7"; "8"; "9"]%char.

(** The routes [reverse] can name so that the path leads back to them:
    a user name is a non-empty segment other than [edit_profile], a slug
    is a non-empty segment of slug characters. *)
Definition well_formed_route (r : Route.t) : Prop :=
  match r with
  | Route.profile username =>
      username <> EmptyString
      /\ ~ In "/"%char (list_ascii_of_string username)
      /\ username <> "edit_profile"
  | Route.category_posts category_slug =>
      category_slug <> EmptyString
      /\ forallb is_slug_char (list_ascii_of_string category_slug) = true
  | _ => True
  end.

(** User names and category slugs are unique ([unique=True]). *)
Definition unique_names (db : Store) : Prop :=
  NoDup (map User.username (users db)) /\ NoDup (map Category.slug (categories db)).

(* ------------------------------------------------------------------ *)
(** * Properties *)

(** ** Ordering *)

Section OrderByFacts.
Context {A : Type} (key : A -> Z).

Lemma insert_desc_perm (a : A) (l : list A) :
  Permutation (insert_desc key a l) (a :: l).
Proof.
  induction l as [|x t IH]; simpl.
  - apply Permutation_refl.
  - destruct (key x <=? key a).
    + apply Permutation_refl.
    + eapply perm_trans; [apply perm_skip, IH | apply perm_swap].
Qed.

Lemma order_by_desc_perm (l : list A) : Permutation (order_by_desc key l) l.
Proof.
  induction l as [|a t IH]; simpl.
  - constructor.
  - eapply perm_trans; [apply insert_desc_perm | apply perm_skip, IH].
Qed.

Lemma order_by_desc_In (l : list A) (x : A) : In x (order_by_desc key l) <-> In x l.
Proof.
  split; apply Permutation_in;
    [apply order_by_desc_perm | apply Permutation_sym, order_by_desc_perm].
Qed.


Lemma insert_desc_sorted (a : A) (l : list A) :
  StronglySorted (fun x y => key x >= key y) l ->
  StronglySorted (fun x y => key x >= key y) (insert_desc key a l).
Proof.
  induction 1 as [|x t Hs IH Hx]; simpl.
  - repeat constructor.
  - destruct (key x <=? key a) eqn:E.
    + constructor.
      * constructor; assumption.
      * apply Z.leb_le in E. constructor; [lia|].
        eapply Forall_impl; [|exact Hx]. simpl. intros; lia.
    + apply Z.leb_gt in E. constructor; [exact IH|].
      rewrite Forall_forall in *. intros y Hy.
      apply (Permutation_in _ (insert_desc_perm a t)) in Hy.
      destruct Hy as [<-|Hy]; [lia | auto].
Qed.

Lemma order_by_desc_sorted (l : list A) :
  StronglySorted (fun x y => key x >= key y) (order_by_desc key l).
Proof.
  induction l as [|a t IH]; simpl.
  - constructor.
  - apply insert_desc_sorted, IH.
Qed.

End OrderByFacts.

Lemma py_or_self {A : Type} (l : list A) : py_or (Some l) l = l.
Proof. destruct l; reflexivity. Qed.


(** C10: whatever collection is passed and whatever the two switches are,
    the rows [get_filtered_posts] returns are in descending order of
    [pub_date]: every row's date is at least the date of every later row. *)
Theorem get_filtered_posts_ordered
    (db : Store) (time_now : Z) (posts : option (list Post.t))
    (apply_filter apply_annotation : bool) :
  StronglySorted pub_date_desc
    (get_filtered_posts db time_now posts apply_filter apply_annotation).
Proof.
  unfold get_filtered_posts, pub_date_desc.
  apply (order_by_desc_sorted (fun r => Post.pub_date (row_post r))).
Qed.

(** ** The visibility filter *)

Lemma category__is_published_spec (db : Store) (p : Post.t) :
  category__is_published db p = true <->
  exists c, In c (categories db) /\ Post.category p = Some (Category.pk c)
            /\ Category.is_published c = true.
Proof.
  unfold category__is_published.
  destruct (Post.category p) as [cid|].
  - rewrite existsb_exists. split.
    + intros (c & Hin & Hc). apply andb_true_iff in Hc as [Hpk Hpub].
      apply Z.eqb_eq in Hpk. exists c. subst cid. auto.
    + intros (c & Hin & Hcat & Hpub). exists c. split; [assumption|].
      injection Hcat as ->. rewrite Z.eqb_refl. exact Hpub.
  - split; [discriminate|]. intros (c & _ & Hcat & _). discriminate.
Qed.

Lemma visible_spec (db : Store) (time_now : Z) (p : Post.t) :
  visible db time_now p = true <-> query_visible db time_now p.
Proof.
  unfold visible, query_visible.
  rewrite !andb_true_iff, Z.leb_le, eqb_true_iff, category__is_published_spec.
  tauto.
Qed.

Lemma row_post_annotate (db : Store) (l : list Post.t) :
  map row_post (map (annotate db) l) = l.
Proof. rewrite map_map. simpl. apply map_id. Qed.

Lemma row_post_plain (l : list Post.t) : map row_post (map plain l) = l.
Proof. rewrite map_map. simpl. apply map_id. Qed.

(** The posts of the result are the posts of the base collection that pass
    the filter, when the filter is on. *)
Lemma get_filtered_posts_In (db : Store) (time_now : Z) (posts : option (list Post.t))
    (apply_filter apply_annotation : bool) (p : Post.t) :
  In p (map row_post (get_filtered_posts db time_now posts apply_filter apply_annotation))
  <-> In p (py_or posts (Post_objects_all db))
      /\ (apply_filter = true -> visible db time_now p = true).
Proof.
  unfold get_filtered_posts.
  set (base := py_or posts (Post_objects_all db)).
  set (kept := if apply_filter then filter (visible db time_now) base else base).
  set (rows := if apply_annotation then map (annotate db) kept else map plain kept).
  assert (Hrows : map row_post rows = kept).
  { subst rows. destruct apply_annotation;
      [apply row_post_annotate | apply row_post_plain]. }
  assert (Hperm : Permutation
            (map row_post (order_by_desc (fun r => Post.pub_date (row_post r)) rows)) kept).
  { rewrite <- Hrows. apply Permutation_map, order_by_desc_perm. }
  split.
  - intros Hin. apply (Permutation_in _ Hperm) in Hin.
    subst kept. destruct apply_filter.
    + apply filter_In in Hin. tauto.
    + split; [assumption | discriminate].
  - intros [Hin Hvis]. apply (Permutation_in _ (Permutation_sym Hperm)).
    subst kept. destruct apply_filter.
    + apply filter_In. auto.
    + assumption.
Qed.

Lemma Post_objects_all_In (db : Store) (p : Post.t) :
  In p (Post_objects_all db) <-> In p (posts db).
Proof. apply order_by_desc_In. Qed.

(** C1, as the query behaves: with the filter on, a post of the base
    collection is retained exactly when its [pub_date] is not after the
    evaluation time, it is published, and it has a category whose row is
    published.  A post without a category is never retained. *)
Theorem visibility_filter_retains
    (db : Store) (time_now : Z) (posts : option (list Post.t))
    (apply_annotation : bool) (p : Post.t) :
  (In p (map row_post (get_filtered_posts db time_now posts true apply_annotation))
   <-> In p (py_or posts (Post_objects_all db)) /\ query_visible db time_now p)
  /\ (Post.category p = None ->
      ~ In p (map row_post (get_filtered_posts db time_now posts true apply_annotation))).
Proof.
  assert (Hiff : In p (map row_post
                         (get_filtered_posts db time_now posts true apply_annotation))
                 <-> In p (py_or posts (Post_objects_all db)) /\ query_visible db time_now p).
  { rewrite get_filtered_posts_In, <- visible_spec. tauto. }
  split; [exact Hiff|].
  intros Hnone Hin. apply Hiff in Hin as [_ (_ & _ & c & _ & Hcat & _)].
  congruence.
Qed.

Lemma visibility_filter_retains_witness :
  ~ In Demo.loose
      (map row_post (get_filtered_posts Demo.db Demo.time_now None true true))
  /\ (In Demo.rome
        (map row_post (get_filtered_posts Demo.db Demo.time_now None true true))
      <-> In Demo.rome (py_or None (Post_objects_all Demo.db))
          /\ query_visible Demo.db Demo.time_now Demo.rome).
Proof.
  split.
  - exact (proj2 (visibility_filter_retains Demo.db Demo.time_now None true Demo.loose)
             eq_refl).
  - exact (proj1 (visibility_filter_retains Demo.db Demo.time_now None true Demo.rome)).
Defined.

(** The post [Demo.loose] is published, dated before the evaluation time and
    has no category: the specification's predicate holds of it, and the
    filtered index list does not contain it. *)
Lemma null_category_post_is_filtered_out :
  In Demo.loose (posts Demo.db)
  /\ spec_visible Demo.db Demo.time_now Demo.loose
  /\ ~ In Demo.loose
         (map row_post (get_filtered_posts Demo.db Demo.time_now None true true)).
Proof.
  split; [simpl; tauto|]. split.
  - unfold spec_visible. simpl. repeat split; [discriminate | now left].
  - vm_compute. intros [E|[E|[]]]; discriminate.
Qed.

(** ** Comment counts *)

Lemma flat_map_matching (db : Store) (p : Post.t) :
  flat_map (fun c => if Comment.comment_post c =? Post.pk p then [(p, Some c)] else [])
           (comments db)
  = map (fun c => (p, Some c)) (comments_of db p).
Proof.
  unfold comments_of.
  induction (comments db) as [|c t IH]; simpl; [reflexivity|].
  destruct (Comment.comment_post c =? Post.pk p); simpl; now rewrite IH.
Qed.

Lemma Count_left_join (db : Store) (p : Post.t) :
  Count (left_join_comments db p) = List.length (comments_of db p).
Proof.
  unfold Count, left_join_comments. rewrite flat_map_matching.
  assert (Hall : forall l : list Comment.t,
             List.length (filter (fun row : Post.t * option Comment.t =>
                                    match snd row with Some _ => true | None => false end)
                                 (map (fun c => (p, Some c)) l))
             = List.length l).
  { induction l as [|x t IH]; simpl; [reflexivity | now rewrite IH]. }
  destruct (comments_of db p) as [|c cs]; [reflexivity|].
  apply (Hall (c :: cs)).
Qed.

Lemma comments_of_with_flags (flag : Comment.t -> bool) (db : Store) (p : Post.t) :
  List.length (comments_of (with_comment_flags flag db) p)
  = List.length (comments_of db p).
Proof.
  unfold comments_of, with_comment_flags. simpl.
  induction (comments db) as [|c t IH]; simpl; [reflexivity|].
  destruct (Comment.comment_post c =? Post.pk p); simpl; now rewrite IH.
Qed.

Lemma get_filtered_posts_rows (db : Store) (time_now : Z) (posts : option (list Post.t))
    (apply_filter : bool) (r : PostRow) :
  In r (get_filtered_posts db time_now posts apply_filter true) ->
  r = annotate db (row_post r).
Proof.
  unfold get_filtered_posts. rewrite order_by_desc_In, in_map_iff.
  intros (p & <- & _). reflexivity.
Qed.

Lemma annotate_with_flags (flag : Comment.t -> bool) (db : Store) (p : Post.t) :
  annotate (with_comment_flags flag db) p = annotate db p.
Proof.
  unfold annotate. now rewrite !Count_left_join, comments_of_with_flags.
Qed.

Lemma get_filtered_posts_with_flags (flag : Comment.t -> bool) (db : Store)
    (time_now : Z) (posts : option (list Post.t)) (apply_filter apply_annotation : bool) :
  get_filtered_posts (with_comment_flags flag db) time_now posts apply_filter apply_annotation
  = get_filtered_posts db time_now posts apply_filter apply_annotation.
Proof.
  unfold get_filtered_posts.
  replace (Post_objects_all (with_comment_flags flag db)) with (Post_objects_all db)
    by reflexivity.
  replace (visible (with_comment_flags flag db) time_now) with (visible db time_now)
    by reflexivity.
  destruct apply_annotation; [|reflexivity].
  f_equal. apply map_ext. intros p. apply annotate_with_flags.
Qed.

(** C9: with the annotation on, the [comment_count] attached to a returned
    post is the number of rows of the comment table that point to that
    post.  Every such comment is counted, published or not: the count does
    not change when the [is_published] flags of the comments change. *)
Theorem comment_count_exact
    (db : Store) (time_now : Z) (posts : option (list Post.t))
    (apply_filter : bool) (r : PostRow) :
  In r (get_filtered_posts db time_now posts apply_filter true) ->
  comment_count r = Some (List.length (comments_of db (row_post r)))
  /\ (forall c, In c (comments_of db (row_post r))
                <-> In c (comments db)
                    /\ Comment.comment_post c = Post.pk (row_post r))
  /\ (forall flag,
        In r (get_filtered_posts (with_comment_flags flag db) time_now posts
                apply_filter true)).
Proof.
  intros Hin. split; [|split].
  - rewrite (get_filtered_posts_rows _ _ _ _ _ Hin). simpl.
    now rewrite Count_left_join.
  - intros c. unfold comments_of. rewrite filter_In, Z.eqb_eq. tauto.
  - intros flag. now rewrite get_filtered_posts_with_flags.
Qed.

Lemma comment_count_exact_witness :
  In (annotate Demo.db Demo.rome)
     (get_filtered_posts Demo.db Demo.time_now None true true)
  /\ comment_count (annotate Demo.db Demo.rome) = Some 2%nat
  /\ List.length (filter (fun c => Comment.is_published c)
                         (comments_of Demo.db Demo.rome)) = 1%nat.
Proof.
  assert (Hin : In (annotate Demo.db Demo.rome)
                  (get_filtered_posts Demo.db Demo.time_now None true true)).
  { vm_compute. right. left. reflexivity. }
  split; [exact Hin|]. split; [|reflexivity].
  exact (proj1 (comment_count_exact Demo.db Demo.time_now None true
                  (annotate Demo.db Demo.rome) Hin)).
Defined.

(** ** Pagination *)

Lemma ceil_div_bounds (a b : Z) :
  0 < b -> (Paginator.ceil_div a b - 1) * b < a <= Paginator.ceil_div a b * b.
Proof.
  intros Hb. unfold Paginator.ceil_div.
  pose proof (Z.div_mod (- a) b ltac:(lia)) as Hdm.
  pose proof (Z.mod_pos_bound (- a) b Hb) as Hr.
  nia.
Qed.

Section PaginateFacts.
Context {A : Type} (items : list A) (S : Z).
Hypothesis S_pos : 0 < S.

Local Abbreviation self := (Paginator.mk items S).
Local Abbreviation N := (Z.of_nat (List.length items)).
Local Abbreviation last := (page_count items S).

Lemma num_pages_eq : Paginator.num_pages self = inr last.
Proof.
  unfold Paginator.num_pages, Paginator.count. simpl.
  destruct (S =? 0) eqn:E; [apply Z.eqb_eq in E; lia|].
  unfold page_count. now rewrite Z.sub_0_r.
Qed.

Lemma last_bounds : 1 <= last /\ (last - 1) * S < Z.max 1 N <= last * S.
Proof.
  pose proof (ceil_div_bounds (Z.max 1 N) S S_pos) as Hb.
  unfold page_count. split; [nia | exact Hb].
Qed.

Lemma validate_number_valid (k : Z) :
  1 <= k <= last -> Paginator.validate_number self (IntPage k) = inr k.
Proof.
  intros Hk. unfold Paginator.validate_number. rewrite num_pages_eq.
  destruct (k <? 1) eqn:E1; [apply Z.ltb_lt in E1; lia|].
  destruct (k >? last) eqn:E2; [|reflexivity].
  apply Z.gtb_lt in E2. lia.
Qed.

Lemma validate_number_out_of_range (n : Z) :
  n < 1 \/ last < n -> Paginator.validate_number self (IntPage n) = inl EmptyPage.
Proof.
  intros Hn. unfold Paginator.validate_number. rewrite num_pages_eq.
  destruct (n <? 1) eqn:E1; [reflexivity|].
  apply Z.ltb_ge in E1.
  destruct (n >? last) eqn:E2; [reflexivity|].
  pose proof (Zgt_cases n last) as Hc. rewrite E2 in Hc. lia.
Qed.

Lemma page_valid (k : Z) :
  1 <= k <= last ->
  exists pg, Paginator.page self k = inr pg
             /\ Paginator.number pg = k
             /\ Z.of_nat (List.length (Paginator.page_object_list pg))
                = Z.min S (N - (k - 1) * S).
Proof.
  intros Hk. unfold Paginator.page. rewrite (validate_number_valid k Hk).
  eexists. split; [reflexivity|]. split; [reflexivity|].
  cbn [Paginator.page_object_list Paginator.per_page Paginator.object_list].
  unfold Paginator.slice, Paginator.count. simpl.
  rewrite length_firstn, length_skipn.
  destruct last_bounds as [_ [Hlo _]].
  assert (Hbot : 0 <= (k - 1) * S) by nia.
  assert (Hbot' : (k - 1) * S < Z.max 1 N) by nia.
  destruct ((k - 1) * S + S + 0 >=? N) eqn:E.
  - apply Z.geb_le in E. lia.
  - pose proof (Zge_cases ((k - 1) * S + S + 0) N) as Hc. rewrite E in Hc.
    lia.
Qed.

Lemma get_page_valid (k : Z) :
  1 <= k <= last -> Paginator.get_page self (IntPage k) = Paginator.page self k.
Proof.
  intros Hk. unfold Paginator.get_page. now rewrite (validate_number_valid k Hk).
Qed.

Lemma get_page_not_an_integer (arg : PageArg) :
  arg = NoPage \/ arg = NotAnInt ->
  Paginator.get_page self arg = Paginator.page self 1.
Proof. intros [-> | ->]; reflexivity. Qed.

Lemma get_page_out_of_range (n : Z) :
  n < 1 \/ last < n -> Paginator.get_page self (IntPage n) = Paginator.page self last.
Proof.
  intros Hn. unfold Paginator.get_page.
  now rewrite (validate_number_out_of_range n Hn), num_pages_eq.
Qed.

Lemma get_page_total (arg : PageArg) :
  exists pg, Paginator.get_page self arg = inr pg /\ 1 <= Paginator.number pg <= last.
Proof.
  pose proof last_bounds as [Hl _].
  assert (Hpage : forall k, 1 <= k <= last ->
            exists pg, Paginator.page self k = inr pg
                       /\ 1 <= Paginator.number pg <= last).
  { intros k Hk. destruct (page_valid k Hk) as (pg & E & Hn & _).
    exists pg. split; [exact E | lia]. }
  destruct arg as [| | n].
  - rewrite get_page_not_an_integer by auto. apply Hpage. lia.
  - rewrite get_page_not_an_integer by auto. apply Hpage. lia.
  - destruct (Z_lt_ge_dec n 1) as [Hlt|Hge].
    + rewrite get_page_out_of_range by auto. apply Hpage. lia.
    + destruct (Z_lt_ge_dec last n) as [Hgt|Hle].
      * rewrite get_page_out_of_range by auto. apply Hpage. lia.
      * rewrite get_page_valid by lia. apply Hpage. lia.
Qed.
End PaginateFacts.

(** With a page size of zero the page count cannot be computed. *)
Lemma paginate_zero_page_size {A : Type} (items : list A) (arg : PageArg) :
  paginate items arg 0 = inl ZeroDivisionError.
Proof.
  unfold paginate, Paginator.get_page, Paginator.page, Paginator.validate_number,
    Paginator.num_pages. simpl.
  destruct arg as [| | n]; try reflexivity.
  destruct (n <? 1); reflexivity.
Qed.

(** C4, as the paginator behaves, for a positive page size [S] and [N]
    items: there is at least one page; each valid page [k] holds
    [min(S, N - (k-1)*S)] items; a missing or non-integer page number gives
    the first page; an integer below 1 or above the page count gives the
    last page; and [paginate] never raises. *)
Theorem paginate_pages {A : Type} (items : list A) (S : Z) :
  0 < S ->
  exists last,
    Paginator.num_pages (Paginator.mk items S) = inr last
    /\ 1 <= last
    /\ (forall k, 1 <= k <= last ->
          exists pg, paginate items (IntPage k) S = inr pg
                     /\ Paginator.number pg = k
                     /\ Z.of_nat (List.length (Paginator.page_object_list pg))
                        = Z.min S (Z.of_nat (List.length items) - (k - 1) * S))
    /\ (forall arg, arg = NoPage \/ arg = NotAnInt ->
          paginate items arg S = paginate items (IntPage 1) S)
    /\ (forall n, n < 1 \/ last < n ->
          paginate items (IntPage n) S = paginate items (IntPage last) S)
    /\ (forall arg, exists pg, paginate items arg S = inr pg).
Proof.
  intros HS.
  pose proof (last_bounds items S HS) as [Hl _].
  exists (page_count items S).
  split; [apply num_pages_eq; exact HS|].
  split; [exact Hl|].
  unfold paginate. split; [|split; [|split]].
  - intros k Hk. rewrite get_page_valid by assumption. now apply page_valid.
  - intros arg Harg. rewrite get_page_not_an_integer by assumption.
    symmetry. apply get_page_valid; [assumption | lia].
  - intros n Hn. rewrite get_page_out_of_range by assumption.
    symmetry. apply get_page_valid; [assumption | lia].
  - intros arg. destruct (get_page_total items S HS arg) as (pg & E & _).
    now exists pg.
Qed.

Lemma paginate_pages_witness :
  exists pg, paginate [1; 2; 3; 4; 5] (IntPage 3) 2 = inr pg
             /\ Paginator.number pg = 3
             /\ Z.of_nat (List.length (Paginator.page_object_list pg)) = 1.
Proof.
  destruct (paginate_pages [1; 2; 3; 4; 5] 2 ltac:(lia))
    as (last & Hlast & _ & Hvalid & _).
  injection Hlast as <-.
  exact (Hvalid 3 ltac:(vm_compute; split; discriminate)).
Defined.

(** Page number 0 over five items, two per page: the paginator answers with
    page 3, the last one, while the nearest page of [1 .. 3] is page 1. *)
Lemma page_zero_gives_last_page :
  exists pg, paginate [1; 2; 3; 4; 5] (IntPage 0) 2 = inr pg
             /\ Paginator.num_pages (Paginator.paginator pg) = inr 3
             /\ Paginator.number pg = 3
             /\ Paginator.number pg <> spec_nearest_page 3 0.
Proof.
  eexists. split; [reflexivity|]. split; [reflexivity|].
  split; [reflexivity|]. vm_compute. discriminate.
Qed.

(** ** Lookups by primary key *)

Lemma filter_nil_iff {A : Type} (f : A -> bool) (l : list A) :
  filter f l = [] <-> forall x, In x l -> f x = false.
Proof.
  induction l as [|a t IH]; simpl.
  - split; [intros _ x [] | reflexivity].
  - destruct (f a) eqn:E.
    + split; [discriminate|]. intros Hall.
      rewrite (Hall a (or_introl eq_refl)) in E. discriminate.
    + rewrite IH. split.
      * intros Hall x [<-|Hin]; auto.
      * intros Hall x Hin. apply Hall. now right.
Qed.

Lemma filter_unique {A : Type} (key : A -> Z) (f : A -> bool) (l : list A) (x : A) :
  NoDup (map key l) ->
  In x l ->
  f x = true ->
  (forall y, In y l -> f y = true -> key y = key x) ->
  filter f l = [x].
Proof.
  induction l as [|a t IH]; simpl; intros Hnd Hin Hfx Hkey; [contradiction|].
  inversion Hnd as [|k ks Hnotin Hnd']; subst.
  destruct Hin as [->|Hin].
  - rewrite Hfx. f_equal. apply filter_nil_iff. intros y Hy.
    destruct (f y) eqn:E; [|reflexivity].
    exfalso. apply Hnotin. rewrite <- (Hkey y (or_intror Hy) E).
    now apply in_map.
  - destruct (f a) eqn:E.
    + exfalso. apply Hnotin. rewrite (Hkey a (or_introl eq_refl) E).
      now apply in_map.
    + apply IH; auto.
Qed.

Lemma NoDup_map_filter {A : Type} (key : A -> Z) (f : A -> bool) (l : list A) :
  NoDup (map key l) -> NoDup (map key (filter f l)).
Proof.
  induction l as [|a t IH]; simpl; intros Hnd; [constructor|].
  inversion Hnd as [|k ks Hnotin Hnd']; subst.
  destruct (f a); simpl; [|auto].
  constructor; [|auto].
  intros Hin. apply Hnotin. apply in_map_iff in Hin as (y & Hy & Hiny).
  apply filter_In in Hiny as [Hiny _]. rewrite <- Hy. now apply in_map.
Qed.

Lemma Post_objects_all_NoDup (db : Store) :
  unique_pks db -> NoDup (map Post.pk (Post_objects_all db)).
Proof.
  intros (_ & _ & Hp & _).
  eapply Permutation_NoDup; [|exact Hp].
  apply Permutation_sym, Permutation_map, order_by_desc_perm.
Qed.

Lemma get_filtered_posts_NoDup (db : Store) (time_now : Z)
    (apply_filter apply_annotation : bool) :
  unique_pks db ->
  NoDup (map (fun r => Post.pk (row_post r))
           (get_filtered_posts db time_now None apply_filter apply_annotation)).
Proof.
  intros Hu. unfold get_filtered_posts.
  set (kept := if apply_filter
               then filter (visible db time_now) (py_or None (Post_objects_all db))
               else py_or None (Post_objects_all db)).
  assert (Hk : NoDup (map Post.pk kept)).
  { subst kept. simpl. destruct apply_filter.
    - apply NoDup_map_filter. now apply Post_objects_all_NoDup.
    - now apply Post_objects_all_NoDup. }
  eapply Permutation_NoDup.
  - apply Permutation_sym, Permutation_map, order_by_desc_perm.
  - destruct apply_annotation; rewrite map_map; simpl; exact Hk.
Qed.

(** [get_object_or_404(Post, pk=...)] finds the row with that key. *)
Lemma get_post_by_pk (db : Store) (p : Post.t) :
  unique_pks db -> In p (posts db) ->
  get_object_or_404 (filter (fun r => Post.pk r =? Post.pk p) (posts db)) = inr p.
Proof.
  intros (_ & _ & Hp & _) Hin.
  rewrite (filter_unique Post.pk _ _ p Hp Hin); [reflexivity | apply Z.eqb_refl |].
  intros y _ Hy. now apply Z.eqb_eq in Hy.
Qed.

Lemma get_post_by_pk_ordered (db : Store) (p : Post.t) :
  unique_pks db -> In p (posts db) ->
  get_object_or_404 (filter (fun r => Post.pk r =? Post.pk p) (Post_objects_all db))
  = inr p.
Proof.
  intros Hu Hin.
  rewrite (filter_unique Post.pk _ _ p (Post_objects_all_NoDup db Hu));
    [reflexivity | now apply Post_objects_all_In | apply Z.eqb_refl |].
  intros y _ Hy. now apply Z.eqb_eq in Hy.
Qed.

(** [get_object_or_404(Comment, pk=..., comment_post=post)]. *)
Lemma get_comment_of_post (db : Store) (c : Comment.t) :
  unique_pks db -> In c (comments db) ->
  get_object_or_404
    (filter (fun r => (Comment.pk r =? Comment.pk c)
                      && (Comment.comment_post r =? Comment.comment_post c))
            (comments db)) = inr c.
Proof.
  intros (_ & _ & _ & Hc) Hin.
  rewrite (filter_unique Comment.pk _ _ c Hc Hin); [reflexivity | |].
  - now rewrite !Z.eqb_refl.
  - intros y _ Hy. apply andb_true_iff in Hy as [Hy _]. now apply Z.eqb_eq in Hy.
Qed.

(** ** Detail-view resolution *)

Section DetailViewFacts.

(** What the second tier of [PostDetailView.get_object] computes: the
    lookup of the key among the posts that pass the visibility filter. *)
Lemma get_object_fallback (db : Store) (time_now : Z) (request : HttpRequest.t)
    (post_id : Z) :
  (forall p, In p (posts db) -> Post.pk p = post_id ->
             user_eq (HttpRequest.user request) (Post.author p) = false) ->
  PostDetailView_get_object time_now request post_id db
  = (match get_object_or_404
             (filter (fun r => Post.pk (row_post r) =? post_id)
                     (get_filtered_posts db time_now None true false)) with
     | inl e => inl e
     | inr row => inr (row_post row)
     end, db).
Proof.
  intros Hnot.
  unfold PostDetailView_get_object, bind, read, lift, ret.
  destruct (is_authenticated (HttpRequest.user request)).
  - assert (E : filter (fun p => (Post.pk p =? post_id)
                                 && user_eq (HttpRequest.user request) (Post.author p))
                  (Post_objects_all db) = []).
    { apply filter_nil_iff. intros p Hin.
      apply Post_objects_all_In in Hin.
      destruct (Post.pk p =? post_id) eqn:E; [|reflexivity].
      apply Z.eqb_eq in E. simpl. auto. }
    rewrite E. simpl.
    destruct (get_object_or_404 _); reflexivity.
  - replace (get_filtered_posts db time_now (Some (Post_objects_all db)) true false)
      with (get_filtered_posts db time_now None true false).
    + destruct (get_object_or_404 _); reflexivity.
    + unfold get_filtered_posts. now rewrite py_or_self.
Qed.

(** C3: the owner of a post, once authenticated, gets it back whatever its
    publication state or date.  Any other viewer, anonymous or not, gets
    the result of looking the key up among the posts that pass the
    visibility filter: the post when it is visible, the not-found
    condition when it is not.  In particular an authenticated viewer who
    does not own the post gets exactly what an anonymous viewer gets. *)
Theorem detail_view_resolution
    (db : Store) (time_now : Z) (request : HttpRequest.t) (post_id : Z) :
  unique_pks db ->
  (forall p, In p (posts db) -> Post.pk p = post_id ->
             user_eq (HttpRequest.user request) (Post.author p) = true ->
             PostDetailView_get_object time_now request post_id db = (inr p, db))
  /\ ((forall p, In p (posts db) -> Post.pk p = post_id ->
                 user_eq (HttpRequest.user request) (Post.author p) = false) ->
      (forall p, In p (posts db) -> Post.pk p = post_id ->
                 visible db time_now p = true ->
                 PostDetailView_get_object time_now request post_id db = (inr p, db))
      /\ ((forall p, In p (posts db) -> Post.pk p = post_id ->
                     visible db time_now p = false) ->
          PostDetailView_get_object time_now request post_id db = (inl Http404, db))
      /\ (forall anonymous, HttpRequest.user anonymous = AnonymousUser ->
            PostDetailView_get_object time_now request post_id db
            = PostDetailView_get_object time_now anonymous post_id db)).
Proof.
  intros Hu. split.
  - intros p Hin Hpk Hown.
    unfold PostDetailView_get_object, bind, read, lift, ret.
    destruct (HttpRequest.user request) as [|u] eqn:Euser; [discriminate|].
    simpl is_authenticated. cbv iota.
    rewrite (filter_unique Post.pk _ _ p (Post_objects_all_NoDup db Hu)).
    + reflexivity.
    + now apply Post_objects_all_In.
    + now rewrite Hpk, Z.eqb_refl, Hown.
    + intros y _ Hy. apply andb_true_iff in Hy as [Hy _].
      apply Z.eqb_eq in Hy. congruence.
  - intros Hnot. split; [|split].
    + intros p Hin Hpk Hvis. rewrite get_object_fallback by assumption.
      rewrite (filter_unique (fun r => Post.pk (row_post r)) _ _ (plain p)).
      * reflexivity.
      * now apply get_filtered_posts_NoDup.
      * unfold get_filtered_posts. apply order_by_desc_In, in_map, filter_In.
        split; [|assumption]. simpl. now apply Post_objects_all_In.
      * simpl. rewrite Hpk. apply Z.eqb_refl.
      * intros y _ Hy. apply Z.eqb_eq in Hy. simpl. congruence.
    + intros Hhidden. rewrite get_object_fallback by assumption.
      replace (filter _ _) with (@nil PostRow); [reflexivity|].
      symmetry. apply filter_nil_iff. intros r Hr.
      destruct (Post.pk (row_post r) =? post_id) eqn:E; [|reflexivity].
      apply Z.eqb_eq in E. exfalso.
      assert (Hin : In (row_post r)
                      (map row_post (get_filtered_posts db time_now None true false)))
        by now apply in_map.
      apply get_filtered_posts_In in Hin as [Hbase Hvis].
      simpl in Hbase. apply Post_objects_all_In in Hbase.
      rewrite (Hhidden _ Hbase E) in Hvis. specialize (Hvis eq_refl). discriminate.
    + intros anonymous Hanon.
      rewrite (get_object_fallback db time_now request) by assumption.
      rewrite (get_object_fallback db time_now anonymous); [reflexivity|].
      intros p _ _. now rewrite Hanon.
Qed.
End DetailViewFacts.

Lemma Demo_db_unique_pks : unique_pks Demo.db.
Proof.
  unfold unique_pks. simpl.
  repeat split; repeat constructor; simpl; intuition discriminate.
Qed.

Lemma detail_view_resolution_witness :
  PostDetailView_get_object Demo.time_now
    (Demo.request (AuthUser Demo.alice) GET "/posts/3/" []) 3 Demo.db
  = (inr Demo.secret, Demo.db)
  /\ PostDetailView_get_object Demo.time_now
       (Demo.request (AuthUser Demo.bob) GET "/posts/3/" []) 3 Demo.db
     = (inl Http404, Demo.db).
Proof.
  split.
  - apply (proj1 (detail_view_resolution Demo.db Demo.time_now
                    (Demo.request (AuthUser Demo.alice) GET "/posts/3/" []) 3
                    Demo_db_unique_pks)).
    + simpl. tauto.
    + reflexivity.
    + reflexivity.
  - assert (Hnot : forall p, In p (posts Demo.db) -> Post.pk p = 3 ->
                     user_eq (AuthUser Demo.bob) (Post.author p) = false).
    { simpl. intros p [<-|[<-|[<-|[<-|[<-|[]]]]]]; reflexivity || discriminate. }
    apply (proj2 (detail_view_resolution Demo.db Demo.time_now
                    (Demo.request (AuthUser Demo.bob) GET "/posts/3/" []) 3
                    Demo_db_unique_pks) Hnot).
    simpl. intros p [<-|[<-|[<-|[<-|[<-|[]]]]]]; reflexivity || discriminate.
Defined.

(** ** The empty collection *)

Section ListingFacts.
Context `{Project}.

(** C5: an empty collection passed to [get_filtered_posts] is replaced by
    all posts before the filter runs, so the result is the one computed
    from the whole post table.  The two callers the claim names do not get
    that far.  [category_posts] reads [category.post] and [profile] reads
    [user.post], while the reverse accessor of [Post.category] and
    [Post.author] is [posts]: for every category and every user the lookup
    finds, with or without posts, the handler raises [AttributeError]
    before [get_filtered_posts] is called, and the request ends in the 500
    page with nothing listed. *)
Theorem empty_collection_callers_raise
    (db : Store) (time_now : Z) (request : HttpRequest.t) :
  (forall apply_filter apply_annotation,
      get_filtered_posts db time_now (Some []) apply_filter apply_annotation
      = get_filtered_posts db time_now (Some (Post_objects_all db))
          apply_filter apply_annotation)
  /\ (forall apply_annotation p,
        In p (map row_post (get_filtered_posts db time_now (Some []) true apply_annotation))
        <-> In p (posts db) /\ visible db time_now p = true)
  /\ (forall category_slug category,
        get_object_or_404
          (filter (fun c => String.eqb (Category.slug c) category_slug
                            && Bool.eqb (Category.is_published c) true)
                  (categories db)) = inr category ->
        category_post_all db category = inl AttributeError
        /\ category_posts time_now request category_slug db = (inl AttributeError, db)
        /\ respond (category_posts time_now request category_slug) db
           = (HttpResponseServerError, db))
  /\ (forall username user,
        get_object_or_404
          (filter (fun u => String.eqb (User.username u) username) (users db))
        = inr user ->
        user_post_all db user = inl AttributeError
        /\ profile time_now request username db = (inl AttributeError, db)
        /\ respond (profile time_now request username) db
           = (HttpResponseServerError, db)).
Proof.
  assert (Hall : forall apply_filter apply_annotation,
             get_filtered_posts db time_now (Some []) apply_filter apply_annotation
             = get_filtered_posts db time_now (Some (Post_objects_all db))
                 apply_filter apply_annotation).
  { intros. unfold get_filtered_posts. now rewrite py_or_self. }
  split; [exact Hall|]. split; [|split].
  - intros apply_annotation p. rewrite get_filtered_posts_In. simpl.
    rewrite Post_objects_all_In. intuition.
  - intros category_slug category Hcat.
    assert (E : category_posts time_now request category_slug db
                = (inl AttributeError, db)).
    { unfold category_posts, bind, read, lift, ret. now rewrite Hcat. }
    split; [reflexivity|]. split; [exact E|].
    unfold respond. now rewrite E.
  - intros username user Huser.
    assert (E : profile time_now request username db = (inl AttributeError, db)).
    { unfold profile, bind, read, lift, ret. now rewrite Huser. }
    split; [reflexivity|]. split; [exact E|].
    unfold respond. now rewrite E.
Qed.
End ListingFacts.

(** The category [food] and the user [carol] have no posts.  Their pages
    end in the 500 page; an empty collection handed to [get_filtered_posts]
    itself gives the visible posts of the whole table. *)
Lemma empty_collection_callers_raise_witness :
  filter (fun p => match Post.category p with
                   | Some cid => cid =? Category.pk Demo.food
                   | None => false
                   end) (posts Demo.db) = []
  /\ respond (@category_posts Demo.project Demo.time_now
                (Demo.request AnonymousUser GET "/category/food/" []) "food") Demo.db
     = (HttpResponseServerError, Demo.db)
  /\ filter (fun p => Post.author p =? User.pk Demo.carol) (posts Demo.db) = []
  /\ respond (@profile Demo.project Demo.time_now
                (Demo.request AnonymousUser GET "/profile/carol/" []) "carol") Demo.db
     = (HttpResponseServerError, Demo.db)
  /\ map (fun r => Post.title (row_post r))
         (get_filtered_posts Demo.db Demo.time_now (Some []) true true)
     = ["Oslo"; "Rome"].
Proof.
  pose proof (@empty_collection_callers_raise Demo.project Demo.db Demo.time_now
                (Demo.request AnonymousUser GET "/category/food/" []))
    as (Hall & _ & Hcat & _).
  pose proof (@empty_collection_callers_raise Demo.project Demo.db Demo.time_now
                (Demo.request AnonymousUser GET "/profile/carol/" []))
    as (_ & _ & _ & Huser).
  split; [reflexivity|]. split; [|split; [reflexivity|split]].
  - exact (proj2 (proj2 (Hcat "food" Demo.food eq_refl))).
  - exact (proj2 (proj2 (Huser "carol" Demo.carol eq_refl))).
  - rewrite Hall. reflexivity.
Defined.

(** ** Authorization of mutations *)

Lemma user_eq_other (u : User.t) (uid : Z) :
  uid <> User.pk u -> user_eq (AuthUser u) uid = false.
Proof. intros Hne. simpl. apply Z.eqb_neq. congruence. Qed.

Section MutationFacts.
Context `{Project}.

(** [PostUpdateView] for a requester who is logged in but does not own the
    post: [AuthorRequiredMixin.dispatch] answers before the form is built. *)
Lemma PostUpdateView_non_author (db : Store) (request : HttpRequest.t) (post : Post.t) :
  unique_pks db -> In post (posts db) ->
  is_authenticated (HttpRequest.user request) = true ->
  user_eq (HttpRequest.user request) (Post.author post) = false ->
  PostUpdateView request (Post.pk post) db
  = (inr (redirect (blog_post_detail (Post.pk post))), db).
Proof.
  intros Hu Hin Hauth Hother.
  unfold PostUpdateView, LoginRequiredMixin_dispatch, AuthorRequiredMixin_dispatch,
    SingleObjectMixin_get_object, bind, read, lift, ret.
  rewrite Hauth. change (negb true) with false. cbv beta iota.
  rewrite (get_post_by_pk_ordered db post Hu Hin), Hother. reflexivity.
Qed.

(** [delete_post] for a logged-in requester: the only test is the
    comparison with the author. *)
Lemma delete_post_non_author (db : Store) (request : HttpRequest.t) (post : Post.t) :
  unique_pks db -> In post (posts db) ->
  is_authenticated (HttpRequest.user request) = true ->
  user_eq (HttpRequest.user request) (Post.author post) = false ->
  delete_post request (Post.pk post) db
  = (inr (redirect (blog_post_detail (Post.pk post))), db).
Proof.
  intros Hu Hin Hauth Hother.
  unfold delete_post, login_required, bind, read, lift, ret.
  rewrite Hauth, (get_post_by_pk db post Hu Hin), Hother. reflexivity.
Qed.

Lemma delete_post_author (db : Store) (request : HttpRequest.t) (post : Post.t) :
  unique_pks db -> In post (posts db) ->
  user_eq (HttpRequest.user request) (Post.author post) = true ->
  HttpRequest.method request = POST ->
  delete_post request (Post.pk post) db
  = (inr (redirect blog_index), snd (Post_delete post db)).
Proof.
  intros Hu Hin Hown Hpost.
  assert (Hauth : is_authenticated (HttpRequest.user request) = true).
  { destruct (HttpRequest.user request); [discriminate | reflexivity]. }
  unfold delete_post, login_required, bind, read, lift, ret.
  rewrite Hauth, (get_post_by_pk db post Hu Hin), Hown, Hpost. reflexivity.
Qed.

(** [edit_comment], on either route, for any requester who is not the
    comment's author, logged in or not. *)
Lemma edit_comment_non_author (db : Store) (request : HttpRequest.t)
    (post : Post.t) (comment : Comment.t) :
  unique_pks db -> In post (posts db) -> In comment (comments db) ->
  Comment.comment_post comment = Post.pk post ->
  user_eq (HttpRequest.user request) (Comment.author comment) = false ->
  edit_comment request (Post.pk post) (Comment.pk comment) db
  = (inr (redirect (blog_post_detail (Post.pk post))), db).
Proof.
  intros Hu Hp Hc Hlink Hother.
  unfold edit_comment, bind, read, lift, ret.
  rewrite (get_post_by_pk db post Hu Hp), <- Hlink.
  rewrite (get_comment_of_post db comment Hu Hc), Hother. reflexivity.
Qed.

(** C6: a user who is not the author of the post (of the comment) and
    tries to edit or delete it is answered with a redirect to the post's
    detail view, and the store after the request is the store before it.
    This holds for either method, any submitted data, and both comment
    routes. *)
Theorem non_author_mutation_is_redirected
    (db : Store) (request : HttpRequest.t) (u : User.t) :
  unique_pks db ->
  HttpRequest.user request = AuthUser u ->
  (forall post,
      In post (posts db) -> Post.author post <> User.pk u ->
      PostUpdateView request (Post.pk post) db
      = (inr (redirect (blog_post_detail (Post.pk post))), db)
      /\ delete_post request (Post.pk post) db
         = (inr (redirect (blog_post_detail (Post.pk post))), db))
  /\ (forall post comment,
        In post (posts db) -> In comment (comments db) ->
        Comment.comment_post comment = Post.pk post ->
        Comment.author comment <> User.pk u ->
        edit_comment request (Post.pk post) (Comment.pk comment) db
        = (inr (redirect (blog_post_detail (Post.pk post))), db)).
Proof.
  intros Hu Huser. split.
  - intros post Hin Hne. split.
    + apply PostUpdateView_non_author; auto; rewrite Huser;
        [reflexivity | now apply user_eq_other].
    + apply delete_post_non_author; auto; rewrite Huser;
        [reflexivity | now apply user_eq_other].
  - intros post comment Hp Hc Hlink Hne.
    apply edit_comment_non_author; auto.
    rewrite Huser. now apply user_eq_other.
Qed.

(** C2, on the code: [delete_post] lets the author delete (a POST removes
    the post and its comments and redirects to the index), and redirects
    every other logged-in requester to the post's detail view with the
    store unchanged, staff or not. *)
Theorem delete_post_allows_author_only
    (db : Store) (request : HttpRequest.t) (u : User.t) (post : Post.t) :
  unique_pks db ->
  HttpRequest.user request = AuthUser u ->
  HttpRequest.method request = POST ->
  In post (posts db) ->
  (Post.author post = User.pk u ->
   delete_post request (Post.pk post) db
   = (inr (redirect blog_index), snd (Post_delete post db)))
  /\ (Post.author post <> User.pk u ->
      delete_post request (Post.pk post) db
      = (inr (redirect (blog_post_detail (Post.pk post))), db)).
Proof.
  intros Hu Huser Hpost Hin. split.
  - intros Hown. apply delete_post_author; auto.
    rewrite Huser. simpl. apply Z.eqb_eq. congruence.
  - intros Hne. apply delete_post_non_author; auto; rewrite Huser;
      [reflexivity | now apply user_eq_other].
Qed.

(** C7, on the code: an anonymous request to the comment edit or delete
    route is not sent to the login page.  [edit_comment] runs for it: a
    missing post is answered with [Http404], and an existing comment with
    the redirect of the author check, to the post's detail view. *)
Theorem edit_comment_anonymous
    (db : Store) (request : HttpRequest.t) (post : Post.t) (comment : Comment.t) :
  unique_pks db ->
  HttpRequest.user request = AnonymousUser ->
  In post (posts db) -> In comment (comments db) ->
  Comment.comment_post comment = Post.pk post ->
  edit_comment request (Post.pk post) (Comment.pk comment) db
  = (inr (redirect (blog_post_detail (Post.pk post))), db)
  /\ (forall post_id comment_id,
        (forall p, In p (posts db) -> Post.pk p <> post_id) ->
        edit_comment request post_id comment_id db = (inl Http404, db)).
Proof.
  intros Hu Hanon Hp Hc Hlink. split.
  - apply edit_comment_non_author; auto. now rewrite Hanon.
  - intros post_id comment_id Hmissing.
    unfold edit_comment, bind, read, lift, ret.
    replace (filter (fun p => Post.pk p =? post_id) (posts db)) with (@nil Post.t);
      [reflexivity|].
    symmetry. apply filter_nil_iff. intros p Hin. apply Z.eqb_neq. auto.
Qed.
End MutationFacts.

Lemma non_author_mutation_is_redirected_witness :
  @PostUpdateView Demo.project Demo.intruder 1 Demo.db
  = (inr (redirect (blog_post_detail 1)), Demo.db)
  /\ @delete_post Demo.project Demo.intruder 1 Demo.db
     = (inr (redirect (blog_post_detail 1)), Demo.db)
  /\ @edit_comment Demo.project Demo.intruder 1 1 Demo.db
     = (inr (redirect (blog_post_detail 1)), Demo.db).
Proof.
  destruct (@non_author_mutation_is_redirected Demo.project Demo.db Demo.intruder Demo.carol
              Demo_db_unique_pks eq_refl) as [Hpost Hcomment].
  destruct (Hpost Demo.rome ltac:(simpl; tauto) ltac:(discriminate)) as [Hedit Hdelete].
  split; [exact Hedit|]. split; [exact Hdelete|].
  exact (Hcomment Demo.rome Demo.praise ltac:(simpl; tauto) ltac:(simpl; tauto)
           eq_refl ltac:(discriminate)).
Defined.

(** Bob has staff status and is not the author of post 1: his POST to the
    delete route leaves the store as it was. *)
Lemma delete_post_allows_author_only_witness :
  User.is_staff Demo.bob = true
  /\ @delete_post Demo.project
       (Demo.request (AuthUser Demo.bob) POST "/posts/1/delete/" []) 1 Demo.db
     = (inr (redirect (blog_post_detail 1)), Demo.db).
Proof.
  split; [reflexivity|].
  apply (proj2 (@delete_post_allows_author_only Demo.project Demo.db
                  (Demo.request (AuthUser Demo.bob) POST "/posts/1/delete/" [])
                  Demo.bob Demo.rome Demo_db_unique_pks eq_refl eq_refl
                  ltac:(simpl; tauto))).
  discriminate.
Defined.

Lemma edit_comment_anonymous_witness :
  @edit_comment Demo.project
    (Demo.request AnonymousUser POST "/posts/1/comment/1/delete_comment/" []) 1 1 Demo.db
  = (inr (redirect (blog_post_detail 1)), Demo.db).
Proof.
  apply (proj1 (@edit_comment_anonymous Demo.project Demo.db
                  (Demo.request AnonymousUser POST "/posts/1/comment/1/delete_comment/" [])
                  Demo.rome Demo.praise Demo_db_unique_pks eq_refl
                  ltac:(simpl; tauto) ltac:(simpl; tauto) eq_refl)).
Defined.

(** ** Invalid submissions *)

Lemma POST_or_None_some (request : HttpRequest.t) :
  HttpRequest.POST request <> [] ->
  POST_or_None request = Some (HttpRequest.POST request).
Proof.
  unfold POST_or_None. destruct (HttpRequest.POST request); [congruence | reflexivity].
Qed.

Lemma is_valid_errors {I : Type} (d : option QueryDict) (i : I) (errs : ErrorDict) :
  errs <> [] -> is_valid (mkForm d i errs) = false.
Proof.
  unfold is_valid. simpl. destruct d, errs; congruence.
Qed.

Section FormFacts.
Context `{Project}.

Lemma CommentForm_bound (d : QueryDict) (c : Comment.t) :
  data (CommentForm (Some d) c) = Some d
  /\ errors (CommentForm (Some d) c) = fst (CommentForm_full_clean d)
  /\ (fst (CommentForm_full_clean d) <> [] -> is_valid (CommentForm (Some d) c) = false).
Proof.
  unfold CommentForm. destruct (CommentForm_full_clean d) as [errs cd]. simpl.
  repeat split. apply is_valid_errors.
Qed.

Lemma PostCreateForm_bound (db : Store) (d : QueryDict) (p : Post.t) :
  data (PostCreateForm db (Some d) p) = Some d
  /\ errors (PostCreateForm db (Some d) p) = fst (PostCreateForm_full_clean db d)
  /\ (fst (PostCreateForm_full_clean db d) <> [] ->
      is_valid (PostCreateForm db (Some d) p) = false).
Proof.
  unfold PostCreateForm. destruct (PostCreateForm_full_clean db d) as [errs cd]. simpl.
  repeat split. apply is_valid_errors.
Qed.

Lemma ProfileEditForm_bound (db : Store) (d : QueryDict) (u : User.t) :
  fst (ProfileEditForm_full_clean db u d) <> [] ->
  is_valid (ProfileEditForm db (Some d) u) = false.
Proof.
  unfold ProfileEditForm. destruct (ProfileEditForm_full_clean db u d) as [errs cd].
  simpl. apply is_valid_errors.
Qed.
End FormFacts.

Section SubmissionFacts.
Context `{Project}.

(** C8, as the handlers behave.  A submission [d] whose validation leaves
    errors is answered by rendering the form's template again, never by a
    redirect, and the store is unchanged.  For a post (created or edited),
    and for a comment (added or edited) when [d] holds at least one field,
    the rendered form is the bound one: it carries the submitted data and
    the error messages.  [edit_profile] instead renders a second, unbound
    form: it carries neither the submitted data nor any error message, and
    its instance is [request.user] as validation left it, with every
    cleaned value assigned and every other field as stored.  A submission
    without any field is not bound by the comment and profile handlers
    ([request.POST or None]): they render an unbound form without error
    messages around the unchanged instance. *)
Theorem invalid_submission_renders_form_again
    (db : Store) (time_now : Z) (request : HttpRequest.t) (u : User.t) (d : QueryDict) :
  unique_pks db ->
  HttpRequest.user request = AuthUser u ->
  HttpRequest.method request = POST ->
  HttpRequest.POST request = d ->
  (forall post,
      In post (posts db) -> d <> [] -> fst (CommentForm_full_clean d) <> [] ->
      exists form,
        add_comment time_now request (Post.pk post) db
        = (inr (render "blog/comment.html"
                  [("form", VCommentForm form); ("post", VPost post)]), db)
        /\ data form = Some d /\ errors form = fst (CommentForm_full_clean d))
  /\ (forall post comment,
        In post (posts db) -> In comment (comments db) ->
        Comment.comment_post comment = Post.pk post ->
        Comment.author comment = User.pk u ->
        contains "/delete_comment/" (HttpRequest.path request) = false ->
        d <> [] -> fst (CommentForm_full_clean d) <> [] ->
        exists form,
          edit_comment request (Post.pk post) (Comment.pk comment) db
          = (inr (render "blog/comment.html"
                    [("form", VCommentForm form); ("comment", VComment (instance form))]),
             db)
          /\ data form = Some d /\ errors form = fst (CommentForm_full_clean d))
  /\ (fst (PostCreateForm_full_clean db d) <> [] ->
      exists form,
        PostCreateView time_now request db
        = (inr (render "blog/create.html" [("form", VPostForm form)]), db)
        /\ data form = Some d /\ errors form = fst (PostCreateForm_full_clean db d))
  /\ (forall post,
        In post (posts db) -> Post.author post = User.pk u ->
        fst (PostCreateForm_full_clean db d) <> [] ->
        exists form,
          PostUpdateView request (Post.pk post) db
          = (inr (render "blog/create.html"
                    [("object", VPost (instance form)); ("post", VPost (instance form));
                     ("form", VPostForm form)]), db)
          /\ data form = Some d /\ errors form = fst (PostCreateForm_full_clean db d))
  /\ (d <> [] -> fst (ProfileEditForm_full_clean db u d) <> [] ->
      exists form,
        edit_profile request db
        = (inr (render "blog/user.html" [("form", VProfileForm form)]), db)
        /\ data form = None /\ errors form = []
        /\ instance form = construct_user (snd (ProfileEditForm_full_clean db u d)) u)
  /\ (d = [] ->
      (forall post,
          In post (posts db) ->
          add_comment time_now request (Post.pk post) db
          = (inr (render "blog/comment.html"
                    [("form", VCommentForm (mkForm None Comment_new []));
                     ("post", VPost post)]), db))
      /\ (forall post comment,
            In post (posts db) -> In comment (comments db) ->
            Comment.comment_post comment = Post.pk post ->
            Comment.author comment = User.pk u ->
            contains "/delete_comment/" (HttpRequest.path request) = false ->
            edit_comment request (Post.pk post) (Comment.pk comment) db
            = (inr (render "blog/comment.html"
                      [("form", VCommentForm (mkForm None comment []));
                       ("comment", VComment comment)]), db))
      /\ edit_profile request db
         = (inr (render "blog/user.html" [("form", VProfileForm (mkForm None u []))]),
            db)).
Proof.
  intros Hu Huser Hmethod Hdata.
  assert (Hsome : d <> [] -> POST_or_None request = Some d).
  { intros Hd. rewrite <- Hdata in *. now apply POST_or_None_some. }
  assert (Hnone : d = [] -> POST_or_None request = None).
  { intros Hd. unfold POST_or_None. now rewrite Hdata, Hd. }
  split; [|split; [|split; [|split; [|split]]]].
  - intros post Hin Hd Herr.
    destruct (CommentForm_bound d Comment_new) as (Hdat & Herrs & Hinvalid).
    exists (CommentForm (Some d) Comment_new). split; [|auto].
    unfold add_comment, login_required, bind, read, lift, ret.
    rewrite Huser. change (is_authenticated (AuthUser u)) with true. cbv beta iota.
    rewrite (get_post_by_pk db post Hu Hin), (Hsome Hd), (Hinvalid Herr).
    reflexivity.
  - intros post comment Hp Hc Hlink Hown Hpath Hd Herr.
    destruct (CommentForm_bound d comment) as (Hdat & Herrs & Hinvalid).
    exists (CommentForm (Some d) comment). split; [|auto].
    unfold edit_comment, bind, read, lift, ret.
    rewrite (get_post_by_pk db post Hu Hp), <- Hlink.
    rewrite (get_comment_of_post db comment Hu Hc), Huser.
    replace (user_eq (AuthUser u) (Comment.author comment)) with true
      by (simpl; symmetry; apply Z.eqb_eq; congruence).
    change (negb true) with false. cbv beta iota.
    rewrite Hpath, (Hsome Hd), (Hinvalid Herr). reflexivity.
  - intros Herr.
    destruct (PostCreateForm_bound db d Post_new) as (Hdat & Herrs & Hinvalid).
    exists (PostCreateForm db (Some d) Post_new). split; [|auto].
    unfold PostCreateView, LoginRequiredMixin_dispatch, CreateView_dispatch,
      bind, read, ret.
    rewrite Huser. change (is_authenticated (AuthUser u)) with true. change (negb true) with false. cbv beta iota.
    rewrite Hmethod, Hdata, (Hinvalid Herr). reflexivity.
  - intros post Hin Hown Herr.
    destruct (PostCreateForm_bound db d post) as (Hdat & Herrs & Hinvalid).
    exists (PostCreateForm db (Some d) post). split; [|auto].
    unfold PostUpdateView, LoginRequiredMixin_dispatch, AuthorRequiredMixin_dispatch,
      UpdateView_dispatch, SingleObjectMixin_get_object, bind, read, lift, ret.
    rewrite Huser. change (is_authenticated (AuthUser u)) with true. change (negb true) with false. cbv beta iota.
    rewrite (get_post_by_pk_ordered db post Hu Hin).
    replace (user_eq (AuthUser u) (Post.author post)) with true
      by (simpl; symmetry; apply Z.eqb_eq; congruence).
    change (negb true) with false. cbv beta iota.
    rewrite (get_post_by_pk_ordered db post Hu Hin).
    rewrite Hmethod, Hdata, (Hinvalid Herr). reflexivity.
  - intros Hd Herr.
    exists (ProfileEditForm db None (instance (ProfileEditForm db (Some d) u))).
    split; [|split; [reflexivity|split; [reflexivity|]]].
    + unfold edit_profile, login_required, bind, read, ret.
      rewrite Huser. change (is_authenticated (AuthUser u)) with true. cbv beta iota.
      rewrite (Hsome Hd), (ProfileEditForm_bound db d u Herr). reflexivity.
    + unfold ProfileEditForm.
      destruct (ProfileEditForm_full_clean db u d) as [errs cd]. reflexivity.
  - intros Hd. split; [|split].
    + intros post Hin.
      unfold add_comment, login_required, bind, read, lift, ret.
      rewrite Huser. change (is_authenticated (AuthUser u)) with true. cbv beta iota.
      rewrite (get_post_by_pk db post Hu Hin), (Hnone Hd). reflexivity.
    + intros post comment Hp Hc Hlink Hown Hpath.
      unfold edit_comment, bind, read, lift, ret.
      rewrite (get_post_by_pk db post Hu Hp), <- Hlink.
      rewrite (get_comment_of_post db comment Hu Hc), Huser.
      replace (user_eq (AuthUser u) (Comment.author comment)) with true
        by (simpl; symmetry; apply Z.eqb_eq; congruence).
      change (negb true) with false. cbv beta iota.
      rewrite Hpath, (Hnone Hd). reflexivity.
    + unfold edit_profile, login_required, bind, read, ret.
      rewrite Huser. change (is_authenticated (AuthUser u)) with true. cbv beta iota.
      rewrite (Hnone Hd). reflexivity.
Qed.
End SubmissionFacts.

(** Bob sends an empty comment text, to add a comment and to edit his
    comment 1; alice sends an empty user name together with a new first
    name. *)
Lemma invalid_submission_renders_form_again_witness :
  (exists form,
      @add_comment Demo.project Demo.time_now (Demo.bad_comment "/posts/1/comment/") 1 Demo.db
      = (inr (render "blog/comment.html"
                [("form", VCommentForm form); ("post", VPost Demo.rome)]), Demo.db)
      /\ data form = Some [("text", "")]
      /\ errors form = [("text", "This field is required.")])
  /\ (exists form,
        @edit_comment Demo.project (Demo.bad_comment "/posts/1/comment/1/edit_comment/")
          1 1 Demo.db
        = (inr (render "blog/comment.html"
                  [("form", VCommentForm form); ("comment", VComment (instance form))]),
           Demo.db)
        /\ data form = Some [("text", "")]
        /\ errors form = [("text", "This field is required.")])
  /\ (exists form,
        @edit_profile Demo.project Demo.bad_profile Demo.db
        = (inr (render "blog/user.html" [("form", VProfileForm form)]), Demo.db)
        /\ data form = None /\ errors form = []
        /\ instance form = User.mk 1 "alice" "Al" "" "" false).
Proof.
  split; [|split].
  - destruct (@invalid_submission_renders_form_again Demo.project Demo.db Demo.time_now
                (Demo.bad_comment "/posts/1/comment/") Demo.bob [("text", "")]
                Demo_db_unique_pks eq_refl eq_refl eq_refl) as (Hadd & _).
    exact (Hadd Demo.rome ltac:(simpl; tauto) ltac:(discriminate) ltac:(discriminate)).
  - destruct (@invalid_submission_renders_form_again Demo.project Demo.db Demo.time_now
                (Demo.bad_comment "/posts/1/comment/1/edit_comment/") Demo.bob
                [("text", "")] Demo_db_unique_pks eq_refl eq_refl eq_refl)
      as (_ & Hedit & _).
    exact (Hedit Demo.rome Demo.praise ltac:(simpl; tauto) ltac:(simpl; tauto)
             eq_refl eq_refl eq_refl ltac:(discriminate) ltac:(discriminate)).
  - destruct (@invalid_submission_renders_form_again Demo.project Demo.db Demo.time_now
                Demo.bad_profile Demo.alice
                [("username", ""); ("first_name", "Al")]
                Demo_db_unique_pks eq_refl eq_refl eq_refl)
      as (_ & _ & _ & _ & Hprofile & _).
    exact (Hprofile ltac:(discriminate) ltac:(discriminate)).
Defined.

(** Two submissions that fail validation and are answered by a form
    without any message.  Alice submits an empty user name and the first
    name [Al]: validation leaves an error on [username], yet the form that
    is rendered holds no error and no submitted data; it shows the first
    name she tried.  Bob submits a comment form without any field: the
    required [text] is missing, yet the form that is rendered is unbound
    and holds no error. *)
Lemma rendered_form_without_messages :
  (fst (Demo.profile_full_clean Demo.db Demo.alice (HttpRequest.POST Demo.bad_profile))
   = [("username", "This field is required.")]
   /\ exists form,
        @edit_profile Demo.project Demo.bad_profile Demo.db
        = (inr (render "blog/user.html" [("form", VProfileForm form)]), Demo.db)
        /\ errors form = []
        /\ data form = None
        /\ User.first_name (instance form) = "Al")
  /\ (fst (Demo.comment_full_clean []) = [("text", "This field is required.")]
      /\ exists form,
           @add_comment Demo.project Demo.time_now
             (Demo.request (AuthUser Demo.bob) POST "/posts/1/comment/" []) 1 Demo.db
           = (inr (render "blog/comment.html"
                     [("form", VCommentForm form); ("post", VPost Demo.rome)]), Demo.db)
           /\ errors form = []
           /\ data form = None).
Proof.
  split; (split; [reflexivity|]);
    eexists; (split; [reflexivity|]); repeat split; reflexivity.
Qed.

(* ------------------------------------------------------------------ *)
(** * Further properties *)

(** ** Pages *)

Lemma firstn_plus {A : Type} (a b : nat) (l : list A) :
  firstn (a + b)%nat l = firstn a l ++ firstn b (skipn a l).
Proof.
  revert l. induction a as [|a IH]; intros l; [reflexivity|].
  destruct l as [|x t]; simpl.
  - now rewrite firstn_nil.
  - now rewrite IH.
Qed.

Lemma concat_chunks {A : Type} (s n : nat) (l : list A) :
  List.concat (map (fun i => firstn s (skipn (i * s)%nat l)) (seq 0 n)) = firstn (n * s)%nat l.
Proof.
  induction n as [|n IH]; [reflexivity|].
  rewrite seq_S, map_app, concat_app, IH. simpl.
  rewrite app_nil_r, (Nat.add_comm s (n * s)%nat). symmetry. apply firstn_plus.
Qed.

Lemma page_items_valid {A : Type} (items : list A) (S k : Z) :
  0 < S -> 1 <= k <= page_count items S ->
  page_items items S k
  = firstn (Z.to_nat S) (skipn (Z.to_nat ((k - 1) * S)) items).
Proof.
  intros HS Hk. unfold page_items, paginate.
  rewrite (get_page_valid items S HS k Hk). unfold Paginator.page.
  rewrite (validate_number_valid items S HS k Hk).
  cbn [Paginator.page_object_list Paginator.per_page Paginator.object_list].
  unfold Paginator.slice, Paginator.count. simpl.
  destruct (last_bounds items S HS) as [_ [Hlo _]].
  assert (Hbot : 0 <= (k - 1) * S) by nia.
  destruct ((k - 1) * S + S + 0 >=? Z.of_nat (List.length items)) eqn:E.
  - apply Z.geb_le in E.
    rewrite !firstn_all2; [reflexivity | |]; rewrite length_skipn; lia.
  - f_equal. lia.
Qed.

Lemma concat_pages {A : Type} (items : list A) (S : Z) :
  0 < S ->
  List.concat (map (page_items items S) (page_range (page_count items S))) = items.
Proof.
  intros HS. unfold page_range.
  destruct (last_bounds items S HS) as [Hl [_ Hhi]].
  set (n := Z.to_nat (page_count items S)).
  rewrite <- seq_shift, !map_map.
  rewrite (map_ext_in _ (fun i => firstn (Z.to_nat S) (skipn (i * Z.to_nat S)%nat items))).
  - rewrite concat_chunks. apply firstn_all2. subst n. nia.
  - intros i Hi. apply in_seq in Hi.
    rewrite page_items_valid; [|assumption | subst n; lia].
    do 2 f_equal. nia.
Qed.

(** Every row of a listing is on one of its pages. *)
Lemma row_on_some_page {A : Type} (items : list A) (S : Z) (x : A) :
  0 < S -> In x items ->
  exists k, 1 <= k <= page_count items S /\ In x (page_items items S k).
Proof.
  intros HS Hin. rewrite <- (concat_pages items S HS) in Hin.
  apply in_concat in Hin as (pg & Hpg & Hx).
  apply in_map_iff in Hpg as (k & <- & Hk). exists k. split; [|assumption].
  unfold page_range in Hk. apply in_map_iff in Hk as (i & <- & Hi).
  apply in_seq in Hi. lia.
Qed.

(** X1: the pages of a list, read in order from the first to the last,
    give back the list: the order of the items is kept, no item is
    repeated or lost, and every item is on one of the valid pages. *)
Theorem pages_partition_items {A : Type} (items : list A) (S : Z) :
  0 < S ->
  List.concat (map (page_items items S) (page_range (page_count items S))) = items
  /\ (forall x, In x items ->
        exists k, 1 <= k <= page_count items S /\ In x (page_items items S k)).
Proof.
  intros HS. split.
  - now apply concat_pages.
  - intros x Hin. now apply row_on_some_page.
Qed.

Lemma pages_partition_items_witness :
  map (page_items [1; 2; 3; 4; 5] 2) (page_range (page_count [1; 2; 3; 4; 5] 2))
  = [[1; 2]; [3; 4]; [5]]
  /\ List.concat (map (page_items [1; 2; 3; 4; 5] 2) (page_range (page_count [1; 2; 3; 4; 5] 2)))
     = [1; 2; 3; 4; 5].
Proof.
  split; [reflexivity|].
  exact (proj1 (pages_partition_items [1; 2; 3; 4; 5] 2 ltac:(lia))).
Defined.

Lemma page_record {A : Type} (items : list A) (S k : Z) :
  0 < S -> 1 <= k <= page_count items S ->
  exists pg, Paginator.page (Paginator.mk items S) k = inr pg
             /\ Paginator.number pg = k
             /\ Paginator.paginator pg = Paginator.mk items S
             /\ Paginator.page_object_list pg = page_items items S k.
Proof.
  intros HS Hk. unfold page_items, paginate.
  rewrite (get_page_valid items S HS k Hk). unfold Paginator.page.
  rewrite (validate_number_valid items S HS k Hk).
  eexists. repeat split.
Qed.

(** Whatever the page argument, the page [paginate] returns is one of the
    pages [1 .. page_count] of the list. *)
Lemma paginate_is_page {A : Type} (items : list A) (S : Z) (arg : PageArg)
    (pg : Paginator.Page A) :
  0 < S -> paginate items arg S = inr pg ->
  1 <= Paginator.number pg <= page_count items S
  /\ Paginator.paginator pg = Paginator.mk items S
  /\ Paginator.page_object_list pg = page_items items S (Paginator.number pg).
Proof.
  intros HS. unfold paginate.
  destruct (last_bounds items S HS) as [Hl _].
  assert (Hpage : forall k, 1 <= k <= page_count items S ->
            Paginator.page (Paginator.mk items S) k = inr pg ->
            1 <= Paginator.number pg <= page_count items S
            /\ Paginator.paginator pg = Paginator.mk items S
            /\ Paginator.page_object_list pg
               = page_items items S (Paginator.number pg)).
  { intros k Hk E. destruct (page_record items S k HS Hk) as (pg' & E' & Hn & Hp & Hl').
    rewrite E in E'. injection E' as <-. rewrite Hn. auto. }
  destruct arg as [| | n].
  - rewrite get_page_not_an_integer by auto. apply Hpage. lia.
  - rewrite get_page_not_an_integer by auto. apply Hpage. lia.
  - destruct (Z_lt_ge_dec n 1) as [Hlt|Hge].
    + rewrite get_page_out_of_range by auto. apply Hpage. lia.
    + destruct (Z_lt_ge_dec (page_count items S) n) as [Hgt|Hle].
      * rewrite get_page_out_of_range by auto. apply Hpage. lia.
      * rewrite get_page_valid by lia. apply Hpage. lia.
Qed.

(** X2: on the page [paginate] returns, [has_next] says whether items
    remain after the page and [has_previous] whether items precede it. *)
Theorem has_next_iff_items_remain {A : Type} (items : list A) (S : Z)
    (arg : PageArg) (pg : Paginator.Page A) :
  0 < S -> paginate items arg S = inr pg ->
  Paginator.has_next pg
  = inr (Paginator.number pg * S <? Z.of_nat (List.length items))
  /\ Paginator.has_previous pg = (0 <? (Paginator.number pg - 1) * S).
Proof.
  intros HS E.
  destruct (paginate_is_page items S arg pg HS E) as (Hn & Hp & _).
  destruct (last_bounds items S HS) as [_ [Hlo Hhi]].
  split.
  - unfold Paginator.has_next. rewrite Hp, (num_pages_eq items S HS). f_equal.
    destruct (Paginator.number pg <? page_count items S) eqn:E1;
      destruct (Paginator.number pg * S <? Z.of_nat (List.length items)) eqn:E2;
      try reflexivity; exfalso;
      rewrite ?Z.ltb_lt, ?Z.ltb_ge in E1, E2; nia.
  - unfold Paginator.has_previous.
    destruct (Paginator.number pg >? 1) eqn:E1;
      destruct (0 <? (Paginator.number pg - 1) * S) eqn:E2;
      try reflexivity; exfalso;
      rewrite ?Z.gtb_ltb, ?Z.ltb_lt, ?Z.ltb_ge in E1, E2; nia.
Qed.

Lemma has_next_iff_items_remain_witness :
  exists pg, paginate [1; 2; 3; 4] (IntPage 2) 2 = inr pg
             /\ Paginator.has_next pg = inr false
             /\ Paginator.has_previous pg = true.
Proof.
  eexists. split; [reflexivity|].
  exact (has_next_iff_items_remain [1; 2; 3; 4] 2 (IntPage 2) _ ltac:(lia) eq_refl).
Defined.

Lemma StronglySorted_skipn {A : Type} (R : A -> A -> Prop) (n : nat) (l : list A) :
  StronglySorted R l -> StronglySorted R (skipn n l).
Proof.
  revert l. induction n as [|n IH]; intros l Hs; [exact Hs|].
  destruct l as [|x t]; [exact Hs|]. simpl. apply IH. now inversion Hs.
Qed.

Lemma In_firstn {A : Type} (n : nat) (l : list A) (x : A) :
  In x (firstn n l) -> In x l.
Proof.
  intros Hin. rewrite <- (firstn_skipn n l). apply in_or_app. now left.
Qed.

Lemma StronglySorted_firstn {A : Type} (R : A -> A -> Prop) (n : nat) (l : list A) :
  StronglySorted R l -> StronglySorted R (firstn n l).
Proof.
  revert l. induction n as [|n IH]; intros l Hs; [constructor|].
  destruct l as [|x t]; [constructor|]. simpl. inversion Hs as [|? ? Ht Hx]; subst.
  constructor; [now apply IH|].
  rewrite Forall_forall in *. intros y Hy. apply Hx. eapply In_firstn; eauto.
Qed.

Lemma In_skipn {A : Type} (n : nat) (l : list A) (x : A) :
  In x (skipn n l) -> In x l.
Proof.
  intros Hin. rewrite <- (firstn_skipn n l). apply in_or_app. now right.
Qed.

(** A page is a stretch of the list. *)
Lemma paginate_stretch {A : Type} (items : list A) (S : Z) (arg : PageArg)
    (pg : Paginator.Page A) :
  0 < S -> paginate items arg S = inr pg ->
  exists a b, Paginator.page_object_list pg = firstn a (skipn b items).
Proof.
  intros HS E.
  destruct (paginate_is_page items S arg pg HS E) as (Hn & _ & Hl).
  rewrite Hl, page_items_valid by assumption. eauto.
Qed.

(** ** Listing pages *)

Lemma get_object_or_404_found {A : Type} (f : A -> bool) (l : list A) (x : A) :
  get_object_or_404 (filter f l) = inr x -> In x l /\ f x = true.
Proof.
  intros E. apply filter_In.
  destruct (filter f l) as [|y [|z t]]; try discriminate.
  injection E as ->. now left.
Qed.

Lemma get_object_or_404_missing {A : Type} (f : A -> bool) (l : list A) :
  (forall x, In x l -> f x = false) ->
  get_object_or_404 (filter f l) = inl Http404.
Proof.
  intros Hall. apply filter_nil_iff in Hall. now rewrite Hall.
Qed.

Lemma get_filtered_posts_row_iff (db : Store) (time_now : Z)
    (posts : option (list Post.t)) (r : PostRow) :
  In r (get_filtered_posts db time_now posts true true)
  <-> r = annotate db (row_post r)
      /\ In (row_post r) (py_or posts (Post_objects_all db))
      /\ visible db time_now (row_post r) = true.
Proof.
  split.
  - intros Hin. split; [eapply get_filtered_posts_rows; eauto|].
    assert (Hp : In (row_post r)
                   (map row_post (get_filtered_posts db time_now posts true true)))
      by now apply in_map.
    apply get_filtered_posts_In in Hp. intuition.
  - intros (Hr & Hin & Hvis). rewrite Hr.
    unfold get_filtered_posts. apply order_by_desc_In, in_map, filter_In. auto.
Qed.

Lemma listing_sorted (db : Store) (time_now : Z) (posts : option (list Post.t))
    (apply_filter apply_annotation : bool) :
  StronglySorted pub_date_desc
    (get_filtered_posts db time_now posts apply_filter apply_annotation).
Proof.
  unfold get_filtered_posts, pub_date_desc.
  apply (order_by_desc_sorted (fun r => Post.pub_date (row_post r))).
Qed.

Lemma paginate_total {A : Type} (items : list A) (S : Z) (arg : PageArg) :
  0 < S -> exists pg, paginate items arg S = inr pg.
Proof.
  intros HS. destruct (get_page_total items S HS arg) as (pg & E & _). now exists pg.
Qed.

(** The rows of a page of a sorted listing are rows of the listing, in
    the listing's order. *)
Lemma page_of_listing (rows : list PostRow) (S : Z) (arg : PageArg)
    (pg : Paginator.Page PostRow) :
  0 < S -> StronglySorted pub_date_desc rows ->
  paginate rows arg S = inr pg ->
  StronglySorted pub_date_desc (Paginator.page_object_list pg)
  /\ (forall r, In r (Paginator.page_object_list pg) -> In r rows).
Proof.
  intros HS Hs E.
  destruct (paginate_stretch rows S arg pg HS E) as (a & b & ->). split.
  - now apply StronglySorted_firstn, StronglySorted_skipn.
  - intros r Hr. eapply In_skipn, In_firstn, Hr.
Qed.


Section ListingPages.
Context `{Project}.

(** X3: the index page never fails and never writes.  The rows of the
    page it renders are in descending order of [pub_date]; each is a post
    of the table that passes the visibility filter, with its comment count
    attached; and every post that passes the filter is on one of the pages
    of the listing. *)
Theorem index_lists_visible_posts
    (db : Store) (time_now : Z) (request : HttpRequest.t) :
  0 < POSTS_LIMIT ->
  exists page_obj,
    index time_now request db
    = (inr (render "blog/index.html" [("page_obj", VPage page_obj)]), db)
    /\ StronglySorted pub_date_desc (Paginator.page_object_list page_obj)
    /\ (forall r, In r (Paginator.page_object_list page_obj) ->
          In (row_post r) (posts db)
          /\ visible db time_now (row_post r) = true
          /\ comment_count r = Some (List.length (comments_of db (row_post r))))
    /\ (forall p, In p (posts db) -> visible db time_now p = true ->
          exists k, 1 <= k <= page_count (get_filtered_posts db time_now None true true)
                                  POSTS_LIMIT
                    /\ In (annotate db p)
                          (page_items (get_filtered_posts db time_now None true true)
                             POSTS_LIMIT k)).
Proof.
  intros HS.
  destruct (paginate_total (get_filtered_posts db time_now None true true) POSTS_LIMIT
              (HttpRequest.GET_page request) HS) as (pg & E).
  exists pg. split; [|split; [|split]].
  - unfold index, bind, read, lift, ret. now rewrite E.
  - eapply page_of_listing; eauto. apply listing_sorted.
  - intros r Hr.
    destruct (page_of_listing _ _ _ _ HS
                (listing_sorted db time_now None true true) E) as [_ Hsub].
    apply Hsub, get_filtered_posts_row_iff in Hr as (Hr & Hin & Hvis).
    simpl in Hin. apply Post_objects_all_In in Hin.
    split; [assumption|]. split; [assumption|].
    rewrite Hr. simpl. now rewrite Count_left_join.
  - intros p Hin Hvis. apply row_on_some_page; [assumption|].
    apply get_filtered_posts_row_iff. simpl.
    rewrite Post_objects_all_In. auto.
Qed.
End ListingPages.

Lemma index_lists_visible_posts_witness :
  exists page_obj,
    @index Demo.project Demo.time_now (Demo.request AnonymousUser GET "/" []) Demo.db
    = (inr (render "blog/index.html" [("page_obj", VPage page_obj)]), Demo.db)
    /\ map (fun r => (Post.title (row_post r), comment_count r))
           (Paginator.page_object_list page_obj)
       = [("Oslo", Some 0%nat); ("Rome", Some 2%nat)].
Proof.
  destruct (@index_lists_visible_posts Demo.project Demo.db Demo.time_now
              (Demo.request AnonymousUser GET "/" []) ltac:(reflexivity))
    as (page_obj & E & _).
  exists page_obj. split; [exact E|].
  vm_compute in E. injection E as <-. reflexivity.
Defined.

(** A lookup on a unique key returns the row that matches. *)
Lemma get_object_or_404_the {A K : Type} (key : A -> K) (f : A -> bool)
    (l : list A) (x : A) :
  NoDup (map key l) ->
  In x l ->
  f x = true ->
  (forall y, f y = true -> key y = key x) ->
  get_object_or_404 (filter f l) = inr x.
Proof.
  intros Hnd Hin Hfx Hkey.
  enough (E : filter f l = [x]) by now rewrite E.
  induction l as [|a t IH]; simpl; [contradiction|].
  inversion Hnd as [|k ks Hnotin Hnd']; subst.
  destruct Hin as [->|Hin].
  - rewrite Hfx. f_equal. apply filter_nil_iff. intros y Hy.
    destruct (f y) eqn:E; [|reflexivity].
    exfalso. apply Hnotin. rewrite <- (Hkey y E). now apply in_map.
  - destruct (f a) eqn:E.
    + exfalso. apply Hnotin. rewrite (Hkey a E). now apply in_map.
    + apply IH; auto.
Qed.

Section ProfileAndCategoryPages.
Context `{Project}.

(** X4: the profile page is never rendered.  A name that no user has
    gives the 404 page.  For a user that exists the handler reads
    [user.post] first; the reverse accessor of [Post.author] is [posts],
    so the read raises [AttributeError]: the owner, any other user and an
    anonymous visitor all get the 500 page, whatever the page argument,
    the page size and the posts of the user.  Nothing is written. *)
Theorem profile_never_renders
    (db : Store) (time_now : Z) (request : HttpRequest.t) (username : string) :
  NoDup (map User.username (users db)) ->
  (forall response db', profile time_now request username db <> (inr response, db'))
  /\ ((forall u, In u (users db) -> User.username u <> username) ->
      respond (profile time_now request username) db = (HttpResponseNotFound, db))
  /\ (forall user, In user (users db) -> User.username user = username ->
        profile time_now request username db = (inl AttributeError, db)
        /\ respond (profile time_now request username) db
           = (HttpResponseServerError, db)).
Proof.
  intros Hnd. split; [|split].
  - intros response db'. unfold profile, bind, read, lift, ret.
    destruct (get_object_or_404 _); discriminate.
  - intros Hnone. unfold respond, profile, bind, read, lift, ret.
    rewrite get_object_or_404_missing; [reflexivity|].
    intros u Hu. apply String.eqb_neq. auto.
  - intros user Hin Hname.
    assert (E : profile time_now request username db = (inl AttributeError, db)).
    { unfold profile, bind, read, lift, ret.
      rewrite (get_object_or_404_the User.username _ _ user Hnd Hin);
        [reflexivity | now apply String.eqb_eq |].
      intros y Hy. apply String.eqb_eq in Hy. congruence. }
    split; [exact E|]. unfold respond. now rewrite E.
Qed.

(** X5: the category page is never rendered.  A slug that names no
    category, or an unpublished one, gives the 404 page.  For a published
    category the handler reads [category.post]; the reverse accessor of
    [Post.category] is [posts], so the read raises [AttributeError] and the
    visitor gets the 500 page, whether the category has posts or not.
    Nothing is written. *)
Theorem category_posts_never_renders
    (db : Store) (time_now : Z) (request : HttpRequest.t) (category_slug : string) :
  NoDup (map Category.slug (categories db)) ->
  (forall response db',
      category_posts time_now request category_slug db <> (inr response, db'))
  /\ ((forall c, In c (categories db) -> Category.slug c = category_slug ->
                 Category.is_published c = false) ->
      respond (category_posts time_now request category_slug) db
      = (HttpResponseNotFound, db))
  /\ (forall category, In category (categories db) ->
        Category.slug category = category_slug ->
        Category.is_published category = true ->
        category_posts time_now request category_slug db = (inl AttributeError, db)
        /\ respond (category_posts time_now request category_slug) db
           = (HttpResponseServerError, db)).
Proof.
  intros Hnd. split; [|split].
  - intros response db'. unfold category_posts, bind, read, lift, ret.
    destruct (get_object_or_404 _); discriminate.
  - intros Hnone. unfold respond, category_posts, bind, read, lift, ret.
    rewrite get_object_or_404_missing; [reflexivity|].
    intros c Hc. destruct (String.eqb_spec (Category.slug c) category_slug) as [E|E];
      [|reflexivity].
    now rewrite (Hnone c Hc E).
  - intros category Hin Hslug Hpub.
    assert (E : category_posts time_now request category_slug db
                = (inl AttributeError, db)).
    { unfold category_posts, bind, read, lift, ret.
      rewrite (get_object_or_404_the Category.slug _ _ category Hnd Hin);
        [reflexivity | |].
      - rewrite Hpub. apply andb_true_iff. split; [now apply String.eqb_eq | reflexivity].
      - intros y Hy. apply andb_true_iff in Hy as [Hy _].
        apply String.eqb_eq in Hy. congruence. }
    split; [exact E|]. unfold respond. now rewrite E.
Qed.
End ProfileAndCategoryPages.

Lemma Demo_db_unique_names : unique_names Demo.db.
Proof.
  unfold unique_names. simpl.
  split; repeat constructor; simpl; intuition discriminate.
Qed.

(** Alice's own profile and bob's, seen by alice and by a visitor; and the
    profile of a name nobody has. *)
Lemma profile_never_renders_witness :
  respond (@profile Demo.project Demo.time_now
             (Demo.request (AuthUser Demo.alice) GET "/profile/alice/" []) "alice") Demo.db
  = (HttpResponseServerError, Demo.db)
  /\ respond (@profile Demo.project Demo.time_now
                (Demo.request AnonymousUser GET "/profile/bob/" []) "bob") Demo.db
     = (HttpResponseServerError, Demo.db)
  /\ respond (@profile Demo.project Demo.time_now
                (Demo.request AnonymousUser GET "/profile/dave/" []) "dave") Demo.db
     = (HttpResponseNotFound, Demo.db).
Proof.
  split; [|split].
  - apply (@profile_never_renders Demo.project Demo.db Demo.time_now
             (Demo.request (AuthUser Demo.alice) GET "/profile/alice/" []) "alice"
             (proj1 Demo_db_unique_names)) with (user := Demo.alice);
      [simpl; tauto | reflexivity].
  - apply (@profile_never_renders Demo.project Demo.db Demo.time_now
             (Demo.request AnonymousUser GET "/profile/bob/" []) "bob"
             (proj1 Demo_db_unique_names)) with (user := Demo.bob);
      [simpl; tauto | reflexivity].
  - apply (@profile_never_renders Demo.project Demo.db Demo.time_now
             (Demo.request AnonymousUser GET "/profile/dave/" []) "dave"
             (proj1 Demo_db_unique_names)).
    simpl. intros u [<-|[<-|[<-|[]]]]; discriminate.
Defined.

(** The published category [travel], which has posts, and the unpublished
    category [drafts]. *)
Lemma category_posts_never_renders_witness :
  respond (@category_posts Demo.project Demo.time_now
             (Demo.request AnonymousUser GET "/category/travel/" []) "travel") Demo.db
  = (HttpResponseServerError, Demo.db)
  /\ respond (@category_posts Demo.project Demo.time_now
                (Demo.request AnonymousUser GET "/category/drafts/" []) "drafts") Demo.db
     = (HttpResponseNotFound, Demo.db).
Proof.
  split.
  - apply (@category_posts_never_renders Demo.project Demo.db Demo.time_now
             (Demo.request AnonymousUser GET "/category/travel/" []) "travel"
             (proj2 Demo_db_unique_names)) with (category := Demo.travel);
      [simpl; tauto | reflexivity | reflexivity].
  - apply (@category_posts_never_renders Demo.project Demo.db Demo.time_now
             (Demo.request AnonymousUser GET "/category/drafts/" []) "drafts"
             (proj2 Demo_db_unique_names)).
    simpl. intros c [<-|[<-|[<-|[]]]]; intros E; (reflexivity || discriminate E).
Defined.

(** ** The login gate *)

Ltac run_view :=
  unfold bind, read, lift, ret, raise; cbv beta.

Ltac case_step :=
  match goal with
  | |- context [match ?x with _ => _ end] =>
      lazymatch x with
      | context [match _ with _ => _ end] => fail
      | _ => destruct x eqn:?
      end
  end.

Section LoginGate.
Context `{Project}.

(** X6: which routes ask for a login.  An anonymous request to the routes
    that create, edit or delete a post, add a comment or edit the profile
    is redirected to the login page with its own path as [next], before
    any lookup and with the store untouched.  On the other routes (post
    detail, comment edit and delete, profile, category, index) an
    anonymous request is never redirected to the login page. *)
Theorem anonymous_request_and_login_gate
    (r : Route.t) (time_now : Z) (request : HttpRequest.t) (db : Store) :
  HttpRequest.user request = AnonymousUser ->
  (login_gated r = true ->
   urlpatterns r time_now request db
   = (inr (redirect (login_url (HttpRequest.path request))), db))
  /\ (login_gated r = false ->
      forall next,
        fst (urlpatterns r time_now request db) <> inr (redirect (login_url next))).
Proof.
  intros Hanon. split.
  - destruct r; try discriminate; intros _; simpl;
      unfold PostCreateView, PostUpdateView, delete_post, add_comment, edit_profile,
        LoginRequiredMixin_dispatch, login_required;
      rewrite Hanon; reflexivity.
  - destruct r; try discriminate; intros _ next; simpl.
    + unfold PostDetailView, PostDetailView_get_object. rewrite Hanon. run_view.
      simpl. repeat (case_step; simpl); discriminate.
    + unfold edit_comment. rewrite Hanon. run_view.
      simpl. repeat (case_step; simpl); discriminate.
    + unfold edit_comment. rewrite Hanon. run_view.
      simpl. repeat (case_step; simpl); discriminate.
    + unfold profile. run_view. repeat (case_step; simpl); discriminate.
    + unfold category_posts. run_view. repeat (case_step; simpl); discriminate.
    + unfold index. run_view. repeat (case_step; simpl); discriminate.
Qed.
End LoginGate.

Lemma anonymous_request_and_login_gate_witness :
  @urlpatterns Demo.project (Route.delete_post 1) Demo.time_now
    (Demo.request AnonymousUser POST "/posts/1/delete/" []) Demo.db
  = (inr (redirect (login_url "/posts/1/delete/")), Demo.db)
  /\ fst (@urlpatterns Demo.project (Route.delete_comment 1 1) Demo.time_now
            (Demo.request AnonymousUser POST "/posts/1/comment/1/delete_comment/" [])
            Demo.db)
     <> inr (redirect (login_url "/posts/1/comment/1/delete_comment/")).
Proof.
  split.
  - exact (proj1 (@anonymous_request_and_login_gate Demo.project (Route.delete_post 1)
                    Demo.time_now (Demo.request AnonymousUser POST "/posts/1/delete/" [])
                    Demo.db eq_refl) eq_refl).
  - exact (proj2 (@anonymous_request_and_login_gate Demo.project
                    (Route.delete_comment 1 1) Demo.time_now
                    (Demo.request AnonymousUser POST
                       "/posts/1/comment/1/delete_comment/" [])
                    Demo.db eq_refl) eq_refl _).
Defined.

(** ** Safe requests *)

Section SafeRequests.
Context `{Project}.

(** X7: a GET request (whose [request.POST] is empty) never changes the
    store, on any route, whoever sends it and whatever it names: pages are
    rendered, forms and the delete confirmations are only shown. *)
Theorem get_request_never_writes
    (r : Route.t) (time_now : Z) (request : HttpRequest.t) (db : Store) :
  HttpRequest.method request = GET ->
  HttpRequest.POST request = [] ->
  snd (urlpatterns r time_now request db) = db.
Proof.
  intros Hget Hempty.
  assert (Hnone : POST_or_None request = None).
  { unfold POST_or_None. now rewrite Hempty. }
  destruct r; simpl;
    unfold PostCreateView, CreateView_dispatch, PostDetailView,
      PostDetailView_get_object, PostUpdateView, UpdateView_dispatch,
      AuthorRequiredMixin_dispatch, SingleObjectMixin_get_object,
      LoginRequiredMixin_dispatch, delete_post, add_comment, edit_comment,
      edit_profile, login_required, profile, category_posts, index;
    rewrite ?Hget, ?Hnone; run_view; simpl;
    repeat (case_step; simpl; rewrite ?Hget); reflexivity.
Qed.
End SafeRequests.

Lemma get_request_never_writes_witness :
  snd (@urlpatterns Demo.project (Route.delete_comment 1 1) Demo.time_now
         (Demo.request (AuthUser Demo.bob) GET "/posts/1/comment/1/delete_comment/" [])
         Demo.db) = Demo.db
  /\ snd (@urlpatterns Demo.project (Route.delete_post 1) Demo.time_now
            (Demo.request (AuthUser Demo.alice) GET "/posts/1/delete/" []) Demo.db)
     = Demo.db.
Proof.
  split.
  - exact (@get_request_never_writes Demo.project (Route.delete_comment 1 1)
             Demo.time_now
             (Demo.request (AuthUser Demo.bob) GET "/posts/1/comment/1/delete_comment/" [])
             Demo.db eq_refl eq_refl).
  - exact (@get_request_never_writes Demo.project (Route.delete_post 1) Demo.time_now
             (Demo.request (AuthUser Demo.alice) GET "/posts/1/delete/" []) Demo.db
             eq_refl eq_refl).
Defined.

(** ** The store stays well formed *)

Lemma map_pk_replace {A : Type} (key : A -> Z) (a : A) (l : list A) :
  map key (map (fun r => if key r =? key a then a else r) l) = map key l.
Proof.
  rewrite map_map. apply map_ext. intros r.
  destruct (key r =? key a) eqn:E; [|reflexivity].
  apply Z.eqb_eq in E. congruence.
Qed.

Lemma In_replace {A : Type} (key : A -> Z) (a : A) (l : list A) (x : A) :
  In x (map (fun r => if key r =? key a then a else r) l) ->
  exists r, In r l /\ key r = key x.
Proof.
  intros Hin. apply in_map_iff in Hin as (r & Hr & Hin). exists r. split; [assumption|].
  destruct (key r =? key a) eqn:E; [|congruence].
  apply Z.eqb_eq in E. congruence.
Qed.

Lemma post_with_pk_survives {A : Type} (l l' : list Post.t) (k : Z) :
  map Post.pk l' = map Post.pk l ->
  (exists p, In p l /\ k = Post.pk p) -> exists p, In p l' /\ k = Post.pk p.
Proof.
  intros Hmap (p & Hin & ->).
  assert (Hk : In (Post.pk p) (map Post.pk l')) by (rewrite Hmap; now apply in_map).
  apply in_map_iff in Hk as (q & Hq & Hin'). eauto.
Qed.

Lemma store_ok_User_save (u : User.t) (db : Store) :
  store_ok db -> store_ok (snd (User_save u db)).
Proof.
  intros ((Hu & Hc & Hp & Hm) & Hrest). split; [|exact Hrest].
  unfold unique_pks. simpl. rewrite (map_pk_replace User.pk). auto.
Qed.

Lemma store_ok_Post_save (p : Post.t) (db : Store) :
  store_ok db -> store_ok (snd (Post_save p db)).
Proof.
  intros ((Hu & Hc & Hp & Hm) & Hseq & Hcseq & Href).
  assert (Hmap : map Post.pk (map (fun r => if Post.pk r =? Post.pk p then p else r)
                                  (posts db)) = map Post.pk (posts db))
    by apply (map_pk_replace Post.pk).
  split; [|split; [|split]]; simpl.
  - unfold unique_pks. simpl. rewrite Hmap. auto.
  - intros q Hq. apply (In_replace Post.pk) in Hq as (r & Hr & <-). auto.
  - exact Hcseq.
  - intros c Hc'. apply (@post_with_pk_survives unit (posts db)); auto.
Qed.

Lemma store_ok_Post_insert (time_now : Z) (p : Post.t) (db : Store) :
  store_ok db -> store_ok (snd (Post_insert time_now p db)).
Proof.
  intros ((Hu & Hc & Hp & Hm) & Hseq & Hcseq & Href).
  split; [|split; [|split]]; simpl.
  - unfold unique_pks. simpl. repeat split; try assumption.
    rewrite map_app. simpl. apply NoDup_app; [assumption | repeat constructor; auto |].
    intros k Hk [<-|[]]. apply in_map_iff in Hk as (q & Hq & Hin).
    specialize (Hseq q Hin). lia.
  - intros q Hq. apply in_app_or in Hq as [Hq|[<-|[]]]; simpl.
    + specialize (Hseq q Hq). lia.
    + lia.
  - exact Hcseq.
  - intros c Hc'. destruct (Href c Hc') as (q & Hq & E).
    exists q. split; [apply in_or_app; now left | exact E].
Qed.

Lemma store_ok_Comment_insert (time_now : Z) (c : Comment.t) (db : Store) :
  store_ok db ->
  (exists p, In p (posts db) /\ Comment.comment_post c = Post.pk p) ->
  store_ok (snd (Comment_insert time_now c db)).
Proof.
  intros ((Hu & Hc & Hp & Hm) & Hseq & Hcseq & Href) Hpost.
  split; [|split; [|split]]; simpl.
  - unfold unique_pks. simpl. repeat split; try assumption.
    rewrite map_app. simpl. apply NoDup_app; [assumption | repeat constructor; auto |].
    intros k Hk [<-|[]]. apply in_map_iff in Hk as (q & Hq & Hin).
    specialize (Hcseq q Hin). lia.
  - exact Hseq.
  - intros q Hq. apply in_app_or in Hq as [Hq|[<-|[]]]; simpl.
    + specialize (Hcseq q Hq). lia.
    + lia.
  - intros q Hq. apply in_app_or in Hq as [Hq|[<-|[]]]; simpl; auto.
Qed.

Lemma store_ok_Comment_save (c : Comment.t) (db : Store) :
  store_ok db ->
  (exists p, In p (posts db) /\ Comment.comment_post c = Post.pk p) ->
  store_ok (snd (Comment_save c db)).
Proof.
  intros ((Hu & Hc & Hp & Hm) & Hseq & Hcseq & Href) Hpost.
  split; [|split; [|split]]; simpl.
  - unfold unique_pks. simpl. rewrite (map_pk_replace Comment.pk). auto.
  - exact Hseq.
  - intros q Hq. apply (In_replace Comment.pk) in Hq as (r & Hr & <-). auto.
  - intros q Hq. apply in_map_iff in Hq as (r & Hr & Hin).
    destruct (Comment.pk r =? Comment.pk c); subst q; auto.
Qed.

Lemma store_ok_Comment_delete (c : Comment.t) (db : Store) :
  store_ok db -> store_ok (snd (Comment_delete c db)).
Proof.
  intros ((Hu & Hc & Hp & Hm) & Hseq & Hcseq & Href).
  split; [|split; [|split]]; simpl.
  - unfold unique_pks. simpl. repeat split; try assumption.
    now apply NoDup_map_filter.
  - exact Hseq.
  - intros q Hq. apply filter_In in Hq as [Hq _]. auto.
  - intros q Hq. apply filter_In in Hq as [Hq _]. auto.
Qed.

Lemma store_ok_Post_delete (p : Post.t) (db : Store) :
  store_ok db -> store_ok (snd (Post_delete p db)).
Proof.
  intros ((Hu & Hc & Hp & Hm) & Hseq & Hcseq & Href).
  split; [|split; [|split]]; simpl.
  - unfold unique_pks. simpl. repeat split; try assumption;
      now apply NoDup_map_filter.
  - intros q Hq. apply filter_In in Hq as [Hq _]. auto.
  - intros q Hq. apply filter_In in Hq as [Hq _]. auto.
  - intros c Hc'. apply filter_In in Hc' as [Hc' Hne].
    destruct (Href c Hc') as (q & Hq & E). exists q. split; [|exact E].
    apply filter_In. split; [assumption|]. now rewrite <- E.
Qed.

Section StoreInvariant.
Context `{Project}.

Lemma CommentForm_keeps_post (d : option QueryDict) (c : Comment.t) :
  Comment.comment_post (instance (CommentForm d c)) = Comment.comment_post c.
Proof.
  unfold CommentForm. destruct d as [d|]; [|reflexivity].
  destruct (CommentForm_full_clean d). reflexivity.
Qed.

(** X8: every route keeps the store well formed: after any request,
    primary keys are still unique, the key sequences are still ahead of
    every key in use, and every comment still points to a post that
    exists (deleting a post takes its comments with it). *)
Theorem every_route_keeps_store_ok
    (r : Route.t) (time_now : Z) (request : HttpRequest.t) (db : Store) :
  store_ok db -> store_ok (snd (urlpatterns r time_now request db)).
Proof.
  intros Hok.
  destruct r; simpl;
    unfold PostCreateView, CreateView_dispatch, PostDetailView,
      PostDetailView_get_object, PostUpdateView, UpdateView_dispatch,
      AuthorRequiredMixin_dispatch, SingleObjectMixin_get_object,
      LoginRequiredMixin_dispatch, delete_post, add_comment, edit_comment,
      edit_profile, login_required, profile, category_posts, index;
    run_view; simpl;
    repeat (case_step; simpl); try assumption.
  all: try (now apply store_ok_User_save).
  all: try (now apply store_ok_Post_delete).
  all: try (now apply store_ok_Comment_delete).
  all: try match goal with
       | Hd : store_ok ?d
         |- store_ok (set_posts ?d (map (fun r => if _ then ?a else r) _) _) =>
           exact (store_ok_Post_save a d Hd)
       | Hd : store_ok ?d |- store_ok (set_posts ?d (posts ?d ++ [?row]) _) =>
           exact (store_ok_Post_insert (Post.created_at row) row d Hd)
       end.
  - match goal with
    | |- store_ok (set_comments db (comments db ++ [?row]) _) =>
        apply (store_ok_Comment_insert time_now row db Hok)
    end. simpl.
    match goal with
    | E : get_object_or_404 (filter _ (posts db)) = inr ?p |- _ =>
        apply get_object_or_404_found in E as [Hin _]; exists p; auto
    end.
  - match goal with
    | |- store_ok (set_comments db (map (fun r => if _ then ?a else r) _) _) =>
        apply (store_ok_Comment_save a db Hok)
    end.
    rewrite CommentForm_keeps_post.
    match goal with
    | E : get_object_or_404 (filter _ (comments db)) = inr ?c |- _ =>
        apply get_object_or_404_found in E as [Hin _];
        destruct Hok as (_ & _ & _ & Href); exact (Href c Hin)
    end.
  - match goal with
    | |- store_ok (set_comments db (map (fun r => if _ then ?a else r) _) _) =>
        apply (store_ok_Comment_save a db Hok)
    end.
    rewrite CommentForm_keeps_post.
    match goal with
    | E : get_object_or_404 (filter _ (comments db)) = inr ?c |- _ =>
        apply get_object_or_404_found in E as [Hin _];
        destruct Hok as (_ & _ & _ & Href); exact (Href c Hin)
    end.
Qed.
End StoreInvariant.

Lemma Demo_db_store_ok : store_ok Demo.db.
Proof.
  split; [exact Demo_db_unique_pks|]. simpl. split; [|split].
  - intros p [<-|[<-|[<-|[<-|[<-|[]]]]]]; reflexivity.
  - intros c [<-|[<-|[]]]; reflexivity.
  - intros c [<-|[<-|[]]]; exists Demo.rome; simpl; auto.
Qed.

Lemma every_route_keeps_store_ok_witness :
  store_ok (snd (@urlpatterns Demo.project (Route.delete_post 1) Demo.time_now
                   (Demo.request (AuthUser Demo.alice) POST "/posts/1/delete/" [])
                   Demo.db))
  /\ comments (snd (@urlpatterns Demo.project (Route.delete_post 1) Demo.time_now
                      (Demo.request (AuthUser Demo.alice) POST "/posts/1/delete/" [])
                      Demo.db)) = [].
Proof.
  split; [|reflexivity].
  exact (@every_route_keeps_store_ok Demo.project (Route.delete_post 1) Demo.time_now
           (Demo.request (AuthUser Demo.alice) POST "/posts/1/delete/" []) Demo.db
           Demo_db_store_ok).
Defined.

(** ** Deleting a post *)

Lemma get_object_missing (db : Store) (time_now : Z) (request : HttpRequest.t)
    (post_id : Z) :
  (forall p, In p (posts db) -> Post.pk p <> post_id) ->
  PostDetailView_get_object time_now request post_id db = (inl Http404, db).
Proof.
  intros Hmissing. rewrite get_object_fallback.
  - replace (filter _ _) with (@nil PostRow); [reflexivity|].
    symmetry. apply filter_nil_iff. intros r Hr. apply Z.eqb_neq.
    assert (Hin : In (row_post r)
                    (map row_post (get_filtered_posts db time_now None true false)))
      by now apply in_map.
    apply get_filtered_posts_In in Hin as [Hbase _].
    simpl in Hbase. apply Post_objects_all_In in Hbase. auto.
  - intros p Hin Hpk. now apply Hmissing in Hin.
Qed.

Section DeletePost.
Context `{Project}.

(** X9: a POST of the author to the delete route removes the post and,
    with it, exactly the comments that point to it; the other posts and
    comments, the users and the categories stay.  Afterwards the key
    resolves for nobody: the detail view and a second delete both give
    [Http404]. *)
Theorem delete_post_removes_post_and_its_comments
    (db : Store) (request : HttpRequest.t) (post : Post.t) :
  unique_pks db -> In post (posts db) ->
  user_eq (HttpRequest.user request) (Post.author post) = true ->
  HttpRequest.method request = POST ->
  exists db',
    delete_post request (Post.pk post) db = (inr (redirect blog_index), db')
    /\ (forall p, In p (posts db') <-> In p (posts db) /\ Post.pk p <> Post.pk post)
    /\ (forall c, In c (comments db')
                  <-> In c (comments db) /\ Comment.comment_post c <> Post.pk post)
    /\ users db' = users db
    /\ categories db' = categories db
    /\ (forall time_now viewer,
          PostDetailView_get_object time_now viewer (Post.pk post) db'
          = (inl Http404, db'))
    /\ delete_post request (Post.pk post) db' = (inl Http404, db').
Proof.
  intros Hu Hin Hown Hpost.
  exists (snd (Post_delete post db)).
  assert (Hposts : forall p, In p (posts (snd (Post_delete post db)))
                             <-> In p (posts db) /\ Post.pk p <> Post.pk post).
  { intros p. simpl. rewrite filter_In, negb_true_iff, Z.eqb_neq. tauto. }
  split; [now apply delete_post_author|]. split; [exact Hposts|].
  split; [|split; [reflexivity|split; [reflexivity|split]]].
  - intros c. simpl. rewrite filter_In, negb_true_iff, Z.eqb_neq. tauto.
  - intros time_now viewer. apply get_object_missing.
    intros p Hp. now apply Hposts in Hp.
  - unfold delete_post, login_required. run_view.
    replace (is_authenticated (HttpRequest.user request)) with true
      by (destruct (HttpRequest.user request); [discriminate | reflexivity]).
    rewrite get_object_or_404_missing; [reflexivity|].
    intros p Hp. apply Z.eqb_neq. now apply Hposts in Hp.
Qed.
End DeletePost.

Lemma delete_post_removes_post_and_its_comments_witness :
  exists db',
    @delete_post Demo.project
      (Demo.request (AuthUser Demo.alice) POST "/posts/1/delete/" []) 1 Demo.db
    = (inr (redirect blog_index), db')
    /\ posts db' = [Demo.loose; Demo.secret; Demo.later; Demo.oslo]
    /\ comments db' = [].
Proof.
  destruct (@delete_post_removes_post_and_its_comments Demo.project Demo.db
              (Demo.request (AuthUser Demo.alice) POST "/posts/1/delete/" [])
              Demo.rome Demo_db_unique_pks ltac:(simpl; tauto) eq_refl eq_refl)
    as (db' & E & _).
  exists db'. split; [exact E|].
  vm_compute in E. injection E as <-. split; reflexivity.
Defined.

(** ** Comments: adding, editing, deleting *)

Lemma comments_of_app (db : Store) (seq : Z) (p : Post.t) (c : Comment.t) :
  comments_of (set_comments db (comments db ++ [c]) seq) p
  = comments_of db p ++ (if Comment.comment_post c =? Post.pk p then [c] else []).
Proof.
  unfold comments_of. simpl. now rewrite filter_app.
Qed.

Lemma filter_all {A : Type} (f : A -> bool) (l : list A) :
  (forall r, In r l -> f r = true) -> filter f l = l.
Proof.
  induction l as [|a t IH]; simpl; intros Hall; [reflexivity|].
  rewrite (Hall a (or_introl eq_refl)). f_equal. apply IH. auto.
Qed.

Lemma filter_remove_one {A : Type} (key : A -> Z) (l : list A) (x : A) :
  NoDup (map key l) -> In x l ->
  S (List.length (filter (fun r => negb (key r =? key x)) l)) = List.length l.
Proof.
  induction l as [|a t IH]; simpl; intros Hnd Hin; [contradiction|].
  inversion Hnd as [|k ks Hnotin Hnd']; subst.
  destruct Hin as [->|Hin].
  - rewrite Z.eqb_refl. simpl. f_equal. rewrite filter_all; [reflexivity|].
    intros r Hr. apply negb_true_iff, Z.eqb_neq. intros E.
    apply Hnotin. rewrite <- E. now apply in_map.
  - destruct (key a =? key x) eqn:E.
    + exfalso. apply Z.eqb_eq in E. apply Hnotin. rewrite E. now apply in_map.
    + simpl. f_equal. now apply IH.
Qed.

Lemma filter_swap {A : Type} (f g : A -> bool) (l : list A) :
  filter f (filter g l) = filter g (filter f l).
Proof.
  induction l as [|a t IH]; simpl; [reflexivity|].
  destruct (f a) eqn:Ef, (g a) eqn:Eg; simpl; rewrite ?Ef, ?Eg, IH; reflexivity.
Qed.

Section CommentFacts.
Context `{Project}.

(** X10: a valid comment submitted by a logged-in user on an existing
    post is stored as a new row: it gets the next key of the sequence, the
    cleaned text, that post, the requester as author and the clock as
    creation time.  Nothing else changes, the requester is redirected to
    the post, and the post's comment count grows by one while the count of
    every other post stays. *)
Theorem add_comment_appends_comment
    (db : Store) (time_now : Z) (request : HttpRequest.t) (u : User.t)
    (post : Post.t) (d : QueryDict) (text : string) :
  unique_pks db ->
  HttpRequest.user request = AuthUser u ->
  In post (posts db) ->
  HttpRequest.POST request = d -> d <> [] ->
  CommentForm_full_clean d = ([], mkCommentData (Some text)) ->
  exists row db',
    add_comment time_now request (Post.pk post) db
    = (inr (redirect (blog_post_detail (Post.pk post))), db')
    /\ row = Comment.mk (comment_seq db) text (Post.pk post) (User.pk u)
               is_published_default time_now
    /\ comments db' = comments db ++ [row]
    /\ posts db' = posts db
    /\ users db' = users db
    /\ comment_count (annotate db' post)
       = Some (S (List.length (comments_of db post)))
    /\ (forall q, Post.pk q <> Post.pk post ->
          comment_count (annotate db' q) = comment_count (annotate db q)).
Proof.
  intros Hu Huser Hin Hdata Hd Hclean.
  eexists. eexists. split; [|split; [reflexivity|]].
  - unfold add_comment, login_required. run_view.
    rewrite Huser. change (is_authenticated (AuthUser u)) with true. cbv beta iota.
    rewrite (get_post_by_pk db post Hu Hin).
    rewrite POST_or_None_some by (rewrite Hdata; exact Hd).
    rewrite Hdata. unfold CommentForm. rewrite Hclean. simpl. reflexivity.
  - simpl. split; [reflexivity|]. split; [reflexivity|]. split; [reflexivity|].
    split.
    + rewrite Count_left_join, comments_of_app. simpl. rewrite Z.eqb_refl.
      rewrite length_app. simpl. f_equal. lia.
    + intros q Hq. rewrite !Count_left_join, comments_of_app. simpl.
      destruct (Post.pk post =? Post.pk q) eqn:E.
      * apply Z.eqb_eq in E. congruence.
      * now rewrite app_nil_r.
Qed.

(** X11: a POST of the comment's author whose path holds the literal
    [/delete_comment/] removes that comment and nothing else, whatever data
    is submitted; the post then has one comment less.  A second such
    request finds no comment and gives [Http404]. *)
Theorem delete_comment_removes_one_comment
    (db : Store) (request : HttpRequest.t) (post : Post.t) (comment : Comment.t) :
  unique_pks db ->
  In post (posts db) -> In comment (comments db) ->
  Comment.comment_post comment = Post.pk post ->
  user_eq (HttpRequest.user request) (Comment.author comment) = true ->
  contains "/delete_comment/" (HttpRequest.path request) = true ->
  HttpRequest.method request = POST ->
  exists db',
    edit_comment request (Post.pk post) (Comment.pk comment) db
    = (inr (redirect (blog_post_detail (Post.pk post))), db')
    /\ (forall c, In c (comments db')
                  <-> In c (comments db) /\ Comment.pk c <> Comment.pk comment)
    /\ posts db' = posts db
    /\ S (List.length (comments_of db' post)) = List.length (comments_of db post)
    /\ edit_comment request (Post.pk post) (Comment.pk comment) db' = (inl Http404, db').
Proof.
  intros Hu Hp Hc Hlink Hown Hpath Hpost.
  exists (snd (Comment_delete comment db)).
  assert (Hcomments : forall c, In c (comments (snd (Comment_delete comment db)))
                                <-> In c (comments db)
                                    /\ Comment.pk c <> Comment.pk comment).
  { intros c. simpl. rewrite filter_In, negb_true_iff, Z.eqb_neq. tauto. }
  split; [|split; [exact Hcomments|split; [reflexivity|split]]].
  - unfold edit_comment. run_view.
    rewrite (get_post_by_pk db post Hu Hp), <- Hlink.
    rewrite (get_comment_of_post db comment Hu Hc), Hown. simpl.
    rewrite Hpath, Hpost. reflexivity.
  - unfold comments_of. simpl. rewrite filter_swap.
    apply (filter_remove_one Comment.pk).
    + apply NoDup_map_filter. apply Hu.
    + apply filter_In. split; [assumption|]. now apply Z.eqb_eq.
  - unfold edit_comment. run_view.
    change (posts (snd (Comment_delete comment db))) with (posts db).
    rewrite (get_post_by_pk db post Hu Hp).
    rewrite get_object_or_404_missing; [reflexivity|].
    intros c Hc'. apply Hcomments in Hc' as [_ Hne].
    apply andb_false_iff. left. now apply Z.eqb_neq.
Qed.

(** X12: a valid edit by the comment's author on a path without the
    literal [/delete_comment/] replaces the text of that comment and
    nothing else: the row keeps its key, post, author, publication flag
    and creation time, the other comments stay as they are, no row is added
    or removed, and looking the comment up again returns the new text. *)
Theorem edit_comment_changes_text_only
    (db : Store) (request : HttpRequest.t) (post : Post.t) (comment : Comment.t)
    (d : QueryDict) (text : string) :
  unique_pks db ->
  In post (posts db) -> In comment (comments db) ->
  Comment.comment_post comment = Post.pk post ->
  user_eq (HttpRequest.user request) (Comment.author comment) = true ->
  contains "/delete_comment/" (HttpRequest.path request) = false ->
  HttpRequest.POST request = d -> d <> [] ->
  CommentForm_full_clean d = ([], mkCommentData (Some text)) ->
  exists edited db',
    edit_comment request (Post.pk post) (Comment.pk comment) db
    = (inr (redirect (blog_post_detail (Post.pk post))), db')
    /\ edited = Comment.mk (Comment.pk comment) text (Comment.comment_post comment)
                  (Comment.author comment) (Comment.is_published comment)
                  (Comment.created_at comment)
    /\ In edited (comments db')
    /\ (forall c, In c (comments db) -> Comment.pk c <> Comment.pk comment ->
                  In c (comments db'))
    /\ map Comment.pk (comments db') = map Comment.pk (comments db)
    /\ posts db' = posts db
    /\ get_object_or_404
         (filter (fun c => (Comment.pk c =? Comment.pk comment)
                           && (Comment.comment_post c =? Post.pk post))
                 (comments db')) = inr edited.
Proof.
  intros Hu Hp Hc Hlink Hown Hpath Hdata Hd Hclean.
  set (edited := Comment.mk (Comment.pk comment) text (Comment.comment_post comment)
                   (Comment.author comment) (Comment.is_published comment)
                   (Comment.created_at comment)).
  exists edited, (snd (Comment_save edited db)).
  assert (Hpks : map Comment.pk (comments (snd (Comment_save edited db)))
                 = map Comment.pk (comments db))
    by apply (map_pk_replace Comment.pk).
  assert (Hedited : In edited (comments (snd (Comment_save edited db)))).
  { simpl. apply in_map_iff. exists comment. split; [|assumption].
    simpl. now rewrite Z.eqb_refl. }
  split; [|split; [reflexivity|split; [exact Hedited|split; [|split; [exact Hpks|split]]]]].
  - unfold edit_comment. run_view.
    rewrite (get_post_by_pk db post Hu Hp), <- Hlink.
    rewrite (get_comment_of_post db comment Hu Hc), Hown. simpl.
    rewrite Hpath, POST_or_None_some by (rewrite Hdata; exact Hd).
    rewrite Hdata. unfold CommentForm. rewrite Hclean. simpl. reflexivity.
  - intros c Hin Hne. simpl. apply in_map_iff. exists c. split; [|assumption].
    simpl. destruct (Comment.pk c =? Comment.pk comment) eqn:E; [|reflexivity].
    apply Z.eqb_eq in E. contradiction.
  - reflexivity.
  - rewrite (filter_unique Comment.pk _ _ edited); [reflexivity | | exact Hedited | |].
    + rewrite Hpks. apply Hu.
    + simpl. now rewrite Z.eqb_refl, Hlink, Z.eqb_refl.
    + intros y _ Hy. apply andb_true_iff in Hy as [Hy _]. now apply Z.eqb_eq in Hy.
Qed.

(** X13: a comment is only reachable under its own post.  When the
    comment named in the URL belongs to another post, the handler gives
    [Http404] and writes nothing, for every requester (the comment's
    author included), method and path. *)
Theorem comment_under_other_post_is_not_found
    (db : Store) (request : HttpRequest.t) (post : Post.t) (comment : Comment.t) :
  unique_pks db ->
  In post (posts db) -> In comment (comments db) ->
  Comment.comment_post comment <> Post.pk post ->
  edit_comment request (Post.pk post) (Comment.pk comment) db = (inl Http404, db).
Proof.
  intros Hu Hp Hc Hne. unfold edit_comment. run_view.
  rewrite (get_post_by_pk db post Hu Hp).
  rewrite get_object_or_404_missing; [reflexivity|].
  intros c Hin. apply andb_false_iff.
  destruct (Comment.pk c =? Comment.pk comment) eqn:E; [right | now left].
  apply Z.eqb_eq in E. apply Z.eqb_neq.
  destruct Hu as (_ & _ & _ & Hnd).
  assert (c = comment); [|congruence].
  clear - Hnd Hin Hc E. induction (comments db) as [|a t IH]; [contradiction|].
  simpl in Hnd. inversion Hnd as [|k ks Hnotin Hnd']; subst.
  destruct Hin as [->|Hin], Hc as [->|Hc]; auto.
  - exfalso. apply Hnotin. rewrite E. now apply in_map.
  - exfalso. apply Hnotin. rewrite <- E. now apply in_map.
Qed.
End CommentFacts.

Lemma add_comment_appends_comment_witness :
  exists db',
    @add_comment Demo.project Demo.time_now
      (Demo.request (AuthUser Demo.carol) POST "/posts/5/comment/" [("text", "Hi")])
      5 Demo.db
    = (inr (redirect (blog_post_detail 5)), db')
    /\ comments db' = [Demo.praise; Demo.rant; Comment.mk 3 "Hi" 5 3 true 100]
    /\ comment_count (annotate db' Demo.oslo) = Some 1%nat.
Proof.
  destruct (@add_comment_appends_comment Demo.project Demo.db Demo.time_now
              (Demo.request (AuthUser Demo.carol) POST "/posts/5/comment/" [("text", "Hi")])
              Demo.carol Demo.oslo [("text", "Hi")] "Hi"
              Demo_db_unique_pks eq_refl ltac:(simpl; tauto) eq_refl
              ltac:(discriminate) eq_refl)
    as (row & db' & E & -> & Hc & _ & _ & Hcount & _).
  exists db'. split; [exact E|]. split; [exact Hc | exact Hcount].
Defined.

Lemma delete_comment_removes_one_comment_witness :
  exists db',
    @edit_comment Demo.project
      (Demo.request (AuthUser Demo.bob) POST "/posts/1/comment/1/delete_comment/"
         [("text", "A new text")]) 1 1 Demo.db
    = (inr (redirect (blog_post_detail 1)), db')
    /\ comments db' = [Demo.rant].
Proof.
  destruct (@delete_comment_removes_one_comment Demo.project Demo.db
              (Demo.request (AuthUser Demo.bob) POST "/posts/1/comment/1/delete_comment/"
                 [("text", "A new text")])
              Demo.rome Demo.praise Demo_db_unique_pks ltac:(simpl; tauto)
              ltac:(simpl; tauto) eq_refl eq_refl eq_refl eq_refl)
    as (db' & E & _).
  exists db'. split; [exact E|].
  vm_compute in E. injection E as <-. reflexivity.
Defined.

Lemma edit_comment_changes_text_only_witness :
  exists db',
    @edit_comment Demo.project
      (Demo.request (AuthUser Demo.bob) POST "/posts/1/comment/1/edit_comment/"
         [("text", "Very nice")]) 1 1 Demo.db
    = (inr (redirect (blog_post_detail 1)), db')
    /\ comments db' = [Comment.mk 1 "Very nice" 1 2 true 50; Demo.rant].
Proof.
  destruct (@edit_comment_changes_text_only Demo.project Demo.db
              (Demo.request (AuthUser Demo.bob) POST "/posts/1/comment/1/edit_comment/"
                 [("text", "Very nice")])
              Demo.rome Demo.praise [("text", "Very nice")] "Very nice"
              Demo_db_unique_pks ltac:(simpl; tauto) ltac:(simpl; tauto)
              eq_refl eq_refl eq_refl eq_refl ltac:(discriminate) eq_refl)
    as (edited & db' & E & _).
  exists db'. split; [exact E|].
  vm_compute in E. injection E as <-. reflexivity.
Defined.

Lemma comment_under_other_post_is_not_found_witness :
  @edit_comment Demo.project
    (Demo.request (AuthUser Demo.bob) POST "/posts/5/comment/1/delete_comment/" [])
    5 1 Demo.db
  = (inl Http404, Demo.db).
Proof.
  exact (@comment_under_other_post_is_not_found Demo.project Demo.db
           (Demo.request (AuthUser Demo.bob) POST "/posts/5/comment/1/delete_comment/" [])
           Demo.oslo Demo.praise Demo_db_unique_pks ltac:(simpl; tauto)
           ltac:(simpl; tauto) ltac:(discriminate)).
Defined.

(** ** Profile and post forms *)

Lemma get_object_owner (db : Store) (time_now : Z) (request : HttpRequest.t)
    (p : Post.t) :
  unique_pks db -> In p (posts db) ->
  user_eq (HttpRequest.user request) (Post.author p) = true ->
  PostDetailView_get_object time_now request (Post.pk p) db = (inr p, db).
Proof.
  intros Hu Hin Hown.
  unfold PostDetailView_get_object. run_view.
  destruct (HttpRequest.user request) as [|u] eqn:Euser; [discriminate|].
  change (is_authenticated (AuthUser u)) with true. cbv iota.
  rewrite (filter_unique Post.pk _ _ p (Post_objects_all_NoDup db Hu)).
  - reflexivity.
  - now apply Post_objects_all_In.
  - now rewrite Z.eqb_refl, Hown.
  - intros y _ Hy. apply andb_true_iff in Hy as [Hy _]. now apply Z.eqb_eq in Hy.
Qed.

Section FormSaves.
Context `{Project}.

(** X14: a valid profile form changes the requester's own row and no
    other: the row keeps its key and its staff flag (the form has only the
    name and e-mail fields), every other user row, and every post, comment
    and category, stays as it was, and the redirect goes to the profile
    under the new user name. *)
Theorem edit_profile_updates_own_row
    (db : Store) (request : HttpRequest.t) (u : User.t) (d : QueryDict)
    (cd : ProfileFormData) :
  HttpRequest.user request = AuthUser u ->
  HttpRequest.POST request = d -> d <> [] ->
  ProfileEditForm_full_clean db u d = ([], cd) ->
  exists u' db',
    edit_profile request db = (inr (redirect (blog_profile (User.username u'))), db')
    /\ User.username u' = assign (cd_username cd) (User.username u)
    /\ User.pk u' = User.pk u
    /\ User.is_staff u' = User.is_staff u
    /\ (forall v, In v (users db') ->
          v = u' \/ (In v (users db) /\ User.pk v <> User.pk u))
    /\ (forall v, In v (users db) -> User.pk v <> User.pk u -> In v (users db'))
    /\ map User.pk (users db') = map User.pk (users db)
    /\ posts db' = posts db
    /\ comments db' = comments db
    /\ categories db' = categories db.
Proof.
  intros Huser Hdata Hd Hclean.
  exists (construct_user cd u), (snd (User_save (construct_user cd u) db)).
  split; [|repeat split].
  - unfold edit_profile, login_required. run_view.
    rewrite Huser. change (is_authenticated (AuthUser u)) with true. cbv beta iota.
    rewrite POST_or_None_some by (rewrite Hdata; exact Hd).
    rewrite Hdata. unfold ProfileEditForm. rewrite Hclean. simpl. reflexivity.
  - intros v Hv. simpl in Hv. apply in_map_iff in Hv as (r & Hr & Hin).
    simpl in Hr. destruct (User.pk r =? User.pk u) eqn:E.
    + now left.
    + right. subst v. split; [assumption | now apply Z.eqb_neq].
  - intros v Hin Hne. simpl. apply in_map_iff. exists v. split; [|assumption].
    simpl. apply Z.eqb_neq in Hne. now rewrite Hne.
  - apply (map_pk_replace User.pk).
Qed.

(** X15: a valid post form submitted to the create route stores a new
    post whose author is the requester, whatever was submitted (the form
    has no author field); it gets the next key of the sequence and the
    clock as creation time.  No existing post or comment changes, the
    requester is redirected to their profile, and the detail view gives
    the new post back to its author at once, published or not. *)
Theorem create_post_sets_author
    (db : Store) (time_now : Z) (request : HttpRequest.t) (u : User.t)
    (d : QueryDict) (cd : PostFormData) :
  store_ok db ->
  HttpRequest.user request = AuthUser u ->
  HttpRequest.method request = POST ->
  HttpRequest.POST request = d ->
  PostCreateForm_full_clean db d = ([], cd) ->
  exists row db',
    PostCreateView time_now request db
    = (inr (redirect (blog_profile (User.username u))), db')
    /\ posts db' = posts db ++ [row]
    /\ post_seq db' = post_seq db + 1
    /\ Post.pk row = post_seq db
    /\ Post.author row = User.pk u
    /\ Post.created_at row = time_now
    /\ (forall p, In p (posts db) -> Post.pk p <> Post.pk row)
    /\ comments db' = comments db
    /\ PostDetailView_get_object time_now request (Post.pk row) db' = (inr row, db').
Proof.
  intros Hok Huser Hmethod Hdata Hclean.
  set (p := construct_post cd Post_new).
  set (row := Post.mk (post_seq db) (Post.title p) (Post.image p) (Post.text p)
                (Post.pub_date p) (User.pk u) (Post.location p) (Post.category p)
                (Post.likes p) (Post.is_published p) time_now).
  exists row, (snd (Post_insert time_now row db)).
  split; [|repeat split].
  - unfold PostCreateView, LoginRequiredMixin_dispatch, CreateView_dispatch. run_view.
    rewrite Huser. change (is_authenticated (AuthUser u)) with true.
    change (negb true) with false. cbv beta iota.
    rewrite Hmethod, Hdata. unfold PostCreateForm. rewrite Hclean. simpl. reflexivity.
  - intros q Hq. simpl. destruct Hok as (_ & Hfresh & _).
    specialize (Hfresh q Hq). lia.
  - apply get_object_owner.
    + apply store_ok_Post_insert. exact Hok.
    + simpl. apply in_or_app. right. now left.
    + rewrite Huser. simpl. apply Z.eqb_refl.
Qed.

(** X16: a valid post form submitted by the author to the edit route
    replaces the fields of that post and nothing else: the post keeps its
    key, its author and its creation time (the form excludes them), the
    other posts and all comments stay as they were, and the redirect goes
    to the post. *)
Theorem update_post_keeps_key_author_created_at
    (db : Store) (request : HttpRequest.t) (u : User.t) (post : Post.t)
    (d : QueryDict) (cd : PostFormData) :
  unique_pks db ->
  HttpRequest.user request = AuthUser u ->
  In post (posts db) -> Post.author post = User.pk u ->
  HttpRequest.method request = POST ->
  HttpRequest.POST request = d ->
  PostCreateForm_full_clean db d = ([], cd) ->
  exists post' db',
    PostUpdateView request (Post.pk post) db
    = (inr (redirect (blog_post_detail (Post.pk post))), db')
    /\ post' = construct_post cd post
    /\ Post.pk post' = Post.pk post
    /\ Post.author post' = Post.author post
    /\ Post.created_at post' = Post.created_at post
    /\ In post' (posts db')
    /\ (forall p, In p (posts db) -> Post.pk p <> Post.pk post -> In p (posts db'))
    /\ map Post.pk (posts db') = map Post.pk (posts db)
    /\ comments db' = comments db.
Proof.
  intros Hu Huser Hin Hown Hmethod Hdata Hclean.
  exists (construct_post cd post), (snd (Post_save (construct_post cd post) db)).
  split; [|repeat split].
  - unfold PostUpdateView, LoginRequiredMixin_dispatch, AuthorRequiredMixin_dispatch,
      UpdateView_dispatch, SingleObjectMixin_get_object. run_view.
    rewrite Huser. change (is_authenticated (AuthUser u)) with true.
    change (negb true) with false. cbv beta iota.
    rewrite (get_post_by_pk_ordered db post Hu Hin).
    replace (user_eq (AuthUser u) (Post.author post)) with true
      by (simpl; symmetry; apply Z.eqb_eq; congruence).
    change (negb true) with false. cbv beta iota.
    rewrite (get_post_by_pk_ordered db post Hu Hin).
    rewrite Hmethod, Hdata. unfold PostCreateForm. rewrite Hclean. simpl. reflexivity.
  - simpl. apply in_map_iff. exists post. split; [|assumption].
    simpl. now rewrite Z.eqb_refl.
  - intros p Hp Hne. simpl. apply in_map_iff. exists p. split; [|assumption].
    simpl. apply Z.eqb_neq in Hne. now rewrite Hne.
  - apply (map_pk_replace Post.pk).
Qed.
End FormSaves.

(** Bob sends a new user name and first name and leaves the other two
    fields out: they are cleaned to the empty string and stored. *)
Lemma edit_profile_updates_own_row_witness :
  exists db',
    @edit_profile Demo.project
      (Demo.request (AuthUser Demo.bob) POST "/profile/edit_profile/"
         [("username", "robert"); ("first_name", "Rob")]) Demo.db
    = (inr (redirect (blog_profile "robert")), db')
    /\ users db' = [Demo.alice; User.mk 2 "robert" "Rob" "" "" true; Demo.carol].
Proof.
  destruct (@edit_profile_updates_own_row Demo.project Demo.db
              (Demo.request (AuthUser Demo.bob) POST "/profile/edit_profile/"
                 [("username", "robert"); ("first_name", "Rob")])
              Demo.bob [("username", "robert"); ("first_name", "Rob")]
              (mkProfileData (Some "robert") (Some "Rob") (Some "") (Some ""))
              eq_refl eq_refl ltac:(discriminate) ltac:(vm_compute; reflexivity))
    as (u' & db' & E & Hname & _).
  rewrite Hname in E. exists db'. split; [exact E|].
  vm_compute in E. injection E as <-. reflexivity.
Defined.

(** Carol fills in the whole form and adds an [author] the form does not
    have. *)
Lemma create_post_sets_author_witness :
  exists db',
    @PostCreateView Demo.project Demo.time_now
      (Demo.request (AuthUser Demo.carol) POST "/posts/create/"
         [("title", "Bergen"); ("text", "Rain"); ("pub_date", "50"); ("category", "1");
          ("is_published", "on"); ("author", "1")]) Demo.db
    = (inr (redirect (blog_profile "carol")), db')
    /\ posts db'
       = posts Demo.db ++ [Post.mk 6 "Bergen" None "Rain" 50 3 None (Some 1) [] true 100].
Proof.
  destruct (@create_post_sets_author Demo.project Demo.db Demo.time_now
              (Demo.request (AuthUser Demo.carol) POST "/posts/create/"
                 [("title", "Bergen"); ("text", "Rain"); ("pub_date", "50");
                  ("category", "1"); ("is_published", "on"); ("author", "1")])
              Demo.carol
              [("title", "Bergen"); ("text", "Rain"); ("pub_date", "50");
               ("category", "1"); ("is_published", "on"); ("author", "1")]
              (mkPostData (Some "Bergen") None (Some "Rain") (Some 50) (Some None)
                 (Some (Some 1)) (Some []) (Some true))
              Demo_db_store_ok eq_refl eq_refl eq_refl ltac:(vm_compute; reflexivity))
    as (row & db' & E & Hposts & _).
  exists db'. split; [exact E|].
  vm_compute in E. injection E as <-. reflexivity.
Defined.

(** Bob moves his scheduled post 4 to an earlier date. *)
Lemma update_post_keeps_key_author_created_at_witness :
  exists db',
    @PostUpdateView Demo.project
      (Demo.request (AuthUser Demo.bob) POST "/posts/4/edit/"
         [("title", "Sooner"); ("text", "Now"); ("pub_date", "90"); ("category", "1");
          ("is_published", "on")]) 4 Demo.db
    = (inr (redirect (blog_post_detail 4)), db')
    /\ In (Post.mk 4 "Sooner" None "Now" 90 2 None (Some 1) [] true 8) (posts db').
Proof.
  destruct (@update_post_keeps_key_author_created_at Demo.project Demo.db
              (Demo.request (AuthUser Demo.bob) POST "/posts/4/edit/"
                 [("title", "Sooner"); ("text", "Now"); ("pub_date", "90");
                  ("category", "1"); ("is_published", "on")])
              Demo.bob Demo.later
              [("title", "Sooner"); ("text", "Now"); ("pub_date", "90");
               ("category", "1"); ("is_published", "on")]
              (mkPostData (Some "Sooner") None (Some "Now") (Some 90) (Some None)
                 (Some (Some 1)) (Some []) (Some true))
              Demo_db_unique_pks eq_refl ltac:(simpl; tauto) eq_refl eq_refl eq_refl
              ltac:(vm_compute; reflexivity))
    as (post' & db' & E & -> & _ & _ & _ & Hin & _).
  exists db'. split; [exact E | exact Hin].
Defined.

(** ** The detail page and the clock *)

Lemma StronglySorted_impl {A : Type} (R R' : A -> A -> Prop) (l : list A) :
  (forall a b, R a b -> R' a b) -> StronglySorted R l -> StronglySorted R' l.
Proof.
  intros Himpl. induction 1 as [|x t Hs IH Hx]; constructor; [assumption|].
  eapply Forall_impl; [|exact Hx]. auto.
Qed.

Section DetailPage.
Context `{Project}.

(** X17: the detail page answers a POST with 405 and writes nothing.  For
    a GET of a post the viewer may see, it renders the post with an empty
    comment form and with all comments of the post, published or not,
    oldest first. *)
Theorem detail_page_lists_all_comments
    (db : Store) (time_now : Z) (request : HttpRequest.t) (post_id : Z) :
  (HttpRequest.method request = POST ->
   PostDetailView time_now request post_id db = (inr HttpResponseNotAllowed, db))
  /\ (forall post,
        HttpRequest.method request = GET ->
        PostDetailView_get_object time_now request post_id db = (inr post, db) ->
        exists cs,
          PostDetailView time_now request post_id db
          = (inr (render "blog/detail.html"
                    [("object", VPost post); ("post", VPost post);
                     ("form", VCommentForm (mkForm None Comment_new []));
                     ("comments", VComments cs)]), db)
          /\ StronglySorted
               (fun a b => Comment.created_at a <= Comment.created_at b) cs
          /\ (forall c, In c cs
                        <-> In c (comments db)
                            /\ Comment.comment_post c = Post.pk post)).
Proof.
  split.
  - intros Hpost. unfold PostDetailView. now rewrite Hpost.
  - intros post Hget Hobj. exists (post_comments db post). split; [|split].
    + unfold PostDetailView. rewrite Hget. run_view. now rewrite Hobj.
    + unfold post_comments.
      eapply StronglySorted_impl;
        [|apply (order_by_desc_sorted (fun c => - Comment.created_at c))].
      simpl. intros a b Hab. lia.
    + intros c. unfold post_comments, comments_of.
      now rewrite order_by_desc_In, filter_In, Z.eqb_eq.
Qed.
End DetailPage.

Lemma detail_page_lists_all_comments_witness :
  exists cs,
    @PostDetailView Demo.project Demo.time_now
      (Demo.request AnonymousUser GET "/posts/1/" []) 1 Demo.db
    = (inr (render "blog/detail.html"
              [("object", VPost Demo.rome); ("post", VPost Demo.rome);
               ("form", VCommentForm (mkForm None (@Comment_new Demo.project) []));
               ("comments", VComments cs)]), Demo.db)
    /\ cs = [Demo.praise; Demo.rant].
Proof.
  destruct (proj2 (@detail_page_lists_all_comments Demo.project Demo.db Demo.time_now
                     (Demo.request AnonymousUser GET "/posts/1/" []) 1)
              Demo.rome eq_refl eq_refl) as (cs & E & _).
  exists cs. split; [exact E|].
  vm_compute in E. injection E as <-. reflexivity.
Defined.

(** X18: the visibility filter is monotone in the clock.  A post that the
    filter keeps at one time is kept at every later time: scheduled posts
    appear when their date comes, and no post disappears as time passes. *)
Theorem filtered_posts_grow_with_time
    (db : Store) (posts : option (list Post.t)) (apply_annotation : bool)
    (earlier later : Z) (p : Post.t) :
  earlier <= later ->
  In p (map row_post (get_filtered_posts db earlier posts true apply_annotation)) ->
  In p (map row_post (get_filtered_posts db later posts true apply_annotation)).
Proof.
  intros Hle. rewrite !get_filtered_posts_In.
  intros [Hin Hvis]. split; [assumption|]. intros _. specialize (Hvis eq_refl).
  unfold visible in *. apply andb_true_iff in Hvis as [Hvis Hcat].
  apply andb_true_iff in Hvis as [Hdate Hpub].
  rewrite Hcat, Hpub. apply Z.leb_le in Hdate.
  replace (Post.pub_date p <=? later) with true; [reflexivity|].
  symmetry. apply Z.leb_le. lia.
Qed.

Lemma filtered_posts_grow_with_time_witness :
  In Demo.rome (map row_post (get_filtered_posts Demo.db 300 None true true))
  /\ In Demo.later (map row_post (get_filtered_posts Demo.db 300 None true true))
  /\ ~ In Demo.later (map row_post (get_filtered_posts Demo.db 100 None true true)).
Proof.
  split; [|split].
  - apply (filtered_posts_grow_with_time Demo.db None true 100 300 Demo.rome);
      [lia|]. vm_compute. auto.
  - vm_compute. auto.
  - vm_compute. intros [E|[E|[]]]; discriminate.
Defined.

(** ** Routes and paths *)

Lemma split_path_cons (s : string) : exists seg segs, split_path s = seg :: segs.
Proof.
  induction s as [|c rest (seg & segs & IH)]; simpl; [eauto|].
  rewrite IH. destruct (Ascii.eqb c "/"); eauto.
Qed.

Lemma split_path_segment (a rest : string) :
  ~ In "/"%char (list_ascii_of_string a) ->
  split_path (a ++ String "/" rest) = a :: split_path rest.
Proof.
  induction a as [|c a' IH]; simpl; intros Hno.
  - destruct (split_path_cons rest) as (seg & segs & ->). reflexivity.
  - rewrite IH by tauto.
    destruct (Ascii.eqb c "/") eqn:E; [|reflexivity].
    apply Ascii.eqb_eq in E. exfalso. apply Hno. now left.
Qed.

Lemma int_to_url_digits (n : nat) (c : Ascii.ascii) :
  In c (list_ascii_of_string (int_to_url n)) -> is_digit c.
Proof.
  unfold int_to_url, is_digit. generalize (Nat.to_uint n). intros d.
  induction d; simpl; intros Hin; try contradiction;
    destruct Hin as [<-|Hin]; simpl; tauto.
Qed.

Lemma int_to_url_no_slash (n : nat) :
  ~ In "/"%char (list_ascii_of_string (int_to_url n)).
Proof.
  intros Hin. apply int_to_url_digits in Hin. unfold is_digit in Hin. simpl in Hin.
  repeat (destruct Hin as [Hin|Hin]; [discriminate|]). contradiction.
Qed.

Lemma to_uint_not_nil (n : nat) : Nat.to_uint n <> Decimal.Nil.
Proof.
  intros E.
  pose proof (DecimalNat.Unsigned.to_of (Nat.to_uint n)) as Hto.
  rewrite DecimalNat.Unsigned.of_to, E in Hto. discriminate.
Qed.

Lemma int_converter_int_to_url (n : nat) : int_converter (int_to_url n) = Some n.
Proof.
  unfold int_converter, int_to_url.
  pose proof (to_uint_not_nil n) as Hnn.
  replace (NilZero.uint_of_string (NilEmpty.string_of_uint (Nat.to_uint n)))
    with (Some (Nat.to_uint n)).
  - simpl. now rewrite DecimalNat.Unsigned.of_to.
  - symmetry. unfold NilZero.uint_of_string.
    destruct (NilEmpty.string_of_uint (Nat.to_uint n)) eqn:E.
    + destruct (Nat.to_uint n); try discriminate. contradiction.
    + rewrite <- E. apply NilEmpty.usu.
Qed.

Lemma int_to_url_not_word (n : nat) (c : Ascii.ascii) (w : string) :
  ~ is_digit c -> String.eqb (int_to_url n) (String c w) = false.
Proof.
  intros Hc. apply String.eqb_neq. intros E. apply Hc.
  apply (int_to_url_digits n). rewrite E. now left.
Qed.

Lemma not_digit_letter (c : Ascii.ascii) :
  (97 <= Ascii.nat_of_ascii c)%nat -> ~ is_digit c.
Proof.
  unfold is_digit. intros Hc Hin. simpl in Hin.
  repeat (destruct Hin as [Hin|Hin]; [subst c; vm_compute in Hc; lia|]).
  contradiction.
Qed.

Lemma no_slash_literal (w : string) :
  forallb (fun c => negb (Ascii.eqb c "/")) (list_ascii_of_string w) = true ->
  ~ In "/"%char (list_ascii_of_string w).
Proof.
  intros Hall Hin. rewrite forallb_forall in Hall.
  specialize (Hall _ Hin). discriminate.
Qed.

Lemma split_two (a b : string) :
  ~ In "/"%char (list_ascii_of_string a) -> ~ In "/"%char (list_ascii_of_string b) ->
  split_path (a ++ String "/" (b ++ String "/" "")) = [a; b; ""].
Proof. intros Ha Hb. now rewrite !split_path_segment. Qed.

Lemma split_three (a b c : string) :
  ~ In "/"%char (list_ascii_of_string a) -> ~ In "/"%char (list_ascii_of_string b) ->
  ~ In "/"%char (list_ascii_of_string c) ->
  split_path (a ++ String "/" (b ++ String "/" (c ++ String "/" ""))) = [a; b; c; ""].
Proof. intros Ha Hb Hc. now rewrite !split_path_segment. Qed.

Lemma split_five (a b c d e : string) :
  ~ In "/"%char (list_ascii_of_string a) -> ~ In "/"%char (list_ascii_of_string b) ->
  ~ In "/"%char (list_ascii_of_string c) -> ~ In "/"%char (list_ascii_of_string d) ->
  ~ In "/"%char (list_ascii_of_string e) ->
  split_path (a ++ String "/" (b ++ String "/" (c ++ String "/"
                (d ++ String "/" (e ++ String "/" "")))))
  = [a; b; c; d; e; ""].
Proof. intros Ha Hb Hc Hd He. now rewrite !split_path_segment. Qed.

Ltac literal_no_slash := apply no_slash_literal; reflexivity.

Lemma split_route_path (r : Route.t) :
  match r with
  | Route.profile username => ~ In "/"%char (list_ascii_of_string username)
  | Route.category_posts category_slug =>
      ~ In "/"%char (list_ascii_of_string category_slug)
  | _ => True
  end ->
  split_path (route_path r)
  = match r with
    | Route.create_post => ["posts"; "create"; ""]
    | Route.post_detail n => ["posts"; int_to_url n; ""]
    | Route.edit_post n => ["posts"; int_to_url n; "edit"; ""]
    | Route.delete_post n => ["posts"; int_to_url n; "delete"; ""]
    | Route.add_comment n => ["posts"; int_to_url n; "comment"; ""]
    | Route.edit_comment n m =>
        ["posts"; int_to_url n; "comment"; int_to_url m; "edit_comment"; ""]
    | Route.delete_comment n m =>
        ["posts"; int_to_url n; "comment"; int_to_url m; "delete_comment"; ""]
    | Route.edit_profile => ["profile"; "edit_profile"; ""]
    | Route.profile username => ["profile"; username; ""]
    | Route.category_posts category_slug => ["category"; category_slug; ""]
    | Route.index => [""]
    end%string.
Proof.
  destruct r; intros Hr; try reflexivity.
  - apply (split_two "posts" (int_to_url post_id));
      [literal_no_slash | apply int_to_url_no_slash].
  - apply (split_three "posts" (int_to_url pk) "edit");
      [literal_no_slash | apply int_to_url_no_slash | literal_no_slash].
  - apply (split_three "posts" (int_to_url post_id) "delete");
      [literal_no_slash | apply int_to_url_no_slash | literal_no_slash].
  - apply (split_three "posts" (int_to_url post_id) "comment");
      [literal_no_slash | apply int_to_url_no_slash | literal_no_slash].
  - apply (split_five "posts" (int_to_url post_id) "comment" (int_to_url comment_id)
             "edit_comment");
      [literal_no_slash | apply int_to_url_no_slash | literal_no_slash
      | apply int_to_url_no_slash | literal_no_slash].
  - apply (split_five "posts" (int_to_url post_id) "comment" (int_to_url comment_id)
             "delete_comment");
      [literal_no_slash | apply int_to_url_no_slash | literal_no_slash
      | apply int_to_url_no_slash | literal_no_slash].
  - apply (split_two "profile" username); [literal_no_slash | exact Hr].
  - apply (split_two "category" category_slug); [literal_no_slash | exact Hr].
Qed.

Lemma slug_no_slash (s : string) :
  forallb is_slug_char (list_ascii_of_string s) = true ->
  ~ In "/"%char (list_ascii_of_string s).
Proof.
  intros Hall Hin. rewrite forallb_forall in Hall.
  specialize (Hall _ Hin). discriminate.
Qed.

Lemma resolve_route_path (r : Route.t) :
  well_formed_route r -> resolve (route_path r) = Some r.
Proof.
  intros Hwf. unfold resolve. rewrite split_route_path.
  - destruct r; try reflexivity.
    + cbn [String.eqb Ascii.eqb Bool.eqb andb].
      rewrite (int_to_url_not_word post_id "c" "reate")
        by (apply not_digit_letter; vm_compute; lia).
      now rewrite int_converter_int_to_url.
    + rewrite int_converter_int_to_url. reflexivity.
    + rewrite int_converter_int_to_url. reflexivity.
    + rewrite int_converter_int_to_url. reflexivity.
    + rewrite !int_converter_int_to_url.
      destruct (int_to_url comment_id); reflexivity.
    + rewrite !int_converter_int_to_url.
      destruct (int_to_url comment_id); reflexivity.
    + destruct Hwf as (Hne & _ & Hnot).
      cbn [String.eqb Ascii.eqb Bool.eqb andb].
      apply String.eqb_neq in Hnot. rewrite Hnot.
      destruct username; [contradiction | reflexivity].
    + destruct Hwf as (Hne & Hslug).
      cbn [String.eqb Ascii.eqb Bool.eqb andb]. unfold slug_converter.
      rewrite Hslug. destruct category_slug; [contradiction | reflexivity].
  - destruct r; try exact I.
    + apply Hwf.
    + apply slug_no_slash, Hwf.
Qed.

(** X19: the URL configuration leads back to the route it was reversed
    from.  For every route whose user name or slug the converters accept,
    resolving the reversed path gives that route with the same arguments;
    hence two such routes never share a path.  The one name that does not
    come back is the user name [edit_profile]: its profile path resolves
    to the profile form, which is listed first. *)
Theorem resolve_reverse_round_trip :
  (forall r, well_formed_route r -> resolve (route_path r) = Some r)
  /\ (forall r1 r2, well_formed_route r1 -> well_formed_route r2 ->
        route_path r1 = route_path r2 -> r1 = r2)
  /\ resolve (route_path (Route.profile "edit_profile")) = Some Route.edit_profile
  /\ (forall path, resolve path <> Some (Route.profile "edit_profile")).
Proof.
  split; [exact resolve_route_path|]. split; [|split; [reflexivity|]].
  - intros r1 r2 H1 H2 E.
    apply resolve_route_path in H1, H2. rewrite E in H1. congruence.
  - intros path. unfold resolve.
    destruct (split_path path) as [|a [|b [|c [|d [|e [|f [|g t]]]]]]];
      try discriminate.
    all: try (destruct (String.eqb b "edit_profile") eqn:E;
              [|apply String.eqb_neq in E]).
    all: repeat match goal with
         | |- context [match ?s with EmptyString => _ | String _ _ => _ end] =>
             is_var s; destruct s
         end.
    all: repeat (case_step; simpl); try discriminate; try congruence.
    all: try (destruct (int_converter b); discriminate).
    all: try (destruct (slug_converter b); discriminate).
    all: unfold str_converter; destruct b; simpl; congruence.
Qed.

Lemma resolve_reverse_round_trip_witness :
  resolve (route_path (Route.edit_comment 12 3)) = Some (Route.edit_comment 12 3)
  /\ resolve (route_path (Route.profile "bob")) = Some (Route.profile "bob").
Proof.
  split.
  - exact (proj1 resolve_reverse_round_trip (Route.edit_comment 12 3) I).
  - apply (proj1 resolve_reverse_round_trip (Route.profile "bob")).
    simpl. repeat split; try discriminate. intuition discriminate.
Defined.

(** ** The literal that tells the two comment routes apart *)

Lemma prefix_fresh (needle a s : string) (x : Ascii.ascii) :
  ~ In x (list_ascii_of_string needle) ->
  String.prefix needle (a ++ String x s) = String.prefix needle a.
Proof.
  revert a. induction needle as [|n ns IH]; intros a Hx; [destruct a; reflexivity|].
  simpl in Hx. destruct a as [|c a']; simpl.
  - destruct (Ascii.ascii_dec n x) as [->|]; [|reflexivity]. exfalso. auto.
  - destruct (Ascii.ascii_dec n c); [|reflexivity]. apply IH. auto.
Qed.

Lemma contains_app_fresh (needle a s : string) (x : Ascii.ascii) :
  needle <> EmptyString ->
  ~ In x (list_ascii_of_string needle) ->
  contains needle (a ++ String x s)
  = contains needle a || contains needle (String x s).
Proof.
  intros Hne Hx. induction a as [|c a' IH].
  - simpl (contains needle ""). destruct needle; [contradiction | reflexivity].
  - change (contains needle (String c a' ++ String x s))
      with (String.prefix needle (String c (a' ++ String x s))
            || contains needle (a' ++ String x s)).
    change (contains needle (String c a'))
      with (String.prefix needle (String c a') || contains needle a').
    rewrite IH.
    change (String c (a' ++ String x s)) with (String c a' ++ String x s)%string.
    rewrite prefix_fresh by assumption. now rewrite orb_assoc.
Qed.

Lemma prefix_chars (needle s : string) (ch : Ascii.ascii) :
  String.prefix needle s = true ->
  In ch (list_ascii_of_string needle) -> In ch (list_ascii_of_string s).
Proof.
  revert s. induction needle as [|n ns IH]; intros s Hp Hin; [contradiction|].
  destruct s as [|c s']; [discriminate|]. simpl in Hp.
  destruct (Ascii.ascii_dec n c) as [->|]; [|discriminate].
  destruct Hin as [<-|Hin]; [now left | right; eauto].
Qed.

Lemma contains_lacks_char (needle s : string) (ch : Ascii.ascii) :
  In ch (list_ascii_of_string needle) ->
  ~ In ch (list_ascii_of_string s) ->
  contains needle s = false.
Proof.
  intros Hin. induction s as [|c s' IH]; intros Hno.
  - simpl. destruct needle; [contradiction | reflexivity].
  - change (contains needle (String c s'))
      with (String.prefix needle (String c s') || contains needle s').
    rewrite IH by (simpl in Hno; tauto).
    destruct (String.prefix needle (String c s')) eqn:E; [|reflexivity].
    exfalso. apply Hno. eapply prefix_chars; eauto.
Qed.

Lemma contains_app_r (needle a b : string) :
  contains needle b = true -> contains needle (a ++ b) = true.
Proof.
  intros Hb. induction a as [|c a' IH]; [exact Hb|].
  change (contains needle (String c a' ++ b))
    with (String.prefix needle (String c (a' ++ b)) || contains needle (a' ++ b)).
  rewrite IH. apply orb_true_r.
Qed.

Lemma list_ascii_of_string_app (a b : string) :
  list_ascii_of_string (a ++ b) = list_ascii_of_string a ++ list_ascii_of_string b.
Proof. induction a as [|c a' IH]; simpl; [reflexivity | now rewrite IH]. Qed.

Lemma delete_route_has_literal (mount : string) (post_id comment_id : nat) :
  contains "/delete_comment/"
    (mount ++ route_path (Route.delete_comment post_id comment_id)) = true.
Proof.
  apply contains_app_r. unfold route_path.
  apply (contains_app_r _ "posts/"), contains_app_r, (contains_app_r _ "/comment/"),
    contains_app_r.
  reflexivity.
Qed.

Lemma edit_route_lacks_literal (mount : string) (post_id comment_id : nat) :
  contains "/delete_comment/"
    (mount ++ route_path (Route.edit_comment post_id comment_id))
  = contains "/delete_comment/" mount.
Proof.
  unfold route_path.
  set (rest := ("osts/" ++ int_to_url post_id ++ "/comment/" ++ int_to_url comment_id
                ++ "/edit_comment/")%string).
  change ("posts/" ++ int_to_url post_id ++ "/comment/" ++ int_to_url comment_id
          ++ "/edit_comment/")%string with (String "p" rest).
  rewrite contains_app_fresh; [|discriminate | simpl; intuition discriminate].
  rewrite (contains_lacks_char "/delete_comment/" (String "p" rest) "l");
    [apply orb_false_r | simpl; tauto |].
  subst rest.
  change (list_ascii_of_string (String "p" ("osts/" ++ int_to_url post_id ++ "/comment/"
                      ++ int_to_url comment_id ++ "/edit_comment/")))
    with (list_ascii_of_string
            ("posts/" ++ int_to_url post_id ++ "/comment/" ++ int_to_url comment_id
             ++ "/edit_comment/")).
  rewrite !list_ascii_of_string_app, !in_app_iff.
  intros [Hin|[Hin|[Hin|[Hin|Hin]]]].
  - simpl in Hin. intuition discriminate.
  - apply int_to_url_digits in Hin. unfold is_digit in Hin. simpl in Hin.
    intuition discriminate.
  - simpl in Hin. intuition discriminate.
  - apply int_to_url_digits in Hin. unfold is_digit in Hin. simpl in Hin.
    intuition discriminate.
  - simpl in Hin. intuition discriminate.
Qed.

Section CommentRoutes.
Context `{Project}.

(** X20: [edit_comment] tells deletion from editing by the literal
    [/delete_comment/] in the path, not by the route.  The path of the
    delete route always holds the literal.  The path of the edit route
    holds it exactly when the prefix the configuration is mounted at holds
    it: under a prefix without the literal, a request to the edit route
    never removes a comment, whoever sends it and whatever it submits;
    under a prefix with the literal, a POST of the author to the edit
    route deletes the comment. *)
Theorem comment_route_is_told_by_path_literal
    (db : Store) (time_now : Z) (request : HttpRequest.t) (mount : string)
    (n m : nat) :
  HttpRequest.path request = (mount ++ route_path (Route.edit_comment n m))%string ->
  (forall mount' n' m',
      contains "/delete_comment/"
        (mount' ++ route_path (Route.delete_comment n' m')) = true)
  /\ (contains "/delete_comment/" mount = false ->
      map Comment.pk
        (comments (snd (urlpatterns (Route.edit_comment n m) time_now request db)))
      = map Comment.pk (comments db))
  /\ (contains "/delete_comment/" mount = true ->
      forall post comment,
        unique_pks db ->
        In post (posts db) -> In comment (comments db) ->
        Post.pk post = Z.of_nat n -> Comment.pk comment = Z.of_nat m ->
        Comment.comment_post comment = Post.pk post ->
        user_eq (HttpRequest.user request) (Comment.author comment) = true ->
        HttpRequest.method request = POST ->
        urlpatterns (Route.edit_comment n m) time_now request db
        = (inr (redirect (blog_post_detail (Post.pk post))),
           snd (Comment_delete comment db))).
Proof.
  intros Hpath.
  assert (Hlit : contains "/delete_comment/" (HttpRequest.path request)
                 = contains "/delete_comment/" mount).
  { rewrite Hpath. apply edit_route_lacks_literal. }
  split; [exact delete_route_has_literal|]. split.
  - intros Hclean. simpl. unfold edit_comment. run_view.
    rewrite Hlit, Hclean.
    repeat (case_step; simpl); try reflexivity.
    all: apply (map_pk_replace Comment.pk).
  - intros Hdirty post comment Hu Hp Hc Hn Hm Hlink Hown Hpost.
    simpl. rewrite <- Hn, <- Hm. unfold edit_comment. run_view.
    rewrite (get_post_by_pk db post Hu Hp), <- Hlink.
    rewrite (get_comment_of_post db comment Hu Hc), Hown. simpl.
    rewrite Hlit, Hdirty, Hpost. reflexivity.
Qed.
End CommentRoutes.

Lemma comment_route_is_told_by_path_literal_witness :
  map Comment.pk
    (comments (snd (@urlpatterns Demo.project (Route.edit_comment 1 1) Demo.time_now
                      (Demo.request (AuthUser Demo.bob) POST
                         "/posts/1/comment/1/edit_comment/" [("text", "Very nice")])
                      Demo.db)))
  = [1; 2]
  /\ @urlpatterns Demo.project (Route.edit_comment 1 1) Demo.time_now
       (Demo.request (AuthUser Demo.bob) POST
          "/delete_comment/posts/1/comment/1/edit_comment/" [("text", "Very nice")])
       Demo.db
     = (inr (redirect (blog_post_detail 1)), snd (Comment_delete Demo.praise Demo.db)).
Proof.
  split.
  - exact (proj1 (proj2 (@comment_route_is_told_by_path_literal Demo.project Demo.db
                           Demo.time_now
                           (Demo.request (AuthUser Demo.bob) POST
                              "/posts/1/comment/1/edit_comment/" [("text", "Very nice")])
                           "/" 1 1 eq_refl)) eq_refl).
  - exact (proj2 (proj2 (@comment_route_is_told_by_path_literal Demo.project Demo.db
                           Demo.time_now
                           (Demo.request (AuthUser Demo.bob) POST
                              "/delete_comment/posts/1/comment/1/edit_comment/"
                              [("text", "Very nice")])
                           "/delete_comment/" 1 1 eq_refl)) eq_refl
             Demo.rome Demo.praise Demo_db_unique_pks ltac:(simpl; tauto)
             ltac:(simpl; tauto) eq_refl eq_refl eq_refl eq_refl eq_refl).
Defined.

(** ** No server error *)

Lemma NoDup_map_filter_any {A K : Type} (key : A -> K) (f : A -> bool) (l : list A) :
  NoDup (map key l) -> NoDup (map key (filter f l)).
Proof.
  induction l as [|a t IH]; simpl; intros Hnd; [constructor|].
  inversion Hnd as [|k ks Hnotin Hnd']; subst.
  destruct (f a); simpl; [|auto].
  constructor; [|auto].
  intros Hin. apply Hnotin. apply in_map_iff in Hin as (y & Hy & Hiny).
  apply filter_In in Hiny as [Hiny _]. rewrite <- Hy. now apply in_map.
Qed.

(** A lookup on a unique key finds one row or none. *)
Lemma get_object_or_404_unique {A K : Type} (key : A -> K) (f : A -> bool)
    (l : list A) (e : Exn) :
  NoDup (map key l) ->
  (forall x y, f x = true -> f y = true -> key x = key y) ->
  get_object_or_404 (filter f l) = inl e -> e = Http404.
Proof.
  intros Hnd Hkey E.
  pose proof (NoDup_map_filter_any key f l Hnd) as Hnd'.
  destruct (filter f l) as [|x [|y t]] eqn:Ef; simpl in E.
  - now injection E as <-.
  - discriminate.
  - exfalso. simpl in Hnd'. inversion Hnd' as [|k ks Hnotin _]; subst.
    apply Hnotin. left.
    assert (Hx : In x (filter f l)) by (rewrite Ef; now left).
    assert (Hy : In y (filter f l)) by (rewrite Ef; right; now left).
    apply filter_In in Hx as [_ Hx]. apply filter_In in Hy as [_ Hy].
    symmetry. now apply Hkey.
Qed.

Lemma get_filtered_posts_NoDup_any (db : Store) (time_now : Z)
    (posts : option (list Post.t)) (apply_filter apply_annotation : bool) :
  NoDup (map Post.pk (py_or posts (Post_objects_all db))) ->
  NoDup (map (fun r => Post.pk (row_post r))
           (get_filtered_posts db time_now posts apply_filter apply_annotation)).
Proof.
  intros Hbase. unfold get_filtered_posts.
  set (base := py_or posts (Post_objects_all db)) in *.
  set (kept := if apply_filter then filter (visible db time_now) base else base).
  assert (Hk : NoDup (map Post.pk kept)).
  { subst kept. destruct apply_filter; [now apply NoDup_map_filter | assumption]. }
  eapply Permutation_NoDup.
  - apply Permutation_sym, Permutation_map, order_by_desc_perm.
  - destruct apply_annotation; rewrite map_map; simpl; exact Hk.
Qed.

Lemma post_lookup_404 (db : Store) (k : Z) (e : Exn) :
  unique_pks db ->
  get_object_or_404 (filter (fun p => Post.pk p =? k) (posts db)) = inl e ->
  e = Http404.
Proof.
  intros (_ & _ & Hp & _). apply (get_object_or_404_unique Post.pk); [assumption|].
  intros x y Hx Hy. apply Z.eqb_eq in Hx, Hy. congruence.
Qed.

Lemma ordered_post_lookup_404 (db : Store) (k : Z) (e : Exn) :
  unique_pks db ->
  get_object_or_404 (filter (fun p => Post.pk p =? k) (Post_objects_all db)) = inl e ->
  e = Http404.
Proof.
  intros Hu. apply (get_object_or_404_unique Post.pk);
    [now apply Post_objects_all_NoDup|].
  intros x y Hx Hy. apply Z.eqb_eq in Hx, Hy. congruence.
Qed.

Lemma comment_lookup_404 (db : Store) (k j : Z) (e : Exn) :
  unique_pks db ->
  get_object_or_404
    (filter (fun c => (Comment.pk c =? k) && (Comment.comment_post c =? j))
            (comments db)) = inl e ->
  e = Http404.
Proof.
  intros (_ & _ & _ & Hc). apply (get_object_or_404_unique Comment.pk); [assumption|].
  intros x y Hx Hy. apply andb_true_iff in Hx as [Hx _], Hy as [Hy _].
  apply Z.eqb_eq in Hx, Hy. congruence.
Qed.

Lemma user_lookup_404 (db : Store) (name : string) (e : Exn) :
  unique_names db ->
  get_object_or_404 (filter (fun u => String.eqb (User.username u) name) (users db))
  = inl e ->
  e = Http404.
Proof.
  intros (Hn & _). apply (get_object_or_404_unique User.username); [assumption|].
  intros x y Hx Hy. apply String.eqb_eq in Hx, Hy. congruence.
Qed.

Lemma category_lookup_404 (db : Store) (slug : string) (e : Exn) :
  unique_names db ->
  get_object_or_404
    (filter (fun c => String.eqb (Category.slug c) slug
                      && Bool.eqb (Category.is_published c) true)
            (categories db)) = inl e ->
  e = Http404.
Proof.
  intros (_ & Hs). apply (get_object_or_404_unique Category.slug); [assumption|].
  intros x y Hx Hy. apply andb_true_iff in Hx as [Hx _], Hy as [Hy _].
  apply String.eqb_eq in Hx, Hy. congruence.
Qed.

Lemma row_lookup_404 (db : Store) (time_now : Z) (posts : option (list Post.t))
    (k : Z) (e : Exn) :
  unique_pks db ->
  posts = None \/ posts = Some (Post_objects_all db) ->
  get_object_or_404
    (filter (fun r => Post.pk (row_post r) =? k)
            (get_filtered_posts db time_now posts true false)) = inl e ->
  e = Http404.
Proof.
  intros Hu Hposts.
  apply (get_object_or_404_unique (fun r => Post.pk (row_post r))).
  - apply get_filtered_posts_NoDup_any.
    destruct Hposts as [-> | ->]; [simpl | rewrite py_or_self];
      now apply Post_objects_all_NoDup.
  - intros x y Hx Hy. apply Z.eqb_eq in Hx, Hy. congruence.
Qed.

Section NoServerError.
Context `{Project}.

Ltac impossible Hu Hn HS :=
  exfalso;
  first
    [ match goal with
      | E : get_object_or_404 _ = inl _ |- _ =>
          first [ apply (post_lookup_404 _ _ _ Hu) in E
                | apply (ordered_post_lookup_404 _ _ _ Hu) in E
                | apply (comment_lookup_404 _ _ _ _ Hu) in E
                | apply (user_lookup_404 _ _ _ Hn) in E
                | apply (category_lookup_404 _ _ _ Hn) in E
                | apply (row_lookup_404 _ _ _ _ _ Hu) in E; [|auto] ];
          discriminate
      end
    | match goal with
      | E : paginate ?l ?a _ = inl _ |- _ =>
          destruct (paginate_total l POSTS_LIMIT a HS) as (pg & Epg);
          rewrite Epg in E; discriminate
      end
    | match goal with
      | E1 : HttpRequest.user ?r = _, E2 : context [HttpRequest.user ?r] |- _ =>
          rewrite E1 in E2; simpl in E2; discriminate
      end ].

(** X21: where the 500 page can come from.  On a store with unique keys,
    user names and slugs, and with a positive page size, the routes other
    than [profile] and [category_posts] never answer with the 500 page,
    whatever the request: the only exception their views let out is
    [Http404].  The lookups never meet two rows, the pager never fails, and
    the views behind the login gate never see an anonymous user.  The two
    routes that read the accessor [post] answer with the 404 page or the
    500 page and nothing else. *)
Theorem server_error_only_from_post_accessor
    (r : Route.t) (time_now : Z) (request : HttpRequest.t) (db : Store) :
  unique_pks db -> unique_names db -> 0 < POSTS_LIMIT ->
  (reads_post_accessor r = false ->
   fst (respond (urlpatterns r time_now request) db) <> HttpResponseServerError)
  /\ (reads_post_accessor r = true ->
      fst (respond (urlpatterns r time_now request) db) = HttpResponseNotFound
      \/ fst (respond (urlpatterns r time_now request) db) = HttpResponseServerError).
Proof.
  intros Hu Hn HS. split; intros Hr.
  - unfold respond.
    destruct r; try discriminate Hr; simpl;
      unfold PostCreateView, CreateView_dispatch, PostDetailView,
        PostDetailView_get_object, PostUpdateView, UpdateView_dispatch,
        AuthorRequiredMixin_dispatch, SingleObjectMixin_get_object,
        LoginRequiredMixin_dispatch, delete_post, add_comment, edit_comment,
        edit_profile, login_required, index;
      run_view; simpl;
      repeat (case_step; simpl); try discriminate.
    all: impossible Hu Hn HS.
  - unfold respond.
    destruct r; try discriminate Hr; simpl;
      unfold profile, category_posts; run_view;
      destruct (get_object_or_404 _) as [[]|]; simpl; auto.
Qed.
End NoServerError.

Lemma server_error_only_from_post_accessor_witness :
  fst (respond (@urlpatterns Demo.project (Route.post_detail 3) Demo.time_now
                  (Demo.request AnonymousUser GET "/posts/3/" [])) Demo.db)
  = HttpResponseNotFound
  /\ fst (respond (@urlpatterns Demo.project (Route.post_detail 3) Demo.time_now
                     (Demo.request AnonymousUser GET "/posts/3/" [])) Demo.db)
     <> HttpResponseServerError
  /\ fst (respond (@urlpatterns Demo.project (Route.profile "alice") Demo.time_now
                     (Demo.request AnonymousUser GET "/profile/alice/" [])) Demo.db)
     = HttpResponseServerError.
Proof.
  split; [reflexivity|]. split; [|reflexivity].
  exact (proj1 (@server_error_only_from_post_accessor Demo.project (Route.post_detail 3)
                  Demo.time_now (Demo.request AnonymousUser GET "/posts/3/" []) Demo.db
                  Demo_db_unique_pks Demo_db_unique_names ltac:(reflexivity))
           eq_refl).
Defined.

(** ** The two switches of [get_filtered_posts] *)

Lemma map_insert_desc {A B : Type} (key : B -> Z) (g : A -> B) (a : A) (l : list A) :
  map g (insert_desc (fun x => key (g x)) a l) = insert_desc key (g a) (map g l).
Proof.
  induction l as [|x t IH]; simpl; [reflexivity|].
  destruct (key (g x) <=? key (g a)); simpl; [reflexivity | now rewrite IH].
Qed.

Lemma map_order_by_desc {A B : Type} (key : B -> Z) (g : A -> B) (l : list A) :
  map g (order_by_desc (fun x => key (g x)) l) = order_by_desc key (map g l).
Proof.
  induction l as [|a t IH]; simpl; [reflexivity|].
  now rewrite map_insert_desc, IH.
Qed.

Lemma get_filtered_posts_posts (db : Store) (time_now : Z)
    (posts : option (list Post.t)) (apply_filter apply_annotation : bool) :
  map row_post (get_filtered_posts db time_now posts apply_filter apply_annotation)
  = order_by_desc Post.pub_date
      (if apply_filter
       then filter (visible db time_now) (py_or posts (Post_objects_all db))
       else py_or posts (Post_objects_all db)).
Proof.
  unfold get_filtered_posts.
  rewrite (map_order_by_desc Post.pub_date row_post).
  destruct apply_annotation; [now rewrite row_post_annotate | now rewrite row_post_plain].
Qed.

(** X22: the two switches are independent.  Asking for the comment counts
    changes neither which posts come back nor their order.  With the filter
    off, every post of the collection comes back exactly once.  Turning
    the filter on only removes rows: each row it returns is a row of the
    unfiltered result, with the same count. *)
Theorem switches_are_independent
    (db : Store) (time_now : Z) (posts : option (list Post.t)) :
  (forall apply_filter,
      map row_post (get_filtered_posts db time_now posts apply_filter true)
      = map row_post (get_filtered_posts db time_now posts apply_filter false))
  /\ (forall apply_annotation,
        Permutation
          (map row_post (get_filtered_posts db time_now posts false apply_annotation))
          (py_or posts (Post_objects_all db)))
  /\ (forall apply_annotation r,
        In r (get_filtered_posts db time_now posts true apply_annotation) ->
        In r (get_filtered_posts db time_now posts false apply_annotation)).
Proof.
  split; [|split].
  - intros apply_filter. now rewrite !get_filtered_posts_posts.
  - intros apply_annotation. rewrite get_filtered_posts_posts.
    apply order_by_desc_perm.
  - intros apply_annotation r. unfold get_filtered_posts.
    rewrite !order_by_desc_In.
    destruct apply_annotation; rewrite !in_map_iff;
      intros (p & Hr & Hin); exists p; (split; [assumption|]);
      now apply filter_In in Hin.
Qed.

Lemma switches_are_independent_witness :
  map (fun r => Post.title (row_post r))
      (get_filtered_posts Demo.db Demo.time_now None false true)
  = ["Later"; "Oslo"; "Secret"; "Loose"; "Rome"]
  /\ map row_post (get_filtered_posts Demo.db Demo.time_now None false true)
     = map row_post (get_filtered_posts Demo.db Demo.time_now None false false).
Proof.
  split; [reflexivity|].
  exact (proj1 (switches_are_independent Demo.db Demo.time_now None) false).
Defined.
